(** * darktable history stack: copy, paste, merge and delete

    A shallow embedding of [src/common/history.c].  The SQLite tables the
    file works on are lists of rows kept in rowid order, every SQL statement
    of the source is one function on those lists (the statement is quoted
    above its function), and the C code around the statements is translated
    line by line.

    Conventions of the embedding:
    - INTEGER columns are [Z]; a value read with [sqlite3_column_int] is
      truncated to 32 bits as the C API does.  The C [int] counter
      [multi_priority_next] is raised by [int_succ], which wraps at
      INT_MAX; [c_mi] counts the staged rows of one operation and is left
      unbounded, since 2^31 such rows are out of reach.  A sum that SQLite
      computes before it is read ([next_num]) leaves the 64-bit integers
      as SQLite does.
    - TEXT columns are [string] (no NUL byte inside, not NULL).  Equality in
      SQL ([=], BINARY collation) and [strcmp(..) == 0] are [String.eqb];
      [ORDER BY] on text is the byte order [String_as_OT.compare].
    - Buffers of fixed size ([char op[1024]], [operation_prev[257]],
      [req[2048]]) truncate as [snprintf], [g_strlcpy] and [g_strlcat] do.
    - [ORDER BY] keeps rows with equal keys in table order, and a bare
      column next to [MAX(num)] comes from the first row reaching the
      maximum.
    - The statements always execute: the source never looks at the result
      of [sqlite3_step] for a write, and the embedding has no failing
      store.  Cache, sidecar, tag and view hooks are outside the tables and
      are left out; the functions that do nothing else take them as
      parameters. *)

From Stdlib Require Import ZArith List String Ascii Bool Lia Permutation.
From Stdlib Require Import Sorting.Sorted Structures.OrdersEx DecimalString.
From Stdlib Require Import RelationClasses.
From Stdlib Require Import Init.Byte.
From Stdlib Require Decimal DecimalFacts DecimalPos Nnat.
Import ListNotations.
Local Open Scope Z_scope.

(** ** C and glib helpers *)

(** [sqlite3_column_int]: the low 32 bits of the stored 64-bit integer,
    read as a signed [int]. *)
Definition sqlite3_column_int (v : Z) : Z :=
  (v + 2147483648) mod 4294967296 - 2147483648.

(** [++] on an [int], as the machine does it: from INT_MAX the counter
    wraps to INT_MIN (C leaves that step undefined). *)
Definition int_succ (v : Z) : Z :=
  if v =? 2147483647 then -2147483648 else v + 1.

(** [GPOINTER_TO_UINT]: the pointer-sized list payload cut to [unsigned int]. *)
Definition GPOINTER_TO_UINT (p : Z) : Z := p mod 4294967296.

(** [snprintf(buf, size, "%s", s)] and [g_strlcpy(buf, s, size)]: at most
    [size - 1] bytes of [s]. *)
Definition snprintf_s (size : nat) (s : string) : string :=
  substring 0 (size - 1) s.

Definition g_strlcpy (src : string) (size : nat) : string :=
  substring 0 (size - 1) src.

(** [g_strlcat(dst, src, size)]: the concatenation cut to [size - 1] bytes. *)
Definition g_strlcat (dst src : string) (size : nat) : string :=
  substring 0 (size - 1) (dst ++ src)%string.

(** [snprintf(v, sizeof(v), "%u", value)] *)
Definition snprintf_u (value : Z) : string :=
  NilZero.string_of_uint (N.to_uint (Z.to_N value)).

(** ** Tables *)

(** main.history, columns in the order of the INSERT of
    [dt_history_copy_and_paste_on_image]. *)
Record history_row : Type := mk_history
  { h_imgid : Z;
    h_num : Z;
    h_module : Z;
    h_operation : string;
    h_op_params : list byte;
    h_enabled : Z;
    h_blendop_params : list byte;
    h_blendop_version : Z;
    h_multi_priority : Z;
    h_multi_name : string }.

(** memory.style_items, with its implicit rowid. *)
Record style_item : Type := mk_style
  { s_rowid : Z;
    s_num : Z;
    s_module : Z;
    s_operation : string;
    s_op_params : list byte;
    s_enabled : Z;
    s_blendop_params : list byte;
    s_blendop_version : Z;
    s_multi_name : string;
    s_multi_priority : Z }.

(** main.mask *)
Record mask_row : Type := mk_mask
  { m_imgid : Z;
    m_formid : Z;
    m_form : Z;
    m_name : string;
    m_version : Z;
    m_points : list byte;
    m_points_count : Z;
    m_source : list byte }.

(** main.images: the two columns the statements of the file name;
    [history_end] may be NULL. *)
Record image_row : Type := mk_image
  { i_id : Z;
    i_history_end : option Z }.

Record database : Type := mk_db
  { main_history : list history_row;
    main_images : list image_row;
    main_mask : list mask_row;
    main_selected_images : list Z;
    memory_style_items : list style_item }.

Definition set_history (db : database) (h : list history_row) : database :=
  mk_db h (main_images db) (main_mask db) (main_selected_images db)
        (memory_style_items db).

Definition set_images (db : database) (i : list image_row) : database :=
  mk_db (main_history db) i (main_mask db) (main_selected_images db)
        (memory_style_items db).

Definition set_mask (db : database) (m : list mask_row) : database :=
  mk_db (main_history db) (main_images db) m (main_selected_images db)
        (memory_style_items db).

Definition set_style_items (db : database) (s : list style_item) : database :=
  mk_db (main_history db) (main_images db) (main_mask db)
        (main_selected_images db) s.

Definition h_set_multi_priority (h : history_row) (mp : Z) : history_row :=
  mk_history (h_imgid h) (h_num h) (h_module h) (h_operation h)
             (h_op_params h) (h_enabled h) (h_blendop_params h)
             (h_blendop_version h) mp (h_multi_name h).

Definition s_set_multi_priority (s : style_item) (mp : Z) : style_item :=
  mk_style (s_rowid s) (s_num s) (s_module s) (s_operation s)
           (s_op_params s) (s_enabled s) (s_blendop_params s)
           (s_blendop_version s) (s_multi_name s) mp.

Definition s_set_num (s : style_item) (n : Z) : style_item :=
  mk_style (s_rowid s) n (s_module s) (s_operation s)
           (s_op_params s) (s_enabled s) (s_blendop_params s)
           (s_blendop_version s) (s_multi_name s) (s_multi_priority s).

(** ** SQL helpers *)

(** [MAX(..)] of a column: NULL on no row. *)
Definition sql_max (l : list Z) : option Z :=
  match l with
  | [] => None
  | x :: l' => Some (fold_left Z.max l' x)
  end.

Definition IFNULL (v : option Z) (d : Z) : Z :=
  match v with
  | Some x => x
  | None => d
  end.

(** [ORDER BY]: insertion sort, stable. *)
Section OrderBy.

Context {A : Type} (leb : A -> A -> bool).

Fixpoint order_insert (x : A) (l : list A) : list A :=
  match l with
  | [] => [x]
  | y :: l' => if leb x y then x :: l else y :: order_insert x l'
  end.

Fixpoint order_by (l : list A) : list A :=
  match l with
  | [] => []
  | x :: l' => order_insert x (order_by l')
  end.

End OrderBy.

(** The key [operation, multi_priority] of [ORDER BY] and [GROUP BY]. *)
Definition key_leb (k1 k2 : string * Z) : bool :=
  match String_as_OT.compare (fst k1) (fst k2) with
  | Lt => true
  | Eq => snd k1 <=? snd k2
  | Gt => false
  end.

Definition key_eqb (k1 k2 : string * Z) : bool :=
  String.eqb (fst k1) (fst k2) && (snd k1 =? snd k2).

Definition h_key (h : history_row) : string * Z :=
  (h_operation h, h_multi_priority h).

Definition s_key (s : style_item) : string * Z :=
  (s_operation s, s_multi_priority s).

(** Keys of a result set, each once. *)
Fixpoint distinct_keys (l : list (string * Z)) : list (string * Z) :=
  match l with
  | [] => []
  | k :: l' => k :: filter (fun k' => negb (key_eqb k k')) (distinct_keys l')
  end.

(** The row of a group that carries [MAX(num)]. *)
Definition max_num_row (r : history_row) (rs : list history_row) : history_row :=
  fold_left (fun best x => if h_num best <? h_num x then x else best) rs r.

(** [SELECT MAX(num), .. FROM rows GROUP BY operation, multi_priority]:
    one row per key, the groups in key order. *)
Definition group_by_operation_multi_priority (rows : list history_row)
  : list history_row :=
  flat_map
    (fun k =>
       match filter (fun h => key_eqb k (h_key h)) rows with
       | [] => []
       | r :: rs => [max_num_row r rs]
       end)
    (order_by key_leb (distinct_keys (map h_key rows))).

(** [SELECT DISTINCT operation FROM memory.style_items] *)
Fixpoint distinct_operations (l : list string) : list string :=
  match l with
  | [] => []
  | o :: l' => o :: filter (fun o' => negb (String.eqb o o')) (distinct_operations l')
  end.

(** [SELECT MAX(multi_priority) FROM memory.style_items WHERE operation = op] *)
Definition style_max_multi_priority (items : list style_item) (op : string)
  : option Z :=
  sql_max (map s_multi_priority
               (filter (fun s => String.eqb (s_operation s) op) items)).

(** ** The operation catalog [darktable.iop] *)

Record dt_iop_module_so_t : Type := mk_module_so
  { so_op : string;
    so_flags : Z }.

Section History.

(** [IOP_FLAGS_ONE_INSTANCE] is declared in develop/imageop.h; its value is
    a parameter of the development. *)
Variable IOP_FLAGS_ONE_INSTANCE : Z.

(** The walk over [darktable.iop] that precedes every use of the flag:
    the first module named [op], and whether its flags carry
    [IOP_FLAGS_ONE_INSTANCE].  An operation that is not in the catalog is
    not single-instance. *)
Definition one_instance (iop : list dt_iop_module_so_t) (op : string) : bool :=
  match find (fun m => String.eqb (so_op m) op) iop with
  | Some m => negb (Z.land (so_flags m) IOP_FLAGS_ONE_INSTANCE =? 0)
  | None => false
  end.

(** ** [dt_history_delete_on_image] *)

(** DELETE FROM main.history WHERE imgid = ?1 *)
Definition delete_history (history : list history_row) (imgid : Z)
  : list history_row :=
  filter (fun h => negb (h_imgid h =? imgid)) history.

(** DELETE FROM main.mask WHERE imgid = ?1 *)
Definition delete_mask (mask : list mask_row) (imgid : Z) : list mask_row :=
  filter (fun m => negb (m_imgid m =? imgid)) mask.

(** UPDATE main.images SET history_end = 0 WHERE id = ?1 *)
Definition reset_history_end (images : list image_row) (imgid : Z)
  : list image_row :=
  map (fun i => if i_id i =? imgid then mk_image (i_id i) (Some 0) else i) images.

(** The three statements of the function.  [remove_preset_flag] clears a bit
    of the image flags through the image cache; it and the calls after it
    leave the history, mask and [history_end] columns alone. *)
Definition dt_history_delete_on_image (db : database) (imgid : Z) : database :=
  let db := set_history db (delete_history (main_history db) imgid) in
  let db := set_images db (reset_history_end (main_images db) imgid) in
  set_mask db (delete_mask (main_mask db) imgid).

(** ** [_dt_history_cleanup_multi_instance] *)

Record _history_item_t : Type := mk_history_item
  { hi_num : Z;
    hi_op : string;
    hi_mi : Z;
    hi_new_mi : Z }.

(** SELECT num, operation, multi_priority FROM memory.style_items
    ORDER BY operation, multi_priority *)
Definition style_items_ordered (items : list style_item) : list style_item :=
  order_by (fun a b => key_leb (s_key a) (s_key b)) items.

(** The first loop: every row of a module that is not single-instance
    becomes one [_history_item_t], [new_mi] preset to -5. *)
Definition cleanup_load (iop : list dt_iop_module_so_t) (items : list style_item)
  : list _history_item_t :=
  map (fun s => mk_history_item (sqlite3_column_int (s_num s))
                                (snprintf_s 1024 (s_operation s))
                                (sqlite3_column_int (s_multi_priority s))
                                (-5))
      (filter (fun s => negb (one_instance iop (s_operation s)))
              (style_items_ordered items)).

(** The second loop, with its locals [op], [c_mi] and [nb_change]; it
    returns the list with [new_mi] filled in and the final [nb_change]. *)
Fixpoint cleanup_renumber (hitems : list _history_item_t) (op : string)
         (c_mi nb_change : Z) : list _history_item_t * Z :=
  match hitems with
  | [] => ([], nb_change)
  | hi :: rest =>
      let op' := if String.eqb op (hi_op hi) then op else g_strlcpy (hi_op hi) 1024 in
      let c_mi' := if String.eqb op (hi_op hi) then c_mi else 0 in
      let nb_change' := if hi_mi hi =? c_mi' then nb_change else nb_change + 1 in
      let hi' := mk_history_item (hi_num hi) (hi_op hi) (hi_mi hi) c_mi' in
      let '(rest', nb) := cleanup_renumber rest op' (c_mi' + 1) nb_change' in
      (hi' :: rest', nb)
  end.

(** CASE num WHEN n1 THEN m1 WHEN n2 THEN m2 .. else multi_priority end *)
Fixpoint case_num (whens : list (Z * Z)) (num else_ : Z) : Z :=
  match whens with
  | [] => else_
  | (n, m) :: w => if num =? n then m else case_num w num else_
  end.

(** The WHEN clauses the third loop prints: one per item whose number
    changes. *)
Definition cleanup_whens (hitems : list _history_item_t) : list (Z * Z) :=
  map (fun hi => (hi_num hi, hi_new_mi hi))
      (filter (fun hi => negb (hi_mi hi =? hi_new_mi hi)) hitems).

(** UPDATE memory.style_items SET multi_priority = CASE num .. end *)
Definition cleanup_update (items : list style_item) (whens : list (Z * Z))
  : list style_item :=
  map (fun s => s_set_multi_priority s (case_num whens (s_num s) (s_multi_priority s)))
      items.

Definition cleanup_nb_change (iop : list dt_iop_module_so_t)
           (items : list style_item) : Z :=
  snd (cleanup_renumber (cleanup_load iop items) "" 0 0).

Definition _dt_history_cleanup_multi_instance (iop : list dt_iop_module_so_t)
           (db : database) : database :=
  let hitems := cleanup_load iop (memory_style_items db) in
  let '(hitems, nb_change) := cleanup_renumber hitems "" 0 0 in
  if nb_change =? 0 then db
  else set_style_items db (cleanup_update (memory_style_items db)
                                          (cleanup_whens hitems)).

(** ** [_history_rebuild_multi_priority_append] *)

(** UPDATE main.history SET multi_priority = multi_priority +
      (SELECT IFNULL(MAX(multi_priority), -1)+1 FROM memory.style_items
       WHERE memory.style_items.operation = main.history.operation)
    WHERE imgid = ?1 AND operation = ?2 *)
Definition shift_multi_priority (items : list style_item) (dest_imgid : Z)
           (op_old : string) (history : list history_row) : list history_row :=
  map (fun h =>
         if (h_imgid h =? dest_imgid) && String.eqb (h_operation h) op_old
         then h_set_multi_priority h
                (h_multi_priority h
                 + (IFNULL (style_max_multi_priority items (h_operation h)) (-1) + 1))
         else h)
      history.

Definition _history_rebuild_multi_priority_append
           (iop : list dt_iop_module_so_t) (db : database) (dest_imgid : Z)
  : database :=
  let items := memory_style_items db in
  set_history db
    (fold_left
       (fun history op_old =>
          if one_instance iop op_old then history
          else shift_multi_priority items dest_imgid op_old history)
       (distinct_operations (map s_operation items))
       (main_history db)).

(** ** [dt_history_rebuild_multi_priority_merge] *)

(** The tables the loop writes and its two locals. *)
Record merge_state : Type := mk_merge_state
  { ms_history : list history_row;
    ms_style_items : list style_item;
    operation_prev : string;
    multi_priority_next : Z }.

(** SELECT MAX(num), operation, multi_priority, multi_name FROM main.history
    WHERE imgid = ?1 AND EXISTS (SELECT * FROM memory.style_items WHERE
    main.history.operation=memory.style_items.operation)
    GROUP BY operation, multi_priority ORDER BY operation, multi_priority

    The statement groups through a sorter, so its rows are those of the
    table as it is at the first step. *)
Definition merge_groups (history : list history_row) (items : list style_item)
           (dest_imgid : Z) : list history_row :=
  group_by_operation_multi_priority
    (filter (fun h => (h_imgid h =? dest_imgid)
                      && existsb (fun s => String.eqb (h_operation h) (s_operation s)) items)
            history).

(** SELECT num, operation, multi_name, multi_priority FROM memory.style_items
    WHERE operation=?1 AND multi_name=?2 AND num >= 0   (first row) *)
Definition style_lookup (items : list style_item) (op name : string)
  : option style_item :=
  find (fun s => String.eqb (s_operation s) op
                 && String.eqb (s_multi_name s) name
                 && (0 <=? s_num s))
       items.

(** UPDATE main.history SET multi_priority = new
    WHERE imgid = dest AND operation = op AND multi_priority = old *)
Definition update_multi_priority (history : list history_row) (dest_imgid : Z)
           (op : string) (old new : Z) : list history_row :=
  map (fun h =>
         if (h_imgid h =? dest_imgid) && String.eqb (h_operation h) op
            && (h_multi_priority h =? old)
         then h_set_multi_priority h new else h)
      history.

(** UPDATE memory.style_items SET num = -1 WHERE num = ?1 *)
Definition flag_used (items : list style_item) (num_new : Z) : list style_item :=
  map (fun s => if s_num s =? num_new then s_set_num s (-1) else s) items.

(** One turn of the while loop, on the result row [g].  The MAX query
    that seeds [multi_priority_next] is an aggregate: it always yields its
    one row, and [sqlite3_column_int] reads a NULL as 0. *)
Definition merge_row (iop : list dt_iop_module_so_t) (dest_imgid : Z)
           (st : merge_state) (g : history_row) : merge_state :=
  let op_old := h_operation g in
  let multi_priority_old := sqlite3_column_int (h_multi_priority g) in
  let multi_name_old := h_multi_name g in
  if one_instance iop op_old then st
  else
    let new_op := negb (String.eqb op_old (operation_prev st)) in
    let prev := if new_op then snprintf_s 257 op_old else operation_prev st in
    let next :=
      if new_op
      then sqlite3_column_int
             (IFNULL (style_max_multi_priority (ms_style_items st) op_old) 0)
      else multi_priority_next st in
    let found := style_lookup (ms_style_items st) op_old multi_name_old in
    let num_new :=
      match found with Some s => sqlite3_column_int (s_num s) | None => -1 end in
    let multi_priority_new :=
      match found with
      | Some s => sqlite3_column_int (s_multi_priority s)
      | None => -1
      end in
    if 0 <=? multi_priority_new
    then mk_merge_state
           (update_multi_priority (ms_history st) dest_imgid op_old
                                  multi_priority_old multi_priority_new)
           (flag_used (ms_style_items st) num_new)
           prev next
    else mk_merge_state
           (update_multi_priority (ms_history st) dest_imgid op_old
                                  multi_priority_old (int_succ next))
           (ms_style_items st)
           prev (int_succ next).

Definition merge_init (db : database) : merge_state :=
  mk_merge_state (main_history db) (memory_style_items db) "" (-1).

Definition dt_history_rebuild_multi_priority_merge
           (iop : list dt_iop_module_so_t) (db : database) (dest_imgid : Z)
  : database :=
  let db := _history_rebuild_multi_priority_append iop db dest_imgid in
  let groups := merge_groups (main_history db) (memory_style_items db) dest_imgid in
  let st := fold_left (merge_row iop dest_imgid) groups (merge_init db) in
  set_style_items (set_history db (ms_history st)) (ms_style_items st).

(** ** [dt_history_copy_and_paste_on_image] *)

(** DELETE FROM main.history WHERE imgid = ?1 AND num >=
    (SELECT history_end FROM main.images WHERE id = imgid)

    The comparison with NULL (no image row, or a NULL [history_end]) is
    never true. *)
Definition history_end_of (images : list image_row) (imgid : Z) : option Z :=
  match find (fun i => i_id i =? imgid) images with
  | Some i => i_history_end i
  | None => None
  end.

Definition trim_history (history : list history_row) (images : list image_row)
           (dest_imgid : Z) : list history_row :=
  filter (fun h =>
            negb ((h_imgid h =? dest_imgid)
                  && match history_end_of images (h_imgid h) with
                     | Some e => e <=? h_num h
                     | None => false
                     end))
         history.

Definition history_of (history : list history_row) (imgid : Z)
  : list history_row :=
  filter (fun h => h_imgid h =? imgid) history.

(** SELECT IFNULL(MAX(num), -1)+1 FROM main.history WHERE imgid = ?1

    The sum of two 64-bit integers that leaves their range is computed as
    a REAL: at MAX(num) = 2^63 - 1 the result is the REAL 2^63.  The one
    reader of the result is [sqlite3_column_int], which takes a REAL above
    the range as the largest 64-bit integer. *)
Definition LARGEST_INT64 : Z := 9223372036854775807.

Definition next_num (history : list history_row) (imgid : Z) : Z :=
  Z.min (IFNULL (sql_max (map h_num (history_of history imgid))) (-1) + 1)
        LARGEST_INT64.

(** A row of main.history as a row of memory.style_items. *)
Definition style_of_history (rowid : Z) (h : history_row) : style_item :=
  mk_style rowid (h_num h) (h_module h) (h_operation h) (h_op_params h)
           (h_enabled h) (h_blendop_params h) (h_blendop_version h)
           (h_multi_name h) (h_multi_priority h).

(** INSERT INTO memory.style_items (..) SELECT ..: the new rows take the
    rowids after the largest one in the table, from 1 on an empty table.
    The table is declared in common/database.c without a key of its own,
    so it has the implicit rowid of SQLite; the source relies on it ("rowid
    starts at 1 while num has to start at 0"). *)
Fixpoint number_rows (rowid : Z) (rows : list history_row) : list style_item :=
  match rows with
  | [] => []
  | h :: rows' => style_of_history rowid h :: number_rows (rowid + 1) rows'
  end.

Definition insert_style_items (items : list style_item) (rows : list history_row)
  : list style_item :=
  items ++ number_rows (IFNULL (sql_max (map s_rowid items)) 0 + 1) rows.

(** INSERT INTO memory.style_items (..) SELECT MAX(num) AS max_num, ..
    FROM main.history WHERE imgid = ?1 GROUP BY operation, multi_priority
    ORDER BY max_num *)
Definition select_last_entries (history : list history_row) (imgid : Z)
  : list history_row :=
  order_by (fun a b => h_num a <=? h_num b)
           (group_by_operation_multi_priority (history_of history imgid)).

(** The request text of the other case, built in [char req[2048]]. *)
Definition req_select : string :=
  "INSERT INTO memory.style_items (num, module, operation, op_params, enabled, blendop_params, blendop_version, multi_name, multi_priority) SELECT num, module, operation, op_params, enabled, blendop_params, blendop_version, multi_name, multi_priority FROM main.history WHERE imgid = ?1".

Fixpoint req_values (l : list Z) (first : bool) (req : string) : string :=
  match l with
  | [] => req
  | p :: l' =>
      let value := GPOINTER_TO_UINT p in
      let req := if first then req else g_strlcat req "," 2048 in
      let req := g_strlcat req (snprintf_u value) 2048 in
      req_values l' false req
  end.

Definition build_req (ops : list Z) : string :=
  let req := g_strlcpy req_select 2048 in
  match ops with
  | [] => req
  | _ :: _ =>
      let req := g_strlcat req " AND num IN (" 2048 in
      let req := req_values ops true req in
      g_strlcat req ")" 2048
  end.

(** The text is a statement when nothing was cut from it: a cut text is
    2047 bytes long and has lost the closing parenthesis of its list.
    [sqlite3_prepare_v2] fails on it, [stmt] is NULL and the step does
    nothing. *)
Definition req_complete (ops : list Z) : bool :=
  match ops with
  | [] => true
  | _ :: _ =>
      let req := build_req ops in
      String.eqb (substring (String.length req - 1) 1 req) ")"
  end.

(** .. FROM main.history WHERE imgid = ?1 [AND num IN (v1,v2,..)] *)
Definition select_entries (history : list history_row) (imgid : Z)
           (ops : list Z) : list history_row :=
  filter (fun h =>
            match ops with
            | [] => true
            | _ :: _ => existsb (fun p => h_num h =? GPOINTER_TO_UINT p) ops
            end)
         (history_of history imgid).

(** INSERT INTO main.history (imgid,num,module,operation,op_params,enabled,
    blendop_params,blendop_version,multi_priority,multi_name)
    SELECT ?1,?2+rowid-1,module,operation,op_params,enabled,blendop_params,
    blendop_version,multi_priority,multi_name FROM memory.style_items *)
Definition history_of_style (dest_imgid offs : Z) (s : style_item) : history_row :=
  mk_history dest_imgid (offs + s_rowid s - 1) (s_module s) (s_operation s)
             (s_op_params s) (s_enabled s) (s_blendop_params s)
             (s_blendop_version s) (s_multi_priority s) (s_multi_name s).

Definition paste_style_items (history : list history_row)
           (items : list style_item) (dest_imgid offs : Z) : list history_row :=
  history ++ map (history_of_style dest_imgid offs) items.

(** INSERT INTO main.mask (imgid, formid, form, name, version, points,
    points_count, source) SELECT ?1, formid, .. FROM main.mask WHERE imgid = ?2 *)
Definition copy_mask (mask : list mask_row) (dest_imgid imgid : Z)
  : list mask_row :=
  mask ++ map (fun m => mk_mask dest_imgid (m_formid m) (m_form m) (m_name m)
                                (m_version m) (m_points m) (m_points_count m)
                                (m_source m))
              (filter (fun m => m_imgid m =? imgid) mask).

(** UPDATE main.images SET history_end = (SELECT MAX(num) + 1 FROM
    main.history WHERE imgid = ?1) WHERE id = ?1 *)
Definition update_history_end (images : list image_row)
           (history : list history_row) (dest_imgid : Z) : list image_row :=
  map (fun i =>
         if i_id i =? dest_imgid
         then mk_image (i_id i)
                (option_map (fun m => m + 1)
                            (sql_max (map h_num (history_of history dest_imgid))))
         else i)
      images.

(** The function returns its [int] and leaves the tables as the second
    component.  [dt_dev_write_history] before and the reload, sidecar and
    cache calls after work outside the five tables. *)
Definition dt_history_copy_and_paste_on_image (iop : list dt_iop_module_so_t)
           (db : database) (imgid dest_imgid : Z) (merge : bool) (ops : list Z)
  : Z * database :=
  if imgid =? dest_imgid then (1, db)
  else if imgid =? -1 then (1, db)
  else
    let '(offs, db) :=
      if merge
      then
        let db := set_history db (trim_history (main_history db) (main_images db)
                                               dest_imgid) in
        (sqlite3_column_int (next_num (main_history db) dest_imgid), db)
      else (0, set_history db (delete_history (main_history db) dest_imgid)) in
    (* DELETE FROM memory.style_items *)
    let db := set_style_items db [] in
    let db :=
      if merge && match ops with [] => true | _ :: _ => false end
      then set_style_items db
             (insert_style_items (memory_style_items db)
                                 (select_last_entries (main_history db) imgid))
      else if req_complete ops
           then set_style_items db
                  (insert_style_items (memory_style_items db)
                                      (select_entries (main_history db) imgid ops))
           else db in
    let db :=
      if merge
      then dt_history_rebuild_multi_priority_merge iop
             (_dt_history_cleanup_multi_instance iop db) dest_imgid
      else db in
    let db := set_history db (paste_style_items (main_history db)
                                                (memory_style_items db)
                                                dest_imgid offs) in
    let db := if merge then db
              else set_mask db (delete_mask (main_mask db) dest_imgid) in
    let db := set_mask db (copy_mask (main_mask db) dest_imgid imgid) in
    let db := set_images db (update_history_end (main_images db)
                                                (main_history db) dest_imgid) in
    (0, db).

(** ** [dt_history_copy_and_paste_on_selection] *)

(** SELECT imgid FROM main.selected_images WHERE imgid != ?1 *)
Definition other_selected (selected : list Z) (imgid : Z) : list Z :=
  filter (fun i => negb (i =? imgid)) selected.

Definition dt_history_copy_and_paste_on_selection
           (iop : list dt_iop_module_so_t) (db : database) (imgid : Z)
           (merge : bool) (ops : list Z) : Z * database :=
  if imgid <? 0 then (1, db)
  else
    match other_selected (main_selected_images db) imgid with
    | [] => (1, db)
    | rows =>
        (0, fold_left
              (fun db row =>
                 let dest_imgid := sqlite3_column_int row in
                 snd (dt_history_copy_and_paste_on_image iop db imgid dest_imgid
                                                         merge ops))
              rows db)
    end.

End History.

(** * The other functions of the file *)

(** ** [dt_history_delete_on_selection] *)

(** SELECT imgid FROM main.selected_images: every row is read with
    [sqlite3_column_int] and handed to [dt_history_delete_on_image].  The
    loop writes neither main.selected_images nor the statement's cursor;
    [dt_image_set_aspect_ratio] works on the image cache. *)
Definition dt_history_delete_on_selection (db : database) : database :=
  fold_left (fun db row => dt_history_delete_on_image db (sqlite3_column_int row))
            (main_selected_images db) db.

(** ** [dt_history_get_items] and [dt_history_get_items_as_string] *)

(** The item of the list [dt_history_get_items] returns ([dt_history_item_t],
    declared in common/history.h).  Its field [num] is a [guint]: the [int]
    that [sqlite3_column_int] returns is stored as an unsigned value, which
    is how the file itself takes these numbers back ([GPOINTER_TO_UINT],
    ["%u"]). *)
Definition guint_of_int (v : Z) : Z := v mod 4294967296.

Record dt_history_item_t : Type := mk_history_item_t
  { item_num : Z;
    item_op : string;
    item_name : string }.

Section Listing.

(** [dt_iop_get_localized_name] of develop/imageop.c and the translations
    [_("on")] and [_("off")] are parameters of the development, and so is
    [dt_util_glist_to_str] of common/utility.c, which may return NULL. *)
Variable dt_iop_get_localized_name : string -> string.
Variable label_on label_off : string.
Variable dt_util_glist_to_str : string -> list string -> option string.

(** SELECT MAX(num) FROM main.history hst2 WHERE hst2.imgid=?1 AND
    hst2.operation=[op] GROUP BY multi_priority *)
Definition last_nums (history : list history_row) (imgid : Z) (op : string)
  : list Z :=
  let rows := filter (fun h => String.eqb (h_operation h) op)
                     (history_of history imgid) in
  flat_map
    (fun mp =>
       match sql_max (map h_num (filter (fun h => h_multi_priority h =? mp) rows)) with
       | Some m => [m]
       | None => []
       end)
    (nodup Z.eq_dec (map h_multi_priority rows)).

(** SELECT num, operation, enabled, multi_name FROM main.history
    WHERE imgid=?1 AND num IN (..) ORDER BY num DESC *)
Definition history_items_rows (history : list history_row) (imgid : Z)
  : list history_row :=
  order_by (fun a b => h_num b <=? h_num a)
           (filter (fun h => existsb (Z.eqb (h_num h))
                                     (last_nums history imgid (h_operation h)))
                   (history_of history imgid)).

(** The text left in [char name[512]].  With [enabled] FALSE the second
    [g_snprintf] is not under an [else]: it runs after the first one and
    writes the buffer from its start. *)
Definition history_item_name (enabled : bool) (h : history_row) : string :=
  let is_active := sqlite3_column_int (h_enabled h) in
  let mname := h_multi_name h in
  let localized := dt_iop_get_localized_name (h_operation h) in
  let on_off := if negb (is_active =? 0) then label_on else label_off in
  if enabled
  then if String.eqb mname "0"
       then snprintf_s 512 localized
       else snprintf_s 512 (localized ++ " " ++ mname)
  else
    let name :=
      if String.eqb mname "0"
      then snprintf_s 512 (localized ++ " (" ++ on_off ++ ")")
      else ""%string in
    let name := snprintf_s 512 (localized ++ " " ++ mname ++ " (" ++ on_off ++ ")") in
    name.

Definition dt_history_get_items (db : database) (imgid : Z) (enabled : bool)
  : list dt_history_item_t :=
  map (fun h => mk_history_item_t (guint_of_int (sqlite3_column_int (h_num h)))
                                  (h_operation h)
                                  (history_item_name enabled h))
      (filter (fun h => negb enabled || negb (sqlite3_column_int (h_enabled h) =? 0))
              (history_items_rows (main_history db) imgid)).

(** The line [dt_history_get_items_as_string] builds for a row with
    [g_strconcat]. *)
Definition history_line (h : history_row) : string :=
  let mn := h_multi_name h in
  let multi_name :=
    if negb (String.eqb mn "") && negb (String.eqb mn " ") && negb (String.eqb mn "0")
    then Some (" " ++ mn)%string
    else None in
  (dt_iop_get_localized_name (h_operation h)
   ++ match multi_name with Some m => m | None => "" end
   ++ " ("
   ++ (if Z.eqb (sqlite3_column_int (h_enabled h)) 0 then label_off else label_on)
   ++ ")")%string.

(** SELECT operation, enabled, multi_name FROM main.history WHERE imgid=?1
    ORDER BY num DESC, one line per row. *)
Definition history_lines (db : database) (imgid : Z) : list string :=
  map history_line
      (order_by (fun a b => h_num b <=? h_num a)
                (history_of (main_history db) imgid)).

Definition dt_history_get_items_as_string (db : database) (imgid : Z)
  : option string :=
  dt_util_glist_to_str (String "010"%char EmptyString) (history_lines db imgid).

End Listing.

(** ** [dt_history_load_and_apply] and [dt_history_load_and_apply_on_selection] *)

Section LoadAndApply.

(** The image cache, the sidecar reader, the develop module and the mipmap
    cache live outside this file.  Their state is one [world]; each call
    of the source is a parameter that takes the world and returns it.  A
    [dt_image_t] is the pointer [dt_image_cache_get] hands out (NULL is
    [None]); what it points to is part of the world. *)
Variable world : Type.
Variable dt_image_t : Type.
Variable dt_image_cache_get : Z -> world -> option dt_image_t * world.
Variable dt_exif_xmp_read : dt_image_t -> string -> Z -> world -> Z * world.
Variable dt_dev_is_current_image : Z -> world -> bool.
Variable dt_dev_reload_history_items : world -> world.
Variable dt_image_cache_write_release : dt_image_t -> world -> world.
Variable dt_mipmap_cache_remove : Z -> world -> world.

(** SELECT imgid FROM main.selected_images, on the tables of the world. *)
Variable selected_images : world -> list Z.

Definition dt_history_load_and_apply (imgid : Z) (filename : string)
           (history_only : Z) (w : world) : Z * world :=
  let res := 0 in
  let '(img, w) := dt_image_cache_get imgid w in
  match img with
  | Some img =>
      let '(failed, w) := dt_exif_xmp_read img filename history_only w in
      if negb (failed =? 0) then (1, w)
      else
        let w := if dt_dev_is_current_image imgid w
                 then dt_dev_reload_history_items w else w in
        let w := dt_image_cache_write_release img w in
        let w := dt_mipmap_cache_remove imgid w in
        (res, w)
  | None => (res, w)
  end.

(** One turn of the while loop of [dt_history_load_and_apply_on_selection],
    on the local [res] and the world. *)
Definition load_and_apply_row (filename : string) (st : Z * world) (row : Z)
  : Z * world :=
  let imgid := sqlite3_column_int row in
  let '(r, w) := dt_history_load_and_apply imgid filename 1 (snd st) in
  (if negb (r =? 0) then 1 else fst st, w).

(** The rows of the statement are those of main.selected_images when the
    loop starts: the calls of the loop body do not write that table. *)
Definition dt_history_load_and_apply_on_selection (filename : string) (w : world)
  : Z * world :=
  fold_left (load_and_apply_row filename) (selected_images w) (0, w).

End LoadAndApply.

(** * Vocabulary of the statements *)

(** [m] is the largest multi_priority the staged rows of [op] carry. *)
Definition staging_max_instance (items : list style_item) (op : string) (m : Z) : Prop :=
  (exists s, In s items /\ s_operation s = op /\ s_multi_priority s = m)
  /\ (forall s, In s items -> s_operation s = op -> s_multi_priority s <= m).

(** The row [h] after the shift of Phase A. *)
Definition shifted (items : list style_item) (h : history_row) : history_row :=
  h_set_multi_priority h
    (h_multi_priority h
     + (IFNULL (style_max_multi_priority items (h_operation h)) (-1) + 1)).

(** The seq values ([num]) of the history of one image, in table order. *)
Definition history_nums (db : database) (imgid : Z) : list Z :=
  map h_num (history_of (main_history db) imgid).

(** The values are 0, .., n-1 for the length n of the list, each once. *)
Definition contiguous_from_0 (l : list Z) : Prop :=
  Permutation l (map Z.of_nat (seq 0 (List.length l))).

(** The values are exactly the integers of [0, n), each once. *)
Definition seq_set (l : list Z) (n : nat) : Prop :=
  NoDup l /\ forall x, In x l <-> 0 <= x < Z.of_nat n.

(** What identifies a history row: image and position. *)
Definition h_ident (h : history_row) : Z * Z := (h_imgid h, h_num h).

(** The rows [rows] as rows of the image [dest]: every payload column
    equal, seq counted up from [n]. *)
Fixpoint renumbered (dest n : Z) (rows : list history_row) : list history_row :=
  match rows with
  | [] => []
  | h :: rows' =>
      mk_history dest n (h_module h) (h_operation h) (h_op_params h)
                 (h_enabled h) (h_blendop_params h) (h_blendop_version h)
                 (h_multi_priority h) (h_multi_name h)
      :: renumbered dest (n + 1) rows'
  end.






(** A mask row as a row of the image [dest]. *)
Definition mask_for (dest : Z) (m : mask_row) : mask_row :=
  mk_mask dest (m_formid m) (m_form m) (m_name m) (m_version m) (m_points m)
          (m_points_count m) (m_source m).

Definition mask_of (mask : list mask_row) (imgid : Z) : list mask_row :=
  filter (fun m => m_imgid m =? imgid) mask.

(** The rows the staging step puts into memory.style_items. *)
Definition staged_rows (history : list history_row) (imgid : Z) (merge : bool)
           (ops : list Z) : list history_row :=
  if merge && match ops with [] => true | _ :: _ => false end
  then select_last_entries history imgid
  else if req_complete ops then select_entries history imgid ops else [].

(** A staged row that the lookup of Phase B can return for [op] and
    [name]: same operation, same multi_name, not flagged as used. *)
Definition candidate (op name : string) (s : style_item) : Prop :=
  s_operation s = op /\ s_multi_name s = name /\ 0 <= s_num s.

(** [s] is the first candidate in row order. *)
Definition first_candidate (items : list style_item) (op name : string)
           (s : style_item) : Prop :=
  exists before after,
    items = before ++ s :: after
    /\ candidate op name s
    /\ forall s', In s' before -> ~ candidate op name s'.

(** The unnamed candidates of an operation: label "0", not used yet. *)
Definition unnamed_candidates (items : list style_item) (op : string)
  : list style_item :=
  filter (fun s => String.eqb (s_operation s) op
                   && String.eqb (s_multi_name s) "0"
                   && (0 <=? s_num s))
         items.

(** The reading of the tie-break rule under which the label "0" is a
    sentinel: a destination group labelled "0" takes a staged row only when
    that row is the one unnamed candidate of the operation; with none or
    several, no staged row is flagged as used. *)
Definition unnamed_matches_only_single_candidate (flag : Z) : Prop :=
  forall iop dest_imgid st g,
    one_instance flag iop (h_operation g) = false ->
    h_multi_name g = "0"%string ->
    List.length (unnamed_candidates (ms_style_items st) (h_operation g)) <> 1%nat ->
    ms_style_items (merge_row flag iop dest_imgid st g) = ms_style_items st.

(** The counter a turn of the loop works with: re-seeded when the
    operation differs from [operation_prev]. *)
Definition seeded_next (st : merge_state) (g : history_row) : Z :=
  if String.eqb (h_operation g) (operation_prev st)
  then multi_priority_next st
  else sqlite3_column_int
         (IFNULL (style_max_multi_priority (ms_style_items st) (h_operation g)) 0).

(** The byte order on operation names, as [ORDER BY operation] uses it. *)
Definition op_le (a b : string) : Prop := String_as_OT.compare a b <> Gt.

(** The instance numbers of the staged rows of [op], in the order
    [operation, multi_priority]. *)
Definition ordered_instances (items : list style_item) (op : string) : list Z :=
  map s_multi_priority
      (filter (fun s => String.eqb (s_operation s) op) (style_items_ordered items)).

(** The staged rows are normalized: for every module that is not
    single-instance the instance numbers read 0, 1, .., k-1 in that order. *)
Definition normalized (flag : Z) (iop : list dt_iop_module_so_t)
           (items : list style_item) : Prop :=
  forall op,
    one_instance flag iop op = false ->
    ordered_instances items op
    = map Z.of_nat (seq 0 (List.length (ordered_instances items op))).

(** A staged row as the first loop of the cleanup loads it. *)
Definition history_item_of (s : style_item) : _history_item_t :=
  mk_history_item (sqlite3_column_int (s_num s))
                  (snprintf_s 1024 (s_operation s))
                  (sqlite3_column_int (s_multi_priority s))
                  (-5).

(** The test of Phase B on a group: the lookup returns a row and its
    multi_priority, read as an [int], is not negative. *)
Definition label_match (items : list style_item) (g : history_row) : bool :=
  match style_lookup items (h_operation g) (h_multi_name g) with
  | Some s => 0 <=? sqlite3_column_int (s_multi_priority s)
  | None => false
  end.

(** How many groups of [op] among [pre] found no match, each at the state
    the loop had reached for it. *)
Fixpoint unmatched_before (flag : Z) (iop : list dt_iop_module_so_t)
         (dest_imgid : Z) (op : string) (st : merge_state)
         (pre : list history_row) : Z :=
  match pre with
  | [] => 0
  | g :: pre' =>
      (if String.eqb (h_operation g) op && negb (label_match (ms_style_items st) g)
       then 1 else 0)
      + unmatched_before flag iop dest_imgid op
                         (merge_row flag iop dest_imgid st g) pre'
  end.

(** The live instances of an operation on an image: the multi_priority
    values its history rows carry, each once. *)
Definition live_instances (history : list history_row) (imgid : Z) (op : string)
  : list Z :=
  nodup Z.eq_dec
        (map h_multi_priority
             (filter (fun h => (h_imgid h =? imgid) && String.eqb (h_operation h) op)
                     history)).

(** The payload columns of a row, which a paste copies verbatim. *)
Definition payload : Type :=
  Z * string * list byte * Z * list byte * Z * string.

Definition h_payload (h : history_row) : payload :=
  (h_module h, h_operation h, h_op_params h, h_enabled h, h_blendop_params h,
   h_blendop_version h, h_multi_name h).

Definition s_payload (s : style_item) : payload :=
  (s_module s, s_operation s, s_op_params s, s_enabled s, s_blendop_params s,
   s_blendop_version s, s_multi_name s).

Definition payload_operation (p : payload) : string :=
  let '(_, o, _, _, _, _, _) := p in o.

(** What the cleanup and the merge must keep of a staged row: its rowid,
    its payload and, for the operation [x], its multi_priority. *)
Definition s_keep (x : string) (s : style_item) : Z * payload * option Z :=
  (s_rowid s, s_payload s,
   if String.eqb (s_operation s) x then Some (s_multi_priority s) else None).

(** The tables as the merge finds them: the destination trimmed and the
    selection staged. *)
Definition staged_db (db : database) (imgid dest_imgid : Z) (ops : list Z)
  : database :=
  let history := trim_history (main_history db) (main_images db) dest_imgid in
  set_style_items (set_history db history)
                  (number_rows 1 (staged_rows history imgid true ops)).

(** The loop of [dt_history_copy_and_paste_on_selection] over the rows
    [rows] of its query. *)
Definition paste_on_rows (flag : Z) (iop : list dt_iop_module_so_t) (imgid : Z)
           (merge : bool) (ops : list Z) (rows : list Z) (db : database)
  : database :=
  fold_left
    (fun db row =>
       snd (dt_history_copy_and_paste_on_image flag iop db imgid
                                               (sqlite3_column_int row) merge ops))
    rows db.

(** The numbers the second loop of the cleanup hands out along a list of
    rows: [c_mi] restarts at 0 when the operation changes. *)
Fixpoint ranks (l : list style_item) (op_cur : string) (c : Z) : list Z :=
  match l with
  | [] => []
  | x :: l' =>
      let c' := if String.eqb op_cur (s_operation x) then c else 0 in
      c' :: ranks l' (s_operation x) (c' + 1)
  end.

(** A row with the number it was handed, as a [_history_item_t]. *)
Definition ranked_item (p : style_item * Z) : _history_item_t :=
  mk_history_item (sqlite3_column_int (s_num (fst p)))
                  (snprintf_s 1024 (s_operation (fst p)))
                  (sqlite3_column_int (s_multi_priority (fst p)))
                  (snd p).

Definition rank_changed (p : style_item * Z) : bool :=
  negb (sqlite3_column_int (s_multi_priority (fst p)) =? snd p).

(** The number handed to the row whose num is [n]. *)
Definition rank_of (ranked : list (style_item * Z)) (n d : Z) : Z :=
  match find (fun p => s_num (fst p) =? n) ranked with
  | Some p => snd p
  | None => d
  end.

(** The rows the cleanup works on, each with its number. *)
Definition cleanup_ranked (flag : Z) (iop : list dt_iop_module_so_t)
           (items : list style_item) : list (style_item * Z) :=
  let l := filter (fun s => negb (one_instance flag iop (s_operation s)))
                  (style_items_ordered items) in
  combine l (ranks l "" 0).

(** Staged rows as a source with unique, int-sized seq and instance values
    gives them. *)
Definition well_staged (items : list style_item) : Prop :=
  NoDup (map s_num items)
  /\ forall s, In s items ->
               -2147483648 <= s_num s <= 2147483647
               /\ -2147483648 <= s_multi_priority s <= 2147483647.

(** The image ids the loops over main.selected_images work with: each
    stored id as [sqlite3_column_int] reads it. *)
Definition selected_ids (db : database) : list Z :=
  map sqlite3_column_int (main_selected_images db).

(** [id] is one of [ids]. *)
Definition id_in (ids : list Z) (id : Z) : bool := existsb (Z.eqb id) ids.

(** A history row without its instance number: image, position and the
    payload columns. *)
Definition h_entry (h : history_row) : Z * Z * payload :=
  (h_imgid h, h_num h, h_payload h).

(** The table [after] is the table [before] with the instance [old] of
    the module [op] on the image [imgid] renumbered to [new]: row by row,
    a row of that instance carries [new] and is otherwise as it was, and
    every other row is as it was. *)
Definition relabelled (imgid : Z) (op : string) (old new : Z)
           (before after : list history_row) : Prop :=
  Forall2 (fun h h' =>
             (h_imgid h = imgid /\ h_operation h = op /\ h_multi_priority h = old ->
              h_multi_priority h' = new /\ h_entry h' = h_entry h)
             /\ (~ (h_imgid h = imgid /\ h_operation h = op
                    /\ h_multi_priority h = old) ->
                 h' = h))
          before after.

(** A staged row without its [num] and its instance number. *)
Definition s_entry (s : style_item) : Z * payload := (s_rowid s, s_payload s).

(** [h] is the last entry of its instance among [rows]: no row with the
    same operation and multi_priority has a larger seq. *)
Definition last_of_instance (rows : list history_row) (h : history_row) : Prop :=
  In h rows
  /\ forall h', In h' rows -> h_key h' = h_key h -> h_num h' <= h_num h.

(** The instance number [mp] lies above every staged instance number of
    the module [op]. *)
Definition above_staged (items : list style_item) (op : string) (mp : Z) : Prop :=
  forall s, In s items -> s_operation s = op -> s_multi_priority s < mp.

(** The staged rows hold a row of [op] with the instance number [mp] that
    Phase B has flagged as used. *)
Definition used_instance (items : list style_item) (op : string) (mp : Z) : Prop :=
  exists s, In s items /\ s_operation s = op /\ s_multi_priority s = mp
            /\ s_num s = -1.

(** What the merge needs of the staged rows: module names that are not
    empty and fit [operation_prev[257]], [num] and multi_priority values
    that fit an [int]. *)
Definition mergeable (items : list style_item) : Prop :=
  forall s, In s items ->
            s_operation s <> ""%string
            /\ (String.length (s_operation s) <= 256)%nat
            /\ -2147483648 <= s_num s <= 2147483647
            /\ -2147483648 <= s_multi_priority s <= 2147483647.

(** Two states of the tables that differ at most in what belongs to the
    image [dest] (its history rows, its masks, its [history_end]) and in
    the staged rows. *)
Definition same_outside (dest : Z) (db1 db2 : database) : Prop :=
  delete_history (main_history db1) dest = delete_history (main_history db2) dest
  /\ delete_mask (main_mask db1) dest = delete_mask (main_mask db2) dest
  /\ reset_history_end (main_images db1) dest = reset_history_end (main_images db2) dest
  /\ main_selected_images db1 = main_selected_images db2.

(** The part of the tables a paste from [a] onto [b] can read: the history
    rows and masks of the two images and the main.images row of [b]. *)
Definition of_pair (a b id : Z) : bool := (id =? a) || (id =? b).

Definition restrict (a b : Z) (db : database) : database :=
  mk_db (filter (fun h => of_pair a b (h_imgid h)) (main_history db))
        (filter (fun i => i_id i =? b) (main_images db))
        (filter (fun m => of_pair a b (m_imgid m)) (main_mask db))
        (main_selected_images db)
        (memory_style_items db).

(** The same part without the staged rows. *)
Definition main_part (a b : Z) (db : database) : database :=
  set_style_items (restrict a b db) [].

(** The leading digit of a little-endian decimal number is not 0. *)
Fixpoint top_nonzero (d : Decimal.uint) : bool :=
  match d with
  | Decimal.Nil => false
  | Decimal.D0 d' => top_nonzero d'
  | Decimal.D1 d' | Decimal.D2 d' | Decimal.D3 d' | Decimal.D4 d' | Decimal.D5 d'
  | Decimal.D6 d' | Decimal.D7 d' | Decimal.D8 d' | Decimal.D9 d' =>
      match d' with
      | Decimal.Nil => true
      | _ => top_nonzero d'
      end
  end.

(** A history row that enters the query of Phase B: it belongs to the
    destination and its module is staged. *)
Definition live_row (items : list style_item) (dest : Z) (h : history_row) : bool :=
  (h_imgid h =? dest)
  && existsb (fun s => String.eqb (h_operation h) (s_operation s)) items.

(** The invariant of the loop of Phase B after the groups [pre], with the
    groups [post] still to come.  [history] is the table as the loop found
    it; a row is paired with what the loop has made of it. *)
Record merge_inv (flag : Z) (iop : list dt_iop_module_so_t) (dest : Z)
       (items : list style_item) (history pre post : list history_row)
       (st : merge_state) : Prop := mk_merge_inv
  { inv_other :
      forall h1 h, In (h1, h) (combine history (ms_history st)) ->
        live_row items dest h1 && negb (one_instance flag iop (h_operation h1)) = false ->
        h = h1;
    inv_waiting :
      forall h1 h, In (h1, h) (combine history (ms_history st)) ->
        live_row items dest h1 = true ->
        one_instance flag iop (h_operation h1) = false ->
        In (h_key h1) (map h_key post) ->
        h = h1;
    inv_done :
      forall h1 h, In (h1, h) (combine history (ms_history st)) ->
        live_row items dest h1 = true ->
        one_instance flag iop (h_operation h1) = false ->
        ~ In (h_key h1) (map h_key post) ->
        h = h_set_multi_priority h1 (h_multi_priority h)
        /\ (forall g, In g post -> h_operation g = h_operation h1 ->
                      h_multi_priority h < h_multi_priority g)
        /\ ((above_staged items (h_operation h1) (h_multi_priority h)
             /\ (h_operation h1 = operation_prev st ->
                 h_multi_priority h <= multi_priority_next st))
            \/ used_instance (ms_style_items st) (h_operation h1)
                             (h_multi_priority h));
    inv_pairs :
      NoDup (map s_key
                 (filter (fun s => negb (one_instance flag iop (s_operation s)))
                         items)) ->
      forall h1 h h1' h',
        In (h1, h) (combine history (ms_history st)) ->
        In (h1', h') (combine history (ms_history st)) ->
        live_row items dest h1 = true ->
        live_row items dest h1' = true ->
        one_instance flag iop (h_operation h1) = false ->
        h_operation h1 = h_operation h1' ->
        ~ In (h_key h1) (map h_key post) ->
        ~ In (h_key h1') (map h_key post) ->
        (h_multi_priority h = h_multi_priority h'
         <-> h_multi_priority h1 = h_multi_priority h1');
    inv_below :
      forall g, In g post -> h_operation g = operation_prev st ->
                multi_priority_next st < h_multi_priority g;
    inv_seed :
      forall s, In s items -> s_operation s = operation_prev st ->
                s_multi_priority s <= multi_priority_next st;
    inv_prev :
      (forall gp, In gp pre -> one_instance flag iop (h_operation gp) = false ->
                  op_le (h_operation gp) (operation_prev st))
      /\ (operation_prev st = ""%string
          \/ exists gl, In gl pre /\ h_operation gl = operation_prev st);
    inv_max :
      forall op, style_max_multi_priority (ms_style_items st) op
                 = style_max_multi_priority items op;
    inv_items :
      forall s, In s (ms_style_items st) ->
        exists s0, In s0 items /\ s_key s = s_key s0
                   /\ (s_num s = s_num s0 \/ s_num s = -1);
    inv_keys :
      NoDup (map s_key
                 (filter (fun s => negb (one_instance flag iop (s_operation s)))
                         items)) ->
      NoDup (map s_key
                 (filter (fun s => negb (one_instance flag iop (s_operation s)))
                         (ms_style_items st))) }.

(** * Example data *)

(** A catalog with one multi-instance and one single-instance module, the
    flag at the value 128. *)
Definition example_flag : Z := 128.

Definition example_iop : list dt_iop_module_so_t :=
  [mk_module_so "blur" 0; mk_module_so "exposure" 128].

Definition example_row (imgid num : Z) (op : string) (mp : Z) (name : string)
  : history_row :=
  mk_history imgid num 1 op [x2a%byte] 1 [] 7 mp name.

(** Image 1 carries a blur and an exposure, image 2 two blurs and an
    exposure; both are selected. *)
Definition example_db : database :=
  mk_db [example_row 1 0 "blur" 0 "soft";
         example_row 2 0 "blur" 0 "soft";
         example_row 2 1 "blur" 1 "strong";
         example_row 2 2 "exposure" 0 "0";
         example_row 1 1 "exposure" 0 "0"]
        [mk_image 1 (Some 2); mk_image 2 (Some 3)]
        [mk_mask 1 11 1 "path" 1 [] 4 []; mk_mask 2 12 1 "circle" 1 [] 1 []]
        [1; 2]
        [].

(** Two unnamed blur rows are staged; the destination, image 2, has one
    unnamed blur. *)
Definition two_unnamed_state : merge_state :=
  mk_merge_state
    [example_row 2 0 "blur" 2 "0"]
    [mk_style 1 0 1 "blur" [] 1 [] 7 "0" 0;
     mk_style 2 1 1 "blur" [] 1 [] 7 "0" 1]
    "" (-1).

Definition two_unnamed_group : history_row := example_row 2 0 "blur" 2 "0".

(** Staged rows that are normalized: the two blurs carry 1 and 0, the
    single-instance exposure keeps the 5 it came with. *)
Definition normalized_db : database :=
  mk_db [] [] [] []
        [mk_style 1 4 1 "blur" [] 1 [] 7 "soft" 1;
         mk_style 2 2 1 "exposure" [] 1 [] 7 "0" 5;
         mk_style 3 7 1 "blur" [] 1 [] 7 "0" 0].

(** Image 2 carries three blurs; one blur labelled "soft" is staged.  After
    the shift of Phase A the groups of image 2 are the three below. *)
Definition survivors_db : database :=
  mk_db [example_row 2 0 "blur" 0 "soft";
         example_row 2 1 "blur" 1 "strong";
         example_row 2 2 "blur" 2 "extra"]
        [mk_image 2 (Some 3)] [] []
        [mk_style 1 0 1 "blur" [] 1 [] 7 "soft" 0].

Definition survivors_pre : list history_row :=
  [example_row 2 0 "blur" 1 "soft"; example_row 2 1 "blur" 2 "strong"].

Definition survivors_group : history_row := example_row 2 2 "blur" 3 "extra".

Definition survivors_shifted : database :=
  _history_rebuild_multi_priority_append example_flag example_iop survivors_db 2.

(** The state of the loop after the two groups of [survivors_pre]. *)
Definition survivors_state : merge_state :=
  fold_left (merge_row example_flag example_iop 2) survivors_pre
            (merge_init survivors_shifted).

(** Staged rows with gaps: the two blurs carry 7 and 3, the
    single-instance exposure 5. *)
Definition gapped_db : database :=
  mk_db [] [] [] []
        [mk_style 1 4 1 "blur" [] 1 [] 7 "soft" 7;
         mk_style 2 2 1 "exposure" [] 1 [] 7 "0" 5;
         mk_style 3 7 1 "blur" [] 1 [] 7 "0" 3].

(** The tables of [example_db] with a third image that has no history row
    and no mask. *)
Definition empty_source_db : database :=
  mk_db (main_history example_db)
        (main_images example_db ++ [mk_image 3 (Some 0)])
        (main_mask example_db) [1; 2] [].

(** Three selected entries, the second of ten digits. *)
(** Image 3 was edited twice on its first blur: the instance has the
    entries 0 and 2.  Its second blur sits at the seq 2^32 - 1, which
    [sqlite3_column_int] reads as -1. *)
Definition edited_db : database :=
  mk_db [example_row 3 0 "blur" 0 "soft";
         example_row 3 1 "exposure" 0 "0";
         example_row 3 2 "blur" 0 "soft";
         example_row 3 4294967295 "blur" 1 "strong"]
        [mk_image 3 (Some 3)] [] [] [].

Definition three_entries : list Z := [1; 4294967295; 7].

(** * Properties *)

Section Properties.

Variable flag : Z.

(** ** Return value of the paste on one image *)

Lemma copy_and_paste_same_image : forall iop db x merge ops,
  dt_history_copy_and_paste_on_image flag iop db x x merge ops = (1, db).
Proof.
  intros iop db x merge ops.
  unfold dt_history_copy_and_paste_on_image.
  now rewrite Z.eqb_refl.
Qed.

(** C1: pasting an image onto itself returns 1 at the first test of the
    function, before any statement runs: every table, the history of the
    image included, is as it was. *)
Theorem copy_and_paste_on_same_image_rejected :
  forall iop db x merge ops,
    fst (dt_history_copy_and_paste_on_image flag iop db x x merge ops) = 1
    /\ snd (dt_history_copy_and_paste_on_image flag iop db x x merge ops) = db
    /\ history_of
         (main_history
            (snd (dt_history_copy_and_paste_on_image flag iop db x x merge ops))) x
       = history_of (main_history db) x.
Proof.
  intros iop db x merge ops.
  rewrite copy_and_paste_same_image. simpl. auto.
Qed.

(** C10: past the two tests on the image ids the function returns 0,
    whatever the tables hold, the merge flag and the selection are. *)
Theorem copy_and_paste_on_image_returns_0 :
  forall iop db imgid dest_imgid merge ops,
    imgid <> dest_imgid ->
    imgid <> -1 ->
    fst (dt_history_copy_and_paste_on_image flag iop db imgid dest_imgid merge ops) = 0.
Proof.
  intros iop db imgid dest_imgid merge ops Hne Hsrc.
  unfold dt_history_copy_and_paste_on_image.
  apply Z.eqb_neq in Hne. apply Z.eqb_neq in Hsrc.
  rewrite Hne, Hsrc.
  destruct merge; reflexivity.
Qed.

(** ** Return value of the paste on the selection *)

(** The result of the batch is decided before the loop starts: 1 on a
    negative source id or when no other image is selected, 0 otherwise. *)
Lemma copy_and_paste_on_selection_result :
  forall iop db imgid merge ops,
    fst (dt_history_copy_and_paste_on_selection flag iop db imgid merge ops)
    = if (imgid <? 0)
         || match other_selected (main_selected_images db) imgid with
            | [] => true
            | _ :: _ => false
            end
      then 1 else 0.
Proof.
  intros iop db imgid merge ops.
  unfold dt_history_copy_and_paste_on_selection.
  destruct (imgid <? 0); [reflexivity|].
  destruct (other_selected (main_selected_images db) imgid); reflexivity.
Qed.

(** ** MAX and DISTINCT *)

Lemma fold_left_max_ge : forall l x, x <= fold_left Z.max l x.
Proof.
  induction l as [|y l IH]; intros x; simpl; [lia|].
  specialize (IH (Z.max x y)). lia.
Qed.

Lemma fold_left_max_bound : forall l x y, In y l -> y <= fold_left Z.max l x.
Proof.
  induction l as [|z l IH]; intros x y Hin; simpl; [contradiction|].
  destruct Hin as [->|Hin].
  - pose proof (fold_left_max_ge l (Z.max x y)). lia.
  - now apply IH.
Qed.

Lemma fold_left_max_in : forall l x, fold_left Z.max l x = x \/ In (fold_left Z.max l x) l.
Proof.
  induction l as [|z l IH]; intros x; simpl; [now left|].
  destruct (IH (Z.max x z)) as [H|H].
  - rewrite H. destruct (Z.max_spec x z) as [[_ ->]|[_ ->]]; auto.
  - auto.
Qed.

Lemma sql_max_spec : forall l m,
  sql_max l = Some m <-> In m l /\ (forall x, In x l -> x <= m).
Proof.
  intros [|x l] m; simpl.
  - split; [discriminate|intros [[] _]].
  - split.
    + intros [= <-]. split.
      * destruct (fold_left_max_in l x) as [->|H]; auto.
      * intros y [<-|Hy]; [apply fold_left_max_ge|now apply fold_left_max_bound].
    + intros [Hin Hub]. f_equal.
      pose proof (fold_left_max_ge l x) as H1.
      assert (fold_left Z.max l x <= m).
      { destruct (fold_left_max_in l x) as [->|H]; apply Hub; auto. }
      assert (m <= fold_left Z.max l x).
      { destruct Hin as [<-|Hin]; [assumption|now apply fold_left_max_bound]. }
      lia.
Qed.

Lemma sql_max_none : forall l, sql_max l = None <-> l = [].
Proof. intros [|x l]; simpl; split; congruence. Qed.

Lemma style_max_multi_priority_spec : forall items op m,
  style_max_multi_priority items op = Some m <-> staging_max_instance items op m.
Proof.
  intros items op m. unfold style_max_multi_priority, staging_max_instance.
  rewrite sql_max_spec. split.
  - intros [Hm Hub]. split.
    + apply in_map_iff in Hm. destruct Hm as (s & Hs & Hin).
      apply filter_In in Hin. destruct Hin as [Hin Hop].
      apply String.eqb_eq in Hop. eauto.
    + intros s Hin Hop. apply Hub. apply in_map. apply filter_In.
      split; [assumption|]. now apply String.eqb_eq.
  - intros [(s & Hin & Hop & Hm) Hub]. split.
    + rewrite <- Hm. apply in_map. apply filter_In. split; [assumption|].
      now apply String.eqb_eq.
    + intros x Hx. apply in_map_iff in Hx. destruct Hx as (s' & <- & Hin').
      apply filter_In in Hin'. destruct Hin' as [Hin' Hop'].
      apply String.eqb_eq in Hop'. now apply Hub.
Qed.

Lemma style_max_multi_priority_some : forall items op,
  In op (map s_operation items) -> exists m, style_max_multi_priority items op = Some m.
Proof.
  intros items op Hin. unfold style_max_multi_priority.
  apply in_map_iff in Hin. destruct Hin as (s & Hop & Hin).
  destruct (sql_max _) eqn:E; [eauto|].
  apply sql_max_none in E.
  assert (H : In (s_multi_priority s)
                 (map s_multi_priority
                      (filter (fun s0 => String.eqb (s_operation s0) op) items))).
  { apply in_map. apply filter_In. split; [assumption|]. now apply String.eqb_eq. }
  rewrite E in H. contradiction.
Qed.

Lemma distinct_operations_In : forall l o, In o (distinct_operations l) <-> In o l.
Proof.
  induction l as [|x l IH]; intros o; simpl; [tauto|].
  rewrite filter_In, IH. split.
  - intros [H|[H _]]; auto.
  - intros [H|H]; [now left|].
    destruct (String.eqb_spec x o) as [E|E]; [now left|right; auto].
Qed.

Lemma distinct_operations_NoDup : forall l, NoDup (distinct_operations l).
Proof.
  induction l as [|x l IH]; simpl; constructor.
  - rewrite filter_In. intros [_ H]. now rewrite String.eqb_refl in H.
  - now apply NoDup_filter.
Qed.

(** ** Phase A: the provisional shift *)

Lemma append_loop_map : forall iop items dest ops history,
  NoDup ops ->
  fold_left
    (fun history op_old =>
       if one_instance flag iop op_old then history
       else shift_multi_priority items dest op_old history)
    ops history
  = map (fun h =>
           if (h_imgid h =? dest)
              && existsb (String.eqb (h_operation h)) ops
              && negb (one_instance flag iop (h_operation h))
           then shifted items h else h)
        history.
Proof.
  intros iop items dest ops. induction ops as [|o ops IH]; intros history Hnd.
  - simpl. rewrite <- (map_id history) at 1. apply map_ext. intros h.
    now rewrite andb_false_r.
  - inversion Hnd as [|? ? Hnotin Hnd']; subst. simpl fold_left.
    rewrite IH by assumption. clear IH.
    assert (Hno : forall h, h_operation h = o ->
                            existsb (String.eqb (h_operation h)) ops = false).
    { intros h <-. destruct (existsb _ ops) eqn:E; [|reflexivity].
      apply existsb_exists in E. destruct E as (x & Hx & E).
      apply String.eqb_eq in E. subst x. contradiction. }
    destruct (one_instance flag iop o) eqn:Hone.
    + apply map_ext. intros h. simpl existsb.
      destruct (String.eqb_spec (h_operation h) o) as [E|E]; [|reflexivity].
      rewrite (Hno h E). simpl. rewrite E, Hone. simpl.
      now destruct (h_imgid h =? dest).
    + unfold shift_multi_priority. rewrite map_map. apply map_ext. intros h.
      simpl existsb.
      destruct (String.eqb_spec (h_operation h) o) as [E|E].
      * rewrite (Hno h E). rewrite E, Hone.
        destruct (h_imgid h =? dest) eqn:Hd; simpl.
        -- rewrite Hd. simpl. rewrite <- E at 1. rewrite (Hno h E). simpl.
           unfold shifted. now rewrite E.
        -- now rewrite Hd.
      * rewrite andb_false_r. reflexivity.
Qed.

(** C3: after [_history_rebuild_multi_priority_append] the staged rows
    are untouched, and row by row the history is the old one where every
    row of the destination whose operation is staged and not
    single-instance has its multi_priority raised by the largest staged
    multi_priority of that operation plus one; every other row is the
    same. *)
Theorem append_shifts_by_staging_max :
  forall iop db dest_imgid,
    let items := memory_style_items db in
    let db' := _history_rebuild_multi_priority_append flag iop db dest_imgid in
    memory_style_items db' = items
    /\ Forall2
         (fun h h' =>
            (h_imgid h = dest_imgid ->
             In (h_operation h) (map s_operation items) ->
             one_instance flag iop (h_operation h) = false ->
             exists m, staging_max_instance items (h_operation h) m
                       /\ h' = h_set_multi_priority h (h_multi_priority h + (m + 1)))
            /\ (h_imgid h <> dest_imgid
                \/ ~ In (h_operation h) (map s_operation items)
                \/ one_instance flag iop (h_operation h) = true ->
                h' = h))
         (main_history db) (main_history db').
Proof.
  intros iop db dest items db'. split; [reflexivity|].
  subst db'. unfold _history_rebuild_multi_priority_append. simpl main_history.
  fold items. rewrite append_loop_map by apply distinct_operations_NoDup.
  induction (main_history db) as [|h l IH]; simpl; constructor; [|exact IH].
  assert (Hex : existsb (String.eqb (h_operation h))
                        (distinct_operations (map s_operation items)) = true
                <-> In (h_operation h) (map s_operation items)).
  { rewrite existsb_exists. split.
    - intros (x & Hx & E). apply String.eqb_eq in E. subst x.
      apply distinct_operations_In. exact Hx.
    - intros H. exists (h_operation h). split.
      + now apply distinct_operations_In.
      + apply String.eqb_refl. }
  split.
  - intros Hd Hin Hone.
    apply Z.eqb_eq in Hd. apply Hex in Hin as Hin'. rewrite Hd, Hin', Hone. simpl.
    destruct (style_max_multi_priority_some items _ Hin) as [m Hm].
    exists m. split; [now apply style_max_multi_priority_spec|].
    unfold shifted. now rewrite Hm.
  - intros [Hd|[Hin|Hone]].
    + apply Z.eqb_neq in Hd. now rewrite Hd.
    + assert (E : existsb (String.eqb (h_operation h))
                          (distinct_operations (map s_operation items)) = false).
      { apply not_true_is_false. intros E. now apply Hex in E. }
      rewrite E. now rewrite andb_false_r.
    + rewrite Hone. now rewrite andb_false_r.
Qed.

(** ** Contiguous seq values *)

Lemma Zseq_NoDup : forall n, NoDup (map Z.of_nat (seq 0 n)).
Proof.
  intros n. apply NoDup_map_NoDup_ForallPairs.
  - intros a b _ _ H. lia.
  - apply seq_NoDup.
Qed.

Lemma Zseq_In : forall n x, In x (map Z.of_nat (seq 0 n)) <-> 0 <= x < Z.of_nat n.
Proof.
  intros n x. rewrite in_map_iff. split.
  - intros (k & <- & Hk). apply in_seq in Hk. lia.
  - intros H. exists (Z.to_nat x). split; [lia|]. apply in_seq. lia.
Qed.

Lemma seq_set_length : forall l n, seq_set l n -> List.length l = n.
Proof.
  intros l n [Hnd Hin].
  assert (P : Permutation l (map Z.of_nat (seq 0 n))).
  { apply NoDup_Permutation; [assumption|apply Zseq_NoDup|].
    intros x. now rewrite Hin, Zseq_In. }
  apply Permutation_length in P. now rewrite length_map, length_seq in P.
Qed.

Lemma contiguous_seq_set : forall l,
  contiguous_from_0 l <-> exists n, seq_set l n.
Proof.
  intros l. unfold contiguous_from_0. split.
  - intros P. exists (List.length l). split.
    + apply (Permutation_NoDup (Permutation_sym P)). apply Zseq_NoDup.
    + intros x. rewrite <- Zseq_In. split; apply Permutation_in;
        [assumption|now apply Permutation_sym].
  - intros [n H]. rewrite (seq_set_length l n H). destruct H as [Hnd Hin].
    apply NoDup_Permutation; [assumption|apply Zseq_NoDup|].
    intros x. now rewrite Hin, Zseq_In.
Qed.

Lemma seq_set_trim : forall l n e,
  seq_set l n ->
  seq_set (filter (fun z => negb (e <=? z)) l)
          (Z.to_nat (Z.min (Z.of_nat n) e)).
Proof.
  intros l n e [Hnd Hin]. split.
  - now apply NoDup_filter.
  - intros x. rewrite filter_In, Hin, negb_true_iff, Z.leb_gt. lia.
Qed.

Lemma seq_set_next : forall l n, seq_set l n -> IFNULL (sql_max l) (-1) + 1 = Z.of_nat n.
Proof.
  intros l n [Hnd Hin]. destruct (sql_max l) as [m|] eqn:E; simpl.
  - apply sql_max_spec in E. destruct E as [Hm Hub].
    apply Hin in Hm. destruct (Z.eq_dec (m + 1) (Z.of_nat n)) as [|Hne]; [assumption|].
    assert (H : In (m + 1) l) by (apply Hin; lia).
    apply Hub in H. lia.
  - apply sql_max_none in E. subst l.
    destruct n as [|n]; [reflexivity|].
    assert (H : In 0 (@nil Z)) by (apply Hin; lia). contradiction.
Qed.

Lemma seq_set_app : forall l n (rowids : list Z) k,
  seq_set l n ->
  rowids = map (fun j => Z.of_nat j + 1) (seq 0 k) ->
  seq_set (l ++ map (fun r => Z.of_nat n + r - 1) rowids) (n + k).
Proof.
  intros l n rowids k [Hnd Hin] ->. rewrite map_map.
  assert (Hin2 : forall x, In x (map (fun j => Z.of_nat n + (Z.of_nat j + 1) - 1) (seq 0 k))
                           <-> Z.of_nat n <= x < Z.of_nat (n + k)).
  { intros x. rewrite in_map_iff. split.
    - intros (j & <- & Hj). apply in_seq in Hj. lia.
    - intros H. exists (Z.to_nat (x - Z.of_nat n)). split; [lia|].
      apply in_seq. lia. }
  split.
  - apply NoDup_app; [assumption| |].
    + apply NoDup_map_NoDup_ForallPairs; [|apply seq_NoDup].
      intros a b _ _ H. lia.
    + intros x Hx Hx'. apply Hin in Hx. apply Hin2 in Hx'. lia.
  - intros x. rewrite in_app_iff, Hin, Hin2. lia.
Qed.

(** ** What the merge leaves alone *)

Lemma history_of_app : forall h1 h2 i,
  history_of (h1 ++ h2) i = history_of h1 i ++ history_of h2 i.
Proof. intros. apply filter_app. Qed.

Lemma history_nums_ident : forall history i,
  map h_num (history_of history i)
  = map snd (filter (fun p => fst p =? i) (map h_ident history)).
Proof.
  induction history as [|h l IH]; intros i; simpl; [reflexivity|].
  destruct (h_imgid h =? i); simpl; now rewrite IH.
Qed.

Lemma update_multi_priority_ident : forall history dest op old new,
  map h_ident (update_multi_priority history dest op old new) = map h_ident history.
Proof.
  intros. unfold update_multi_priority. rewrite map_map. apply map_ext.
  intros h. now destruct (_ && _).
Qed.

Lemma shift_multi_priority_ident : forall items dest op history,
  map h_ident (shift_multi_priority items dest op history) = map h_ident history.
Proof.
  intros. unfold shift_multi_priority. rewrite map_map. apply map_ext.
  intros h. now destruct (_ && _).
Qed.

Lemma append_ident : forall iop db dest,
  map h_ident (main_history (_history_rebuild_multi_priority_append flag iop db dest))
  = map h_ident (main_history db).
Proof.
  intros iop db dest. unfold _history_rebuild_multi_priority_append.
  simpl main_history.
  generalize (main_history db) as history.
  induction (distinct_operations _) as [|o ops IH]; intros history; simpl;
    [reflexivity|].
  rewrite IH. destruct (one_instance flag iop o); [reflexivity|].
  apply shift_multi_priority_ident.
Qed.

Lemma flag_used_rowid : forall items n,
  map s_rowid (flag_used items n) = map s_rowid items.
Proof.
  intros. unfold flag_used. rewrite map_map. apply map_ext.
  intros s. now destruct (_ =? _).
Qed.

Lemma merge_row_ident : forall iop dest st g,
  map h_ident (ms_history (merge_row flag iop dest st g)) = map h_ident (ms_history st)
  /\ map s_rowid (ms_style_items (merge_row flag iop dest st g))
     = map s_rowid (ms_style_items st).
Proof.
  intros iop dest st g. unfold merge_row.
  destruct (one_instance flag iop (h_operation g)); [now split|].
  destruct (0 <=? _); simpl; split;
    auto using update_multi_priority_ident, flag_used_rowid.
Qed.

Lemma merge_loop_ident : forall iop dest groups st,
  map h_ident (ms_history (fold_left (merge_row flag iop dest) groups st))
  = map h_ident (ms_history st)
  /\ map s_rowid (ms_style_items (fold_left (merge_row flag iop dest) groups st))
     = map s_rowid (ms_style_items st).
Proof.
  intros iop dest groups. induction groups as [|g groups IH]; intros st; simpl;
    [now split|].
  destruct (IH (merge_row flag iop dest st g)) as [H1 H2].
  destruct (merge_row_ident iop dest st g) as [H3 H4].
  split; congruence.
Qed.

Lemma merge_ident : forall iop db dest,
  let db' := dt_history_rebuild_multi_priority_merge flag iop db dest in
  map h_ident (main_history db') = map h_ident (main_history db)
  /\ map s_rowid (memory_style_items db') = map s_rowid (memory_style_items db)
  /\ main_images db' = main_images db
  /\ main_mask db' = main_mask db.
Proof.
  intros iop db dest db'. subst db'.
  unfold dt_history_rebuild_multi_priority_merge. cbv zeta.
  cbn [main_history memory_style_items main_images main_mask
       set_style_items set_history].
  match goal with
  | |- context [fold_left ?f ?gs ?st] =>
      destruct (merge_loop_ident iop dest gs st) as [H1 H2]
  end.
  rewrite H1, H2. cbn [merge_init ms_history ms_style_items].
  rewrite append_ident. auto.
Qed.

Lemma cleanup_update_rowid : forall items whens,
  map s_rowid (cleanup_update items whens) = map s_rowid items.
Proof.
  intros. unfold cleanup_update. rewrite map_map. now apply map_ext.
Qed.

Lemma cleanup_tables : forall iop db,
  let db' := _dt_history_cleanup_multi_instance flag iop db in
  main_history db' = main_history db
  /\ map s_rowid (memory_style_items db') = map s_rowid (memory_style_items db)
  /\ main_images db' = main_images db
  /\ main_mask db' = main_mask db.
Proof.
  intros iop db db'. subst db'. unfold _dt_history_cleanup_multi_instance.
  destruct (cleanup_renumber _ _ _ _) as [hitems nb].
  destruct (nb =? 0); simpl; auto using cleanup_update_rowid.
Qed.

Lemma number_rows_rowid : forall rows r,
  map s_rowid (number_rows r rows)
  = map (fun j => Z.of_nat j + r) (seq 0 (List.length rows)).
Proof.
  induction rows as [|h rows IH]; intros r; simpl; [reflexivity|].
  f_equal. rewrite IH, <- seq_shift, map_map. apply map_ext. intros j. lia.
Qed.

Lemma insert_style_items_empty : forall rows,
  insert_style_items [] rows = number_rows 1 rows.
Proof. reflexivity. Qed.

(** ** The shape of the history after a paste *)

Lemma paste_replace_tables : forall iop db imgid dest ops,
  imgid <> dest -> imgid <> -1 ->
  let db' := snd (dt_history_copy_and_paste_on_image flag iop db imgid dest false ops) in
  let history := delete_history (main_history db) dest in
  main_history db'
  = history ++ map (history_of_style dest 0)
                   (number_rows 1 (staged_rows history imgid false ops))
  /\ main_mask db' = copy_mask (delete_mask (main_mask db) dest) dest imgid.
Proof.
  intros iop db imgid dest ops Hne Hsrc. cbv zeta.
  unfold dt_history_copy_and_paste_on_image.
  apply Z.eqb_neq in Hne. apply Z.eqb_neq in Hsrc. rewrite Hne, Hsrc.
  unfold staged_rows. simpl.
  destruct (req_complete ops); simpl; split; reflexivity.
Qed.

Lemma paste_merge_tables : forall iop db imgid dest ops,
  imgid <> dest -> imgid <> -1 ->
  let db' := snd (dt_history_copy_and_paste_on_image flag iop db imgid dest true ops) in
  let history := trim_history (main_history db) (main_images db) dest in
  let offs := sqlite3_column_int (next_num history dest) in
  exists merged items,
    main_history db' = merged ++ map (history_of_style dest offs) items
    /\ map h_ident merged = map h_ident history
    /\ map s_rowid items
       = map (fun j => Z.of_nat j + 1)
             (seq 0 (List.length (staged_rows history imgid true ops)))
    /\ main_mask db' = copy_mask (main_mask db) dest imgid.
Proof.
  intros iop db imgid dest ops Hne Hsrc. cbv zeta.
  unfold dt_history_copy_and_paste_on_image.
  apply Z.eqb_neq in Hne. apply Z.eqb_neq in Hsrc. rewrite Hne, Hsrc.
  cbv beta iota zeta. simpl andb.
  set (history := trim_history (main_history db) (main_images db) dest).
  set (db1 := set_style_items (set_history db history) []).
  set (db2 := if match ops with [] => true | _ :: _ => false end
              then set_style_items db1 _ else _).
  assert (H2 : main_history db2 = history /\ main_mask db2 = main_mask db
               /\ memory_style_items db2
                  = number_rows 1 (staged_rows history imgid true ops)).
  { subst db2. unfold staged_rows. simpl andb.
    destruct ops as [|p ops]; [now simpl|].
    destruct (req_complete (p :: ops)); now simpl. }
  destruct H2 as (Hh & Hm & Hs).
  destruct (cleanup_tables iop db2) as (Ch & Cs & _ & Cm).
  destruct (merge_ident iop (_dt_history_cleanup_multi_instance flag iop db2) dest)
    as (Mh & Ms & _ & Mm).
  set (db4 := dt_history_rebuild_multi_priority_merge flag iop _ dest) in *.
  exists (main_history db4), (memory_style_items db4).
  cbn [snd main_history main_mask set_images set_mask set_history
       paste_style_items].
  split; [reflexivity|]. split; [congruence|]. split.
  - rewrite Ms, Cs, Hs. apply number_rows_rowid.
  - congruence.
Qed.

Lemma history_of_delete : forall history dest i,
  history_of (delete_history history dest) i
  = if i =? dest then [] else history_of history i.
Proof.
  induction history as [|h l IH]; intros dest i; simpl.
  - now destruct (i =? dest).
  - destruct (Z.eqb_spec (h_imgid h) dest) as [E|E]; simpl; rewrite IH.
    + destruct (Z.eqb_spec i dest) as [E'|E']; [reflexivity|].
      destruct (Z.eqb_spec (h_imgid h) i); [congruence|reflexivity].
    + destruct (Z.eqb_spec (h_imgid h) i) as [E1|E1];
        destruct (Z.eqb_spec i dest) as [E2|E2]; try reflexivity. congruence.
Qed.

Lemma history_of_trim : forall history images dest i,
  history_of (trim_history history images dest) i
  = if i =? dest
    then match history_end_of images dest with
         | Some e => filter (fun h => negb (e <=? h_num h)) (history_of history dest)
         | None => history_of history dest
         end
    else history_of history i.
Proof.
  intros history images dest i. unfold history_of, trim_history.
  induction history as [|h l IH]; simpl.
  - destruct (i =? dest); [now destruct (history_end_of images dest)|reflexivity].
  - destruct (Z.eqb_spec i dest) as [Hi|Hi].
    + rewrite Hi in *. clear Hi.
      destruct (Z.eqb_spec (h_imgid h) dest) as [E|E]; simpl.
      * rewrite E.
        destruct (history_end_of images dest) as [e|]; simpl.
        -- destruct (e <=? h_num h); simpl; [exact IH|].
           rewrite E, Z.eqb_refl. now f_equal.
        -- rewrite E, Z.eqb_refl. now f_equal.
      * apply Z.eqb_neq in E. rewrite E. exact IH.
    + destruct (Z.eqb_spec (h_imgid h) dest) as [E|E]; simpl.
      * assert (Hi' : (h_imgid h =? i) = false) by (apply Z.eqb_neq; congruence).
        rewrite Hi'.
        destruct (history_end_of images (h_imgid h)) as [e|]; simpl.
        -- destruct (e <=? h_num h); simpl; rewrite ?Hi'; exact IH.
        -- rewrite Hi'. exact IH.
      * destruct (h_imgid h =? i); [now f_equal|exact IH].
Qed.

Lemma filter_num_map : forall e l,
  map h_num (filter (fun h => negb (e <=? h_num h)) l)
  = filter (fun z => negb (e <=? z)) (map h_num l).
Proof.
  induction l as [|h l IH]; simpl; [reflexivity|].
  destruct (e <=? h_num h); simpl; now rewrite IH.
Qed.

Lemma history_of_pasted : forall dest offs items i,
  history_of (map (history_of_style dest offs) items) i
  = if dest =? i then map (history_of_style dest offs) items else [].
Proof.
  induction items as [|s items IH]; intros i; simpl.
  - now destruct (dest =? i).
  - rewrite IH. now destruct (dest =? i).
Qed.

Lemma pasted_nums : forall dest offs items,
  map h_num (map (history_of_style dest offs) items)
  = map (fun r => offs + r - 1) (map s_rowid items).
Proof. intros. rewrite !map_map. reflexivity. Qed.

Lemma sqlite3_column_int_small : forall v,
  -2147483648 <= v <= 2147483647 -> sqlite3_column_int v = v.
Proof.
  intros v H. unfold sqlite3_column_int.
  rewrite Z.mod_small; lia.
Qed.

Lemma copy_and_paste_no_source : forall iop db dest merge ops,
  dt_history_copy_and_paste_on_image flag iop db (-1) dest merge ops = (1, db).
Proof.
  intros. unfold dt_history_copy_and_paste_on_image.
  now destruct (-1 =? dest).
Qed.

Lemma paste_keeps_contiguous : forall iop db item imgid dest merge ops,
  contiguous_from_0 (history_nums db item) ->
  Z.of_nat (List.length (history_nums db item)) <= 2147483647 ->
  contiguous_from_0
    (history_nums (snd (dt_history_copy_and_paste_on_image flag iop db imgid dest
                                                           merge ops)) item).
Proof.
  intros iop db item imgid dest merge ops Hc Hlen.
  destruct (Z.eq_dec imgid dest) as [->|Hne].
  { now rewrite copy_and_paste_same_image. }
  destruct (Z.eq_dec imgid (-1)) as [->|Hsrc].
  { now rewrite copy_and_paste_no_source. }
  apply contiguous_seq_set in Hc. destruct Hc as [n Hn].
  rewrite (seq_set_length _ _ Hn) in Hlen.
  apply contiguous_seq_set. unfold history_nums in *.
  destruct merge.
  - destruct (paste_merge_tables iop db imgid dest ops Hne Hsrc)
      as (merged & items & Hh & Hid & Hrow & _).
    rewrite Hh, history_of_app, map_app, history_of_pasted.
    rewrite (history_nums_ident merged), Hid, <- history_nums_ident.
    rewrite history_of_trim.
    destruct (Z.eqb_spec item dest) as [->|Hitem].
    + rewrite Z.eqb_refl.
      set (old := match history_end_of (main_images db) dest with
                  | Some e => filter (fun h => negb (e <=? h_num h))
                                     (history_of (main_history db) dest)
                  | None => history_of (main_history db) dest
                  end).
      assert (Hold : exists m, (m <= n)%nat /\ seq_set (map h_num old) m).
      { subst old. destruct (history_end_of (main_images db) dest) as [e|].
        - rewrite filter_num_map. eexists. split; [|apply seq_set_trim; exact Hn]. lia.
        - exists n. split; [lia|assumption]. }
      destruct Hold as (m & Hm & Hold).
      assert (Hoffs : sqlite3_column_int
                        (next_num (trim_history (main_history db) (main_images db) dest)
                                  dest) = Z.of_nat m).
      { unfold next_num. rewrite history_of_trim, Z.eqb_refl. fold old.
        rewrite (seq_set_next _ _ Hold).
        rewrite Z.min_l by (unfold LARGEST_INT64; lia).
        apply sqlite3_column_int_small. lia. }
      rewrite Hoffs, pasted_nums.
      eexists. apply seq_set_app; [exact Hold|exact Hrow].
    + assert (E : (dest =? item) = false) by (apply Z.eqb_neq; congruence).
      rewrite E. simpl. rewrite app_nil_r. eauto.
  - destruct (paste_replace_tables iop db imgid dest ops Hne Hsrc) as [Hh _].
    rewrite Hh, history_of_app, map_app, history_of_pasted, history_of_delete.
    destruct (Z.eqb_spec item dest) as [->|Hitem].
    + rewrite Z.eqb_refl. simpl app. rewrite pasted_nums.
      eexists. apply (seq_set_app [] 0).
      * split; [constructor|]. simpl. intros x. split; [contradiction|lia].
      * apply number_rows_rowid.
    + assert (E : (dest =? item) = false) by (apply Z.eqb_neq; congruence).
      rewrite E. simpl. rewrite app_nil_r. eauto.
Qed.

Lemma delete_keeps_contiguous : forall db item imgid,
  contiguous_from_0 (history_nums db item) ->
  contiguous_from_0 (history_nums (dt_history_delete_on_image db imgid) item).
Proof.
  intros db item imgid Hc. unfold history_nums, dt_history_delete_on_image.
  simpl. rewrite history_of_delete.
  destruct (item =? imgid); [|exact Hc].
  apply Permutation_refl.
Qed.

(** C2: when the seq values of an image are 0, .., n-1 (each once, n
    below 2^31), they are again 0, .., n'-1 for the new length n' after any
    paste, in merge or replace mode, and after any delete; after the
    delete of the image itself its history is empty. *)
Theorem history_seq_contiguous :
  forall iop db item,
    contiguous_from_0 (history_nums db item) ->
    Z.of_nat (List.length (history_nums db item)) <= 2147483647 ->
    (forall imgid dest_imgid merge ops,
        contiguous_from_0
          (history_nums
             (snd (dt_history_copy_and_paste_on_image flag iop db imgid dest_imgid
                                                      merge ops)) item))
    /\ (forall imgid,
           contiguous_from_0 (history_nums (dt_history_delete_on_image db imgid) item))
    /\ history_nums (dt_history_delete_on_image db item) item = [].
Proof.
  intros iop db item Hc Hlen. split; [|split].
  - intros. now apply paste_keeps_contiguous.
  - intros. now apply delete_keeps_contiguous.
  - unfold history_nums, dt_history_delete_on_image. simpl.
    now rewrite history_of_delete, Z.eqb_refl.
Qed.

(** ** Replace mode *)


Lemma history_of_renumbered : forall dest rows n,
  history_of (renumbered dest n rows) dest = renumbered dest n rows.
Proof.
  induction rows as [|h rows IH]; intros n; simpl; [reflexivity|].
  now rewrite Z.eqb_refl, IH.
Qed.


Lemma mask_of_delete : forall mask dest i,
  mask_of (delete_mask mask dest) i = if i =? dest then [] else mask_of mask i.
Proof.
  unfold mask_of, delete_mask.
  induction mask as [|m l IH]; intros dest i; simpl.
  - now destruct (i =? dest).
  - destruct (Z.eqb_spec (m_imgid m) dest) as [E|E]; simpl; rewrite IH.
    + destruct (Z.eqb_spec i dest) as [E'|E']; [reflexivity|].
      destruct (Z.eqb_spec (m_imgid m) i); [congruence|reflexivity].
    + destruct (Z.eqb_spec (m_imgid m) i) as [E1|E1];
        destruct (Z.eqb_spec i dest) as [E2|E2]; try reflexivity. congruence.
Qed.

Lemma mask_of_mask_for : forall dest l,
  mask_of (map (mask_for dest) l) dest = map (mask_for dest) l.
Proof.
  unfold mask_of. induction l as [|m l IH]; simpl; [reflexivity|].
  now rewrite Z.eqb_refl, IH.
Qed.










(** ** Phase B: the lookup *)

Lemma candidate_test : forall op name s,
  String.eqb (s_operation s) op && String.eqb (s_multi_name s) name
  && (0 <=? s_num s) = true
  <-> candidate op name s.
Proof.
  intros op name s. unfold candidate.
  rewrite !andb_true_iff, !String.eqb_eq, Z.leb_le. tauto.
Qed.

Lemma style_lookup_first : forall items op name s,
  style_lookup items op name = Some s <-> first_candidate items op name s.
Proof.
  intros items op name s. unfold style_lookup, first_candidate. split.
  - induction items as [|x items IH]; simpl; [discriminate|].
    destruct (_ && _ && _) eqn:E.
    + intros [= <-]. exists [], items. split; [reflexivity|]. split.
      * now apply candidate_test.
      * intros s' [].
    + intros H. destruct (IH H) as (before & after & -> & Hc & Hb).
      exists (x :: before), after. split; [reflexivity|]. split; [assumption|].
      intros s' [<-|Hin]; [|now apply Hb].
      intros Hc'. apply candidate_test in Hc'. congruence.
  - intros (before & after & -> & Hc & Hb).
    induction before as [|x before IH]; simpl.
    + apply candidate_test in Hc. now rewrite Hc.
    + destruct (_ && _ && _) eqn:E.
      * apply candidate_test in E. exfalso. apply (Hb x); [now left|assumption].
      * apply IH. intros s' Hin. apply Hb. now right.
Qed.

Lemma style_lookup_none : forall items op name,
  style_lookup items op name = None
  <-> forall s, In s items -> ~ candidate op name s.
Proof.
  intros items op name. unfold style_lookup. split.
  - intros H s Hin Hc. apply candidate_test in Hc.
    pose proof (find_none _ _ H s Hin) as Hn. simpl in Hn. congruence.
  - intros H. destruct (find _ items) as [s|] eqn:E; [|reflexivity].
    apply find_some in E. destruct E as [Hin Hc].
    apply candidate_test in Hc. exfalso. now apply (H s).
Qed.

(** C4 (amended): for a group of a module that is not single-instance, the
    turn of the loop takes the first staged row, in row order, with the
    same operation, the same multi_name and num >= 0, provided its
    multi_priority is not negative: the rows of the group get that
    multi_priority and the staged rows with that num are flagged as used.
    Without such a row, or when its multi_priority is negative, nothing is
    flagged and the group gets the next value of the counter.  The label
    "0" is a text like any other. *)
Theorem merge_row_match :
  forall iop dest_imgid st g,
    one_instance flag iop (h_operation g) = false ->
    let st' := merge_row flag iop dest_imgid st g in
    (forall s,
        first_candidate (ms_style_items st) (h_operation g) (h_multi_name g) s ->
        0 <= sqlite3_column_int (s_multi_priority s) ->
        ms_history st'
        = update_multi_priority (ms_history st) dest_imgid (h_operation g)
            (sqlite3_column_int (h_multi_priority g))
            (sqlite3_column_int (s_multi_priority s))
        /\ ms_style_items st'
           = flag_used (ms_style_items st) (sqlite3_column_int (s_num s))
        /\ multi_priority_next st' = seeded_next st g)
    /\ ((forall s, In s (ms_style_items st) ->
                   ~ candidate (h_operation g) (h_multi_name g) s)
        \/ (exists s,
               first_candidate (ms_style_items st) (h_operation g)
                               (h_multi_name g) s
               /\ sqlite3_column_int (s_multi_priority s) < 0) ->
        ms_history st'
        = update_multi_priority (ms_history st) dest_imgid (h_operation g)
            (sqlite3_column_int (h_multi_priority g))
            (int_succ (seeded_next st g))
        /\ ms_style_items st' = ms_style_items st
        /\ multi_priority_next st' = int_succ (seeded_next st g)).
Proof.
  intros iop dest st g Hone st'. subst st'. unfold merge_row, seeded_next.
  rewrite Hone. split.
  - intros s Hs Hmp. apply style_lookup_first in Hs. rewrite Hs.
    apply Z.leb_le in Hmp. rewrite Hmp. simpl.
    destruct (String.eqb _ _); simpl; auto.
  - intros [Hnone|(s & Hs & Hmp)].
    + apply style_lookup_none in Hnone. rewrite Hnone. simpl.
      destruct (String.eqb _ _); simpl; auto.
    + apply style_lookup_first in Hs. rewrite Hs.
      apply Z.leb_gt in Hmp. rewrite Hmp. simpl.
      destruct (String.eqb _ _); simpl; auto.
Qed.

(** ** The order of [ORDER BY operation, multi_priority] *)

Lemma op_compare_lt : forall a b,
  String_as_OT.compare a b = Lt <-> String_as_OT.lt a b.
Proof. reflexivity. Qed.

Lemma op_compare_refl : forall a, String_as_OT.compare a a = Eq.
Proof.
  intros a. destruct (String_as_OT.compare_spec a a) as [_|H|H];
    [reflexivity| |]; exfalso; exact (StrictOrder_Irreflexive a H).
Qed.

Lemma op_compare_eq : forall a b, String_as_OT.compare a b = Eq -> a = b.
Proof.
  intros a b H. destruct (String_as_OT.compare_spec a b); congruence.
Qed.

Lemma op_compare_gt : forall a b,
  String_as_OT.compare a b = Gt -> String_as_OT.compare b a = Lt.
Proof.
  intros a b H. destruct (String_as_OT.compare_spec a b); try discriminate.
  assumption.
Qed.

Lemma op_compare_lt_gt : forall a b,
  String_as_OT.compare a b = Lt -> String_as_OT.compare b a = Gt.
Proof.
  intros a b H. destruct (String_as_OT.compare_spec b a) as [E|H'|H'].
  - change (b = a) in E. subst. rewrite op_compare_refl in H. discriminate.
  - exfalso. apply (StrictOrder_Irreflexive a).
    exact (StrictOrder_Transitive a b a H H').
  - reflexivity.
Qed.

Lemma op_compare_trans_lt : forall a b c,
  String_as_OT.compare a b = Lt -> String_as_OT.compare b c = Lt ->
  String_as_OT.compare a c = Lt.
Proof. intros a b c. exact (StrictOrder_Transitive a b c). Qed.

Lemma op_le_refl : forall a, op_le a a.
Proof. intros a. unfold op_le. now rewrite op_compare_refl. Qed.

Lemma op_le_antisym : forall a b, op_le a b -> op_le b a -> a = b.
Proof.
  unfold op_le. intros a b H1 H2.
  destruct (String_as_OT.compare a b) eqn:E.
  - now apply op_compare_eq.
  - apply op_compare_lt_gt in E. contradiction.
  - contradiction.
Qed.

Lemma op_le_trans : forall a b c, op_le a b -> op_le b c -> op_le a c.
Proof.
  unfold op_le. intros a b c H1 H2.
  destruct (String_as_OT.compare a b) eqn:E1; [| |contradiction].
  - apply op_compare_eq in E1. now subst.
  - destruct (String_as_OT.compare b c) eqn:E2; [| |contradiction].
    + apply op_compare_eq in E2. subst. now rewrite E1.
    + now rewrite (op_compare_trans_lt a b c E1 E2).
Qed.

Lemma op_le_empty : forall a, op_le "" a.
Proof. intros [|c a]; unfold op_le; simpl; discriminate. Qed.

Lemma ascii_compare_refl : forall c, Ascii_as_OT.compare c c = Eq.
Proof.
  intros c. destruct (Ascii_as_OT.compare_spec c c) as [_|H|H];
    [reflexivity| |]; exfalso; exact (StrictOrder_Irreflexive c H).
Qed.

(** A name is never below one of its prefixes. *)
Lemma op_le_prefix : forall n s, op_le s (substring 0 n s) -> substring 0 n s = s.
Proof.
  induction n as [|n IH]; intros [|c s]; simpl; try reflexivity.
  - unfold op_le. simpl. congruence.
  - unfold op_le. simpl. rewrite ascii_compare_refl. intros H.
    f_equal. now apply IH.
Qed.

Lemma substring_short : forall n s, (String.length s <= n)%nat -> substring 0 n s = s.
Proof.
  induction n as [|n IH]; intros [|c s] H; simpl in *; try reflexivity.
  - lia.
  - f_equal. apply IH. lia.
Qed.

Lemma key_leb_total : forall a b, key_leb a b = true \/ key_leb b a = true.
Proof.
  intros [a x] [b y]. unfold key_leb. simpl.
  destruct (String_as_OT.compare a b) eqn:E.
  - apply op_compare_eq in E. subst. rewrite op_compare_refl.
    destruct (Z.leb_spec x y); [now left|right]. apply Z.leb_le. lia.
  - now left.
  - right. now rewrite (op_compare_gt a b E).
Qed.

Lemma key_leb_trans : forall a b c,
  key_leb a b = true -> key_leb b c = true -> key_leb a c = true.
Proof.
  intros [a x] [b y] [c z]. unfold key_leb. simpl.
  destruct (String_as_OT.compare a b) eqn:E1; try discriminate.
  - apply op_compare_eq in E1. subst b.
    destruct (String_as_OT.compare a c); try discriminate; auto.
    intros H1 H2. apply Z.leb_le. apply Z.leb_le in H1, H2. lia.
  - intros _. destruct (String_as_OT.compare b c) eqn:E2; try discriminate.
    + apply op_compare_eq in E2. subst c. now rewrite E1.
    + now rewrite (op_compare_trans_lt a b c E1 E2).
Qed.

Lemma key_leb_op_le : forall a b, key_leb a b = true -> op_le (fst a) (fst b).
Proof.
  intros a b. unfold key_leb, op_le.
  destruct (String_as_OT.compare (fst a) (fst b)); congruence.
Qed.

(** ** [ORDER BY] sorts and permutes *)

Section OrderByFacts.

Context {A : Type} (leb : A -> A -> bool).
Hypothesis leb_total : forall a b, leb a b = true \/ leb b a = true.
Hypothesis leb_trans : forall a b c, leb a b = true -> leb b c = true -> leb a c = true.

Lemma order_insert_perm : forall x l, Permutation (order_insert leb x l) (x :: l).
Proof.
  intros x l. induction l as [|y l IH]; simpl; [apply Permutation_refl|].
  destruct (leb x y); [apply Permutation_refl|].
  eapply Permutation_trans; [apply perm_skip, IH|apply perm_swap].
Qed.

Lemma order_by_perm : forall l, Permutation (order_by leb l) l.
Proof.
  induction l as [|x l IH]; simpl; [constructor|].
  eapply Permutation_trans; [apply order_insert_perm|now apply perm_skip].
Qed.

Lemma order_by_In : forall l x, In x (order_by leb l) <-> In x l.
Proof.
  intros l x. split; apply Permutation_in;
    [apply order_by_perm|apply Permutation_sym, order_by_perm].
Qed.

Lemma order_insert_sorted : forall x l,
  StronglySorted (fun a b => leb a b = true) l ->
  StronglySorted (fun a b => leb a b = true) (order_insert leb x l).
Proof.
  intros x l H. induction H as [|y l Hs IH Hy]; simpl.
  - constructor; constructor.
  - destruct (leb x y) eqn:E.
    + constructor; [now constructor|]. constructor; [assumption|].
      rewrite Forall_forall in *. intros z Hz. eapply leb_trans; eauto.
    + constructor; [assumption|].
      rewrite Forall_forall in *. intros z Hz.
      apply (Permutation_in _ (order_insert_perm x l)) in Hz.
      destruct Hz as [<-|Hz]; [|now apply Hy].
      destruct (leb_total x y) as [H'|H']; congruence.
Qed.

Lemma order_by_sorted : forall l,
  StronglySorted (fun a b => leb a b = true) (order_by leb l).
Proof.
  induction l as [|x l IH]; simpl; [constructor|now apply order_insert_sorted].
Qed.

End OrderByFacts.

Lemma order_insert_map : forall {A B : Type} (f : A -> B) (leb : B -> B -> bool) x l,
  map f (order_insert (fun a b => leb (f a) (f b)) x l)
  = order_insert leb (f x) (map f l).
Proof.
  intros A B f leb x l. induction l as [|y l IH]; simpl; [reflexivity|].
  destruct (leb (f x) (f y)); simpl; [reflexivity|now rewrite IH].
Qed.

Lemma order_by_map : forall {A B : Type} (f : A -> B) (leb : B -> B -> bool) l,
  map f (order_by (fun a b => leb (f a) (f b)) l) = order_by leb (map f l).
Proof.
  intros A B f leb l. induction l as [|x l IH]; simpl; [reflexivity|].
  now rewrite order_insert_map, IH.
Qed.

Lemma StronglySorted_weaken : forall {A : Type} (R R' : A -> A -> Prop) l,
  (forall a b, R a b -> R' a b) -> StronglySorted R l -> StronglySorted R' l.
Proof.
  intros A R R' l HR H. induction H as [|x l Hs IH Hx]; constructor;
    [assumption|]. eapply Forall_impl; [|exact Hx]. intros a. apply HR.
Qed.

Lemma StronglySorted_map : forall {A B : Type} (f : A -> B) (R : B -> B -> Prop) l,
  StronglySorted R (map f l) <-> StronglySorted (fun a b => R (f a) (f b)) l.
Proof.
  intros A B f R l. induction l as [|x l IH]; simpl.
  - split; constructor.
  - split; intros H; inversion H as [|? ? Hs Hx]; subst; constructor;
      try (now apply IH).
    + rewrite Forall_map in Hx. exact Hx.
    + rewrite Forall_map. exact Hx.
Qed.

Lemma StronglySorted_filter : forall {A : Type} (R : A -> A -> Prop) f l,
  StronglySorted R l -> StronglySorted R (filter f l).
Proof.
  intros A R f l H. induction H as [|x l Hs IH Hx]; simpl; [constructor|].
  destruct (f x); [|assumption]. constructor; [assumption|].
  rewrite Forall_forall in *. intros y Hy. apply filter_In in Hy. now apply Hx.
Qed.

Lemma StronglySorted_app_inv : forall {A : Type} (R : A -> A -> Prop) l1 l2,
  StronglySorted R (l1 ++ l2) ->
  StronglySorted R l1 /\ StronglySorted R l2
  /\ forall a b, In a l1 -> In b l2 -> R a b.
Proof.
  intros A R l1 l2. induction l1 as [|x l1 IH]; simpl; intros H.
  - split; [constructor|]. split; [assumption|]. intros a b [].
  - inversion H as [|? ? Hs Hx]; subst.
    destruct (IH Hs) as (H1 & H2 & H3). rewrite Forall_forall in Hx.
    split; [|split; [assumption|]].
    + constructor; [assumption|]. rewrite Forall_forall. intros y Hy.
      apply Hx. apply in_or_app. now left.
    + intros a b [<-|Ha] Hb; [|now apply H3].
      apply Hx. apply in_or_app. now right.
Qed.

(** The rows of [style_items_ordered] come in the order of their operation. *)
Lemma style_items_ordered_sorted : forall items,
  StronglySorted (fun a b => op_le (s_operation a) (s_operation b))
                 (style_items_ordered items).
Proof.
  intros items. unfold style_items_ordered.
  eapply StronglySorted_weaken;
    [|apply order_by_sorted; intros; [apply key_leb_total|eapply key_leb_trans; eauto]].
  intros a b H. exact (key_leb_op_le _ _ H).
Qed.

(** ** The cleanup on normalized rows *)

Lemma cleanup_renumber_cons : forall hi rest op c nb,
  cleanup_renumber (hi :: rest) op c nb
  = let op' := if String.eqb op (hi_op hi) then op else g_strlcpy (hi_op hi) 1024 in
    let c' := if String.eqb op (hi_op hi) then c else 0 in
    let nb' := if hi_mi hi =? c' then nb else nb + 1 in
    (mk_history_item (hi_num hi) (hi_op hi) (hi_mi hi) c'
       :: fst (cleanup_renumber rest op' (c' + 1) nb'),
     snd (cleanup_renumber rest op' (c' + 1) nb')).
Proof.
  intros. simpl. now destruct (cleanup_renumber rest _ _ _).
Qed.

Lemma renumber_normalized : forall L op_cur c nb,
  StronglySorted (fun a b => op_le (s_operation a) (s_operation b)) L ->
  (forall s, In s L -> op_le op_cur (s_operation s)) ->
  (forall s, In s L -> (String.length (s_operation s) <= 1023)%nat) ->
  0 <= c ->
  c + Z.of_nat (List.length L) <= 2147483648 ->
  (forall o,
      map s_multi_priority (filter (fun s => String.eqb (s_operation s) o) L)
      = map (fun j => (if String.eqb op_cur o then c else 0) + Z.of_nat j)
            (seq 0 (List.length (filter (fun s => String.eqb (s_operation s) o) L)))) ->
  snd (cleanup_renumber (map history_item_of L) op_cur c nb) = nb
  /\ Forall (fun hi => hi_mi hi = hi_new_mi hi)
            (fst (cleanup_renumber (map history_item_of L) op_cur c nb)).
Proof.
  induction L as [|x L IH]; intros op_cur c nb Hs Hle Hlen Hc Hbound Hnum.
  - simpl. split; [reflexivity|constructor].
  - inversion Hs as [|? ? Hs' Hx]; subst. rewrite Forall_forall in Hx.
    remember (s_operation x) as o eqn:Eo.
    assert (Ho : snprintf_s 1024 o = o).
    { unfold snprintf_s. apply substring_short. subst o. apply Hlen. now left. }
    remember (if String.eqb op_cur o then c else 0) as start eqn:Estart.
    assert (Hstart : 0 <= start <= c)
      by (subst start; destruct (String.eqb op_cur o); lia).
    pose proof (Hnum o) as Hno. simpl filter in Hno.
    rewrite <- Eo, String.eqb_refl in Hno. simpl in Hno. rewrite <- Estart in Hno.
    injection Hno as Hmp Htail. rewrite Z.add_0_r in Hmp.
    simpl List.length in Hbound.
    simpl map. rewrite cleanup_renumber_cons.
    cbn [history_item_of hi_op hi_mi hi_num]. rewrite <- Eo, Ho, <- Estart, Hmp.
    rewrite (sqlite3_column_int_small start) by lia. cbv zeta. rewrite Z.eqb_refl.
    assert (Hop' : (if String.eqb op_cur o then op_cur else g_strlcpy o 1024) = o).
    { destruct (String.eqb_spec op_cur o) as [E|E]; [exact E|exact Ho]. }
    rewrite Hop'.
    destruct (IH o (start + 1) nb) as [IH1 IH2];
      [exact Hs'| | | | | |].
    + exact Hx.
    + intros s Hin. apply Hlen. now right.
    + lia.
    + lia.
    + intros o'. destruct (String.eqb_spec o o') as [<-|Hne].
      * rewrite Htail, <- seq_shift, map_map. apply map_ext. intros j. lia.
      * pose proof (Hnum o') as Hn'. simpl filter in Hn'. rewrite <- Eo in Hn'.
        apply String.eqb_neq in Hne. rewrite Hne in Hn'.
        destruct (filter (fun s => String.eqb (s_operation s) o') L) as [|y F] eqn:EF;
          [reflexivity|].
        assert (Hy : In y (filter (fun s => String.eqb (s_operation s) o') L))
          by (rewrite EF; now left).
        apply filter_In in Hy. destruct Hy as [Hy Hyo].
        apply String.eqb_eq in Hyo.
        assert (E : String.eqb op_cur o' = false).
        { apply String.eqb_neq. intros ->. apply String.eqb_neq in Hne. apply Hne.
          apply op_le_antisym.
          - rewrite <- Hyo. now apply Hx.
          - rewrite Eo. apply Hle. now left. }
        now rewrite E in Hn'.
    + cbn [fst snd]. split; [exact IH1|]. constructor; [reflexivity|exact IH2].
Qed.

Lemma filter_filter_operation : forall iop o (l : list style_item),
  filter (fun s => String.eqb (s_operation s) o)
         (filter (fun s => negb (one_instance flag iop (s_operation s))) l)
  = if one_instance flag iop o then []
    else filter (fun s => String.eqb (s_operation s) o) l.
Proof.
  intros iop o l. induction l as [|x l IH]; simpl.
  - now destruct (one_instance flag iop o).
  - destruct (String.eqb_spec (s_operation x) o) as [E|E].
    + rewrite E. destruct (one_instance flag iop o) eqn:Ho; simpl.
      * exact IH.
      * rewrite E, String.eqb_refl. now f_equal.
    + destruct (one_instance flag iop (s_operation x)); simpl.
      * exact IH.
      * apply String.eqb_neq in E. rewrite E. exact IH.
Qed.

Lemma cleanup_load_map : forall iop items,
  cleanup_load flag iop items
  = map history_item_of
        (filter (fun s => negb (one_instance flag iop (s_operation s)))
                (style_items_ordered items)).
Proof. reflexivity. Qed.

Lemma style_items_ordered_length : forall items,
  List.length (style_items_ordered items) = List.length items.
Proof.
  intros items. apply Permutation_length. apply order_by_perm.
Qed.

Lemma style_items_ordered_In : forall items s,
  In s (style_items_ordered items) <-> In s items.
Proof. intros. apply order_by_In. Qed.

Lemma cleanup_normalized_no_change : forall iop items,
  normalized flag iop items ->
  (forall s, In s items -> (String.length (s_operation s) <= 1023)%nat) ->
  Z.of_nat (List.length items) <= 2147483647 ->
  cleanup_nb_change flag iop items = 0.
Proof.
  intros iop items Hnorm Hlen Hsize. unfold cleanup_nb_change.
  rewrite cleanup_load_map.
  apply renumber_normalized.
  - apply StronglySorted_filter. apply style_items_ordered_sorted.
  - intros s _. apply op_le_empty.
  - intros s Hin. apply filter_In in Hin. destruct Hin as [Hin _].
    apply Hlen. now apply style_items_ordered_In.
  - lia.
  - pose proof (filter_length_le
                  (fun s => negb (one_instance flag iop (s_operation s)))
                  (style_items_ordered items)) as Hf.
    rewrite style_items_ordered_length in Hf. lia.
  - intros o. rewrite filter_filter_operation.
    destruct (one_instance flag iop o) eqn:Ho; [reflexivity|].
    pose proof (Hnorm o Ho) as Hn. unfold ordered_instances in Hn.
    rewrite length_map in Hn. rewrite Hn at 1.
    apply map_ext. intros j. now destruct (String.eqb "" o).
Qed.

(** C6: on staged rows whose multi-instance modules already carry the
    instance numbers 0, 1, .., k-1 in the order (operation,
    multi_priority), the cleanup counts no change and leaves the tables as
    they are, so a second run equals the first.  The operation names fit
    [char op[1024]] and the row count fits an [int]. *)
Theorem cleanup_idempotent_on_normalized :
  forall iop db,
    normalized flag iop (memory_style_items db) ->
    (forall s, In s (memory_style_items db) ->
               (String.length (s_operation s) <= 1023)%nat) ->
    Z.of_nat (List.length (memory_style_items db)) <= 2147483647 ->
    cleanup_nb_change flag iop (memory_style_items db) = 0
    /\ _dt_history_cleanup_multi_instance flag iop db = db
    /\ _dt_history_cleanup_multi_instance flag iop
         (_dt_history_cleanup_multi_instance flag iop db)
       = _dt_history_cleanup_multi_instance flag iop db.
Proof.
  intros iop db Hnorm Hlen Hsize.
  pose proof (cleanup_normalized_no_change iop _ Hnorm Hlen Hsize) as Hnb.
  assert (Hid : _dt_history_cleanup_multi_instance flag iop db = db).
  { unfold _dt_history_cleanup_multi_instance. unfold cleanup_nb_change in Hnb.
    destruct (cleanup_renumber _ _ _ _) as [hitems nb]. simpl in Hnb.
    now rewrite Hnb. }
  split; [exact Hnb|]. split; [exact Hid|]. now rewrite !Hid.
Qed.

(** ** Phase B: the groups *)

Lemma key_eqb_eq : forall a b, key_eqb a b = true <-> a = b.
Proof.
  intros [a x] [b y]. unfold key_eqb. simpl.
  rewrite andb_true_iff, String.eqb_eq, Z.eqb_eq. split.
  - intros [-> ->]. reflexivity.
  - intros [= -> ->]. auto.
Qed.

Lemma max_num_row_In : forall rs r, In (max_num_row r rs) (r :: rs).
Proof.
  unfold max_num_row. induction rs as [|x rs IH]; intros r; simpl; [now left|].
  destruct (h_num r <? h_num x).
  - right. apply IH.
  - destruct (IH r) as [H|H]; [now left|right; now right].
Qed.

Lemma group_by_In : forall rows g,
  In g (group_by_operation_multi_priority rows) -> In g rows.
Proof.
  intros rows g H. unfold group_by_operation_multi_priority in H.
  apply in_flat_map in H. destruct H as (k & _ & H).
  destruct (filter _ rows) as [|r rs] eqn:E; [contradiction|].
  destruct H as [<-|[]].
  assert (Hin : In (max_num_row r rs) (filter (fun h => key_eqb k (h_key h)) rows))
    by (rewrite E; apply max_num_row_In).
  apply filter_In in Hin. tauto.
Qed.

Lemma flat_map_sorted : forall (f : string * Z -> list history_row) keys,
  StronglySorted (fun a b => op_le (fst a) (fst b)) keys ->
  (forall k g, In g (f k) -> h_operation g = fst k) ->
  (forall k, (List.length (f k) <= 1)%nat) ->
  StronglySorted (fun a b => op_le (h_operation a) (h_operation b)) (flat_map f keys).
Proof.
  intros f keys Hs Hop Hone. induction Hs as [|k keys Hs IH Hk]; simpl.
  - constructor.
  - pose proof (Hone k) as H1. pose proof (Hop k) as H2.
    destruct (f k) as [|g [|g' l]]; simpl in *; [assumption| |lia].
    constructor; [assumption|].
    rewrite Forall_forall in *. intros x Hx.
    apply in_flat_map in Hx. destruct Hx as (k' & Hk' & Hx).
    rewrite (H2 g (or_introl eq_refl)), (Hop k' x Hx). now apply Hk.
Qed.

Lemma group_by_sorted : forall rows,
  StronglySorted (fun a b => op_le (h_operation a) (h_operation b))
                 (group_by_operation_multi_priority rows).
Proof.
  intros rows. unfold group_by_operation_multi_priority.
  apply flat_map_sorted.
  - eapply StronglySorted_weaken;
      [|apply order_by_sorted; intros; [apply key_leb_total|eapply key_leb_trans; eauto]].
    intros a b H. exact (key_leb_op_le _ _ H).
  - intros k g H. destruct (filter _ rows) as [|r rs] eqn:E; [contradiction|].
    destruct H as [<-|[]].
    assert (Hin : In (max_num_row r rs) (filter (fun h => key_eqb k (h_key h)) rows))
      by (rewrite E; apply max_num_row_In).
    apply filter_In in Hin. destruct Hin as [_ Hin].
    apply key_eqb_eq in Hin. now rewrite Hin.
  - intros k. destruct (filter _ rows); simpl; lia.
Qed.

Lemma merge_groups_sorted : forall history items dest,
  StronglySorted (fun a b => op_le (h_operation a) (h_operation b))
                 (merge_groups history items dest).
Proof. intros. apply group_by_sorted. Qed.

Lemma merge_groups_staged : forall history items dest g,
  In g (merge_groups history items dest) ->
  h_imgid g = dest /\ In (h_operation g) (map s_operation items).
Proof.
  intros history items dest g H. apply group_by_In in H.
  apply filter_In in H. destruct H as [_ H].
  apply andb_true_iff in H. destruct H as [H1 H2].
  apply Z.eqb_eq in H1. split; [assumption|].
  apply existsb_exists in H2. destruct H2 as (s & Hs & E).
  apply String.eqb_eq in E. rewrite E. now apply in_map.
Qed.

(** ** Phase B: one turn of the loop *)

Lemma merge_row_one_instance : forall iop dest st g,
  one_instance flag iop (h_operation g) = true ->
  merge_row flag iop dest st g = st.
Proof. intros iop dest st g H. unfold merge_row. now rewrite H. Qed.

Lemma merge_row_unmatched : forall iop dest st g,
  one_instance flag iop (h_operation g) = false ->
  label_match (ms_style_items st) g = false ->
  merge_row flag iop dest st g
  = mk_merge_state
      (update_multi_priority (ms_history st) dest (h_operation g)
                             (sqlite3_column_int (h_multi_priority g))
                             (int_succ (seeded_next st g)))
      (ms_style_items st)
      (if String.eqb (h_operation g) (operation_prev st)
       then operation_prev st else snprintf_s 257 (h_operation g))
      (int_succ (seeded_next st g)).
Proof.
  intros iop dest st g Hone Hm. unfold merge_row, seeded_next, label_match in *.
  rewrite Hone.
  destruct (style_lookup _ _ _) as [s|]; simpl.
  - rewrite Hm. now destruct (String.eqb _ _).
  - now destruct (String.eqb _ _).
Qed.

Lemma merge_row_matched : forall iop dest st g,
  one_instance flag iop (h_operation g) = false ->
  label_match (ms_style_items st) g = true ->
  exists s,
    style_lookup (ms_style_items st) (h_operation g) (h_multi_name g) = Some s
    /\ merge_row flag iop dest st g
       = mk_merge_state
           (update_multi_priority (ms_history st) dest (h_operation g)
                                  (sqlite3_column_int (h_multi_priority g))
                                  (sqlite3_column_int (s_multi_priority s)))
           (flag_used (ms_style_items st) (sqlite3_column_int (s_num s)))
           (if String.eqb (h_operation g) (operation_prev st)
            then operation_prev st else snprintf_s 257 (h_operation g))
           (seeded_next st g).
Proof.
  intros iop dest st g Hone Hm. unfold merge_row, seeded_next, label_match in *.
  rewrite Hone.
  destruct (style_lookup _ _ _) as [s|]; [|discriminate].
  exists s. split; [reflexivity|]. rewrite Hm.
  now destruct (String.eqb _ _).
Qed.

Lemma flag_used_max : forall items n op,
  style_max_multi_priority (flag_used items n) op
  = style_max_multi_priority items op.
Proof.
  intros items n op. unfold style_max_multi_priority, flag_used. f_equal.
  induction items as [|s items IH]; simpl; [reflexivity|].
  assert (E : s_operation (if s_num s =? n then s_set_num s (-1) else s)
              = s_operation s) by (now destruct (s_num s =? n)).
  assert (E' : s_multi_priority (if s_num s =? n then s_set_num s (-1) else s)
               = s_multi_priority s) by (now destruct (s_num s =? n)).
  rewrite E. destruct (String.eqb (s_operation s) op); simpl; now rewrite ?E', IH.
Qed.

Lemma merge_row_max : forall iop dest st g op,
  style_max_multi_priority (ms_style_items (merge_row flag iop dest st g)) op
  = style_max_multi_priority (ms_style_items st) op.
Proof.
  intros iop dest st g op. unfold merge_row.
  destruct (one_instance flag iop (h_operation g)); [reflexivity|].
  destruct (0 <=? _); simpl; [apply flag_used_max|reflexivity].
Qed.

Lemma unmatched_before_nonneg : forall iop dest op pre st,
  0 <= unmatched_before flag iop dest op st pre.
Proof.
  intros iop dest op pre. induction pre as [|g pre IH]; intros st; simpl; [lia|].
  specialize (IH (merge_row flag iop dest st g)).
  destruct (_ && _); lia.
Qed.

Lemma unmatched_before_unseen : forall iop dest op pre st,
  existsb (fun g => String.eqb (h_operation g) op) pre = false ->
  unmatched_before flag iop dest op st pre = 0.
Proof.
  intros iop dest op pre. induction pre as [|g pre IH]; intros st H; simpl in *;
    [reflexivity|].
  apply orb_false_iff in H. destruct H as [H1 H2].
  rewrite H1, IH by assumption. reflexivity.
Qed.

(** ** Phase B: the counter along the loop *)

Lemma merge_loop_counter : forall iop dest op m,
  one_instance flag iop op = false ->
  op <> ""%string ->
  (String.length op <= 256)%nat ->
  -2147483648 <= m <= 2147483647 ->
  forall pre st (seen : bool) u,
    style_max_multi_priority (ms_style_items st) op = Some m ->
    StronglySorted (fun a b => op_le (h_operation a) (h_operation b)) pre ->
    (forall g, In g pre -> op_le (h_operation g) op) ->
    (seen = true -> forall g, In g pre -> h_operation g = op) ->
    (seen = true -> operation_prev st = op /\ multi_priority_next st = m + u) ->
    (seen = false -> operation_prev st <> op /\ u = 0) ->
    (forall pre1 g1 post1,
        pre = pre1 ++ g1 :: post1 -> h_operation g1 = op ->
        seeded_next (fold_left (merge_row flag iop dest) pre1 st) g1 < 2147483647) ->
    let st' := fold_left (merge_row flag iop dest) pre st in
    let seen' := seen || existsb (fun g => String.eqb (h_operation g) op) pre in
    style_max_multi_priority (ms_style_items st') op = Some m
    /\ (seen' = true ->
        operation_prev st' = op
        /\ multi_priority_next st' = m + (u + unmatched_before flag iop dest op st pre))
    /\ (seen' = false -> operation_prev st' <> op).
Proof.
  intros iop dest op m Hone Hne Hlen Hm.
  assert (Hsn : snprintf_s 257 op = op)
    by (unfold snprintf_s; apply substring_short; simpl; lia).
  induction pre as [|g pre IH]; intros st seen u Hmax Hs Hle Hall Hseen Hunseen HP.
  - simpl. rewrite orb_false_r, Z.add_0_r. split; [assumption|]. split.
    + assumption.
    + intros E. now destruct (Hunseen E).
  - inversion Hs as [|? ? Hs' Hg]; subst. rewrite Forall_forall in Hg.
    simpl fold_left. simpl existsb. simpl unmatched_before.
    assert (HP' : forall pre1 g1 post1,
               pre = pre1 ++ g1 :: post1 -> h_operation g1 = op ->
               seeded_next (fold_left (merge_row flag iop dest) pre1
                                      (merge_row flag iop dest st g)) g1
               < 2147483647).
    { intros pre1 g1 post1 E Eo.
      apply (HP (g :: pre1) g1 post1); [now rewrite E|assumption]. }
    destruct (String.eqb_spec (h_operation g) op) as [Eg|Eg].
    + (* a group of the operation *)
      assert (Hseed : seeded_next st g = m + u).
      { unfold seeded_next. rewrite Eg.
        destruct seen.
        - destruct (Hseen eq_refl) as [Hp Hn]. now rewrite Hp, String.eqb_refl.
        - destruct (Hunseen eq_refl) as [Hp ->].
          assert (E : String.eqb op (operation_prev st) = false).
          { apply String.eqb_neq. congruence. }
          rewrite E, Hmax. simpl. rewrite Z.add_0_r.
          now apply sqlite3_column_int_small. }
      assert (Hprev : (if String.eqb (h_operation g) (operation_prev st)
                       then operation_prev st else snprintf_s 257 (h_operation g))
                      = op).
      { rewrite Eg. destruct (String.eqb_spec op (operation_prev st)); congruence. }
      assert (Hrest : forall g', In g' pre -> h_operation g' = op).
      { intros g' Hin. apply op_le_antisym.
        - apply Hle. now right.
        - rewrite <- Eg. now apply Hg. }
      rewrite orb_true_r. simpl andb.
      rewrite <- Eg in Hone.
      set (st1 := merge_row flag iop dest st g).
      assert (Hmax1 : style_max_multi_priority (ms_style_items st1) op = Some m)
        by (subst st1; now rewrite merge_row_max).
      assert (Hle' : forall g', In g' pre -> op_le (h_operation g') op)
        by (intros g' Hin; apply Hle; now right).
      destruct (label_match (ms_style_items st) g) eqn:Hlm; simpl negb.
      * destruct (merge_row_matched iop dest st g Hone Hlm) as (s & _ & Hrow).
        fold st1 in Hrow.
        assert (H1 : operation_prev st1 = op /\ multi_priority_next st1 = m + u).
        { rewrite Hrow. simpl. now rewrite Hprev, Hseed. }
        destruct (IH st1 true u Hmax1 Hs' Hle') as (A & B & _);
          [intros _; exact Hrest|intros _; exact H1|discriminate|exact HP'|].
        cbv zeta. split; [exact A|]. split; [|discriminate].
        intros _. destruct (B eq_refl) as [B1 B2].
        split; [exact B1|]. rewrite B2. lia.
      * pose proof (merge_row_unmatched iop dest st g Hone Hlm) as Hrow.
        fold st1 in Hrow.
        assert (H1 : operation_prev st1 = op
                     /\ multi_priority_next st1 = m + (u + 1)).
        { rewrite Hrow. simpl. rewrite Hprev, Hseed. split; [reflexivity|].
          pose proof (HP [] g pre eq_refl Eg) as Hlt. simpl in Hlt.
          rewrite Hseed in Hlt. unfold int_succ.
          destruct (Z.eqb_spec (m + u) 2147483647); lia. }
        destruct (IH st1 true (u + 1) Hmax1 Hs' Hle') as (A & B & _);
          [intros _; exact Hrest|intros _; exact H1|discriminate|exact HP'|].
        cbv zeta. split; [exact A|]. split; [|discriminate].
        intros _. destruct (B eq_refl) as [B1 B2].
        split; [exact B1|]. rewrite B2. lia.
    + (* a group of another operation *)
      assert (Hnot : seen = false).
      { destruct seen; [|reflexivity]. exfalso. apply Eg.
        apply (Hall eq_refl). now left. }
      subst seen. destruct (Hunseen eq_refl) as [Hp ->].
      simpl andb. simpl orb.
      set (st1 := merge_row flag iop dest st g).
      assert (Hmax1 : style_max_multi_priority (ms_style_items st1) op = Some m)
        by (subst st1; now rewrite merge_row_max).
      assert (Hle' : forall g', In g' pre -> op_le (h_operation g') op)
        by (intros g' Hin; apply Hle; now right).
      assert (Hp1 : operation_prev st1 <> op).
      { subst st1. unfold merge_row.
        destruct (one_instance flag iop (h_operation g)); [assumption|].
        assert (Hp' : (if negb (String.eqb (h_operation g) (operation_prev st))
                       then snprintf_s 257 (h_operation g)
                       else operation_prev st) <> op).
        { destruct (String.eqb (h_operation g) (operation_prev st)); simpl;
            [assumption|].
          intros E. apply Eg. rewrite <- E. symmetry. unfold snprintf_s.
          apply op_le_prefix. unfold snprintf_s in E. rewrite E.
          apply Hle. now left. }
        destruct (0 <=? _); simpl; exact Hp'. }
      destruct (IH st1 false 0 Hmax1 Hs' Hle') as (A & B & C);
        [discriminate|discriminate|intros _; split; [exact Hp1|reflexivity]
        |exact HP'|].
      cbv zeta in *. simpl orb in *. split; [exact A|]. split; [|exact C].
      intros E. destruct (B E) as [B1 B2].
      split; [exact B1|]. rewrite B2. lia.
Qed.

Lemma update_relabelled : forall history dest op old new,
  relabelled dest op old new history (update_multi_priority history dest op old new).
Proof.
  intros history dest op old new. unfold relabelled, update_multi_priority.
  induction history as [|h history IH]; simpl; constructor; [|exact IH].
  destruct (Z.eqb_spec (h_imgid h) dest) as [E1|E1];
    destruct (String.eqb_spec (h_operation h) op) as [E2|E2];
    destruct (Z.eqb_spec (h_multi_priority h) old) as [E3|E3]; simpl;
    split; try (intros (A & B & C); contradiction); try reflexivity;
    try (intros H; exfalso; apply H; auto).
  intros _. split; reflexivity.
Qed.

End Properties.

Section SingleInstance.

Variable flag : Z.

(** ** Single-instance modules through the merge *)

Lemma map_fixed_In : forall (f : history_row -> history_row) x history h',
  (forall h, h_operation (f h) = h_operation h) ->
  (forall h, h_operation h = x -> f h = h) ->
  In h' (map f history) -> h_operation h' = x -> In h' history.
Proof.
  intros f x history h' Hop Hfix Hin Hx.
  apply in_map_iff in Hin. destruct Hin as (h & <- & Hin).
  rewrite Hop in Hx. now rewrite (Hfix h Hx).
Qed.

Lemma update_multi_priority_other : forall history dest op old new x h',
  op <> x ->
  In h' (update_multi_priority history dest op old new) ->
  h_operation h' = x -> In h' history.
Proof.
  intros history dest op old new x h' Hne. unfold update_multi_priority.
  apply map_fixed_In.
  - intros h. now destruct (_ && _ && _).
  - intros h Hx.
    assert (E : String.eqb (h_operation h) op = false)
      by (apply String.eqb_neq; congruence).
    now rewrite E, andb_false_r.
Qed.

Lemma append_other : forall iop db dest x h',
  one_instance flag iop x = true ->
  In h' (main_history (_history_rebuild_multi_priority_append flag iop db dest)) ->
  h_operation h' = x -> In h' (main_history db).
Proof.
  intros iop db dest x h' Hone. unfold _history_rebuild_multi_priority_append.
  simpl main_history. rewrite append_loop_map by apply distinct_operations_NoDup.
  apply map_fixed_In.
  - intros h. now destruct (_ && _ && _).
  - intros h Hx. now rewrite Hx, Hone, andb_false_r.
Qed.

Lemma merge_row_other : forall iop dest st g x h',
  one_instance flag iop x = true ->
  In h' (ms_history (merge_row flag iop dest st g)) ->
  h_operation h' = x -> In h' (ms_history st).
Proof.
  intros iop dest st g x h' Hone. unfold merge_row.
  destruct (one_instance flag iop (h_operation g)) eqn:Hg; [auto|].
  assert (Hne : h_operation g <> x) by congruence.
  destruct (0 <=? _); simpl; now apply update_multi_priority_other.
Qed.

Lemma merge_loop_other : forall iop dest x groups st h',
  one_instance flag iop x = true ->
  In h' (ms_history (fold_left (merge_row flag iop dest) groups st)) ->
  h_operation h' = x -> In h' (ms_history st).
Proof.
  intros iop dest x groups. induction groups as [|g groups IH];
    intros st h' Hone Hin Hx; simpl in Hin; [assumption|].
  eapply merge_row_other; eauto.
Qed.

Lemma merge_other : forall iop db dest x h',
  one_instance flag iop x = true ->
  In h' (main_history (dt_history_rebuild_multi_priority_merge flag iop db dest)) ->
  h_operation h' = x -> In h' (main_history db).
Proof.
  intros iop db dest x h' Hone Hin Hx.
  unfold dt_history_rebuild_multi_priority_merge in Hin. cbv zeta in Hin.
  cbn [main_history set_style_items set_history] in Hin.
  apply (merge_loop_other iop dest x _ _ h' Hone) in Hin; [|assumption].
  cbn [merge_init ms_history] in Hin.
  now apply (append_other iop db dest x h' Hone).
Qed.

Lemma flag_used_keep : forall x items n,
  map (s_keep x) (flag_used items n) = map (s_keep x) items.
Proof.
  intros. unfold flag_used. rewrite map_map. apply map_ext.
  intros s. now destruct (s_num s =? n).
Qed.

Lemma merge_row_keep : forall iop dest x st g,
  map (s_keep x) (ms_style_items (merge_row flag iop dest st g))
  = map (s_keep x) (ms_style_items st).
Proof.
  intros iop dest x st g. unfold merge_row.
  destruct (one_instance flag iop (h_operation g)); [reflexivity|].
  destruct (0 <=? _); simpl; [apply flag_used_keep|reflexivity].
Qed.

Lemma merge_loop_keep : forall iop dest x groups st,
  map (s_keep x) (ms_style_items (fold_left (merge_row flag iop dest) groups st))
  = map (s_keep x) (ms_style_items st).
Proof.
  intros iop dest x groups. induction groups as [|g groups IH]; intros st; simpl;
    [reflexivity|].
  now rewrite IH, merge_row_keep.
Qed.

Lemma merge_keep : forall iop db dest x,
  map (s_keep x)
      (memory_style_items (dt_history_rebuild_multi_priority_merge flag iop db dest))
  = map (s_keep x) (memory_style_items db).
Proof.
  intros iop db dest x. unfold dt_history_rebuild_multi_priority_merge.
  cbv zeta. cbn [memory_style_items set_style_items set_history].
  now rewrite merge_loop_keep.
Qed.

(** ** Single-instance modules through the cleanup *)

Lemma case_num_else : forall whens n d,
  (forall k, In k (map fst whens) -> k <> n) -> case_num whens n d = d.
Proof.
  induction whens as [|[k v] whens IH]; intros n d H; simpl; [reflexivity|].
  assert (E : (n =? k) = false).
  { apply Z.eqb_neq. intros ->. apply (H k); [now left|reflexivity]. }
  rewrite E. apply IH. intros k' Hk'. apply H. now right.
Qed.

Lemma cleanup_renumber_nums : forall hitems op c nb,
  map hi_num (fst (cleanup_renumber hitems op c nb)) = map hi_num hitems.
Proof.
  induction hitems as [|hi rest IH]; intros op c nb; [reflexivity|].
  rewrite cleanup_renumber_cons. cbv zeta. cbn [fst map hi_num].
  now rewrite IH.
Qed.

Lemma cleanup_whens_keys : forall iop items op c nb k,
  In k (map fst (cleanup_whens
                   (fst (cleanup_renumber (cleanup_load flag iop items) op c nb)))) ->
  exists s, In s items /\ one_instance flag iop (s_operation s) = false
            /\ k = sqlite3_column_int (s_num s).
Proof.
  intros iop items op c nb k H. unfold cleanup_whens in H.
  rewrite map_map in H. simpl in H.
  apply in_map_iff in H. destruct H as (hi & <- & Hin).
  apply filter_In in Hin. destruct Hin as [Hin _].
  assert (Hn : In (hi_num hi)
                  (map hi_num (fst (cleanup_renumber (cleanup_load flag iop items)
                                                     op c nb))))
    by (now apply in_map).
  rewrite cleanup_renumber_nums, cleanup_load_map, map_map in Hn.
  apply in_map_iff in Hn. destruct Hn as (s & Hs & Hin').
  apply filter_In in Hin'. destruct Hin' as [Hin' Hone].
  apply (proj1 (style_items_ordered_In _ _)) in Hin'.
  apply negb_true_iff in Hone.
  exists s. split; [exact Hin'|]. split; [exact Hone|]. now rewrite <- Hs.
Qed.

Lemma NoDup_map_eq : forall {A B : Type} (f : A -> B) l a b,
  NoDup (map f l) -> In a l -> In b l -> f a = f b -> a = b.
Proof.
  intros A B f l a b. induction l as [|y l IH]; simpl; intros Hnd Ha Hb E;
    [contradiction|].
  inversion Hnd as [|? ? Hnotin Hnd']; subst.
  destruct Ha as [->|Ha], Hb as [->|Hb]; auto.
  - exfalso. apply Hnotin. rewrite E. now apply in_map.
  - exfalso. apply Hnotin. rewrite <- E. now apply in_map.
Qed.

Lemma cleanup_keep : forall iop db x,
  one_instance flag iop x = true ->
  NoDup (map s_num (memory_style_items db)) ->
  (forall s, In s (memory_style_items db) ->
             -2147483648 <= s_num s <= 2147483647) ->
  map (s_keep x) (memory_style_items (_dt_history_cleanup_multi_instance flag iop db))
  = map (s_keep x) (memory_style_items db).
Proof.
  intros iop db x Hone Hnd Hrange. unfold _dt_history_cleanup_multi_instance.
  destruct (cleanup_renumber (cleanup_load flag iop (memory_style_items db)) "" 0 0)
    as [hitems nb] eqn:E.
  destruct (nb =? 0); [reflexivity|].
  cbn [memory_style_items set_style_items]. unfold cleanup_update.
  rewrite map_map. apply map_ext_in. intros s Hs.
  unfold s_keep. cbn [s_set_multi_priority s_rowid s_payload s_module s_operation
                      s_op_params s_enabled s_blendop_params s_blendop_version
                      s_multi_name s_multi_priority].
  destruct (String.eqb_spec (s_operation s) x) as [Hx|Hx]; [|reflexivity].
  rewrite case_num_else; [reflexivity|].
  intros k Hk Hkn.
  replace hitems
    with (fst (cleanup_renumber (cleanup_load flag iop (memory_style_items db)) "" 0 0))
    in Hk by (now rewrite E).
  apply cleanup_whens_keys in Hk. destruct Hk as (s' & Hs' & Hone' & Hk).
  rewrite sqlite3_column_int_small in Hk by (now apply Hrange).
  assert (Heq : s' = s).
  { apply (NoDup_map_eq s_num (memory_style_items db)); try assumption. congruence. }
  subst s'. rewrite Hx in Hone'. congruence.
Qed.

(** ** The staged rows *)

Lemma distinct_keys_In : forall l k, In k (distinct_keys l) <-> In k l.
Proof.
  induction l as [|x l IH]; intros k; simpl; [tauto|].
  rewrite filter_In, IH. split.
  - intros [H|[H _]]; auto.
  - intros [H|H]; [now left|].
    destruct (key_eqb x k) eqn:E; [left; now apply key_eqb_eq|right; auto].
Qed.

Lemma distinct_keys_NoDup : forall l, NoDup (distinct_keys l).
Proof.
  induction l as [|x l IH]; simpl; constructor.
  - rewrite filter_In. intros [_ H].
    assert (E : key_eqb x x = true) by (now apply key_eqb_eq).
    now rewrite E in H.
  - now apply NoDup_filter.
Qed.

Lemma group_by_keys : forall rows,
  map h_key (group_by_operation_multi_priority rows)
  = order_by key_leb (distinct_keys (map h_key rows)).
Proof.
  intros rows. unfold group_by_operation_multi_priority.
  assert (H : forall k, In k (order_by key_leb (distinct_keys (map h_key rows))) ->
                        In k (map h_key rows)).
  { intros k Hk. apply (proj1 (order_by_In _ _ _)) in Hk.
    exact (proj1 (distinct_keys_In _ _) Hk). }
  induction (order_by key_leb (distinct_keys (map h_key rows))) as [|k keys IH];
    simpl; [reflexivity|].
  rewrite map_app, IH by (intros k' Hk'; apply H; now right). clear IH.
  destruct (filter (fun h => key_eqb k (h_key h)) rows) as [|r rs] eqn:E.
  - exfalso. assert (Hk : In k (map h_key rows)) by (apply H; now left).
    apply in_map_iff in Hk. destruct Hk as (h & Hh & Hin).
    assert (Hf : In h (filter (fun h => key_eqb k (h_key h)) rows)).
    { apply filter_In. split; [assumption|]. now apply key_eqb_eq. }
    now rewrite E in Hf.
  - simpl. f_equal.
    assert (Hin : In (max_num_row r rs) (filter (fun h => key_eqb k (h_key h)) rows))
      by (rewrite E; apply max_num_row_In).
    apply filter_In in Hin. destruct Hin as [_ Hin].
    apply key_eqb_eq in Hin. now rewrite Hin.
Qed.

Lemma NoDup_map_via : forall {A B C : Type} (f : A -> B) (g : A -> C) l,
  NoDup (map f l) ->
  (forall a b, In a l -> In b l -> g a = g b -> f a = f b) ->
  NoDup (map g l).
Proof.
  intros A B C f g l. induction l as [|x l IH]; simpl; intros Hnd Hinj;
    [constructor|].
  inversion Hnd as [|? ? Hnotin Hnd']; subst. constructor.
  - intros Hin. apply in_map_iff in Hin. destruct Hin as (y & Hy & Hin).
    apply Hnotin. rewrite <- (Hinj y x); [now apply in_map|now right|now left|assumption].
  - apply IH; [assumption|]. intros a b Ha Hb. apply Hinj; now right.
Qed.

Lemma NoDup_map_filter : forall {A B : Type} (f : A -> B) p l,
  NoDup (map f l) -> NoDup (map f (filter p l)).
Proof.
  intros A B f p l. induction l as [|x l IH]; simpl; intros Hnd; [constructor|].
  inversion Hnd as [|? ? Hnotin Hnd']; subst.
  destruct (p x); simpl; [|now apply IH].
  constructor; [|now apply IH].
  intros Hin. apply Hnotin. apply in_map_iff in Hin.
  destruct Hin as (y & Hy & Hin). apply filter_In in Hin.
  rewrite <- Hy. apply in_map. tauto.
Qed.

Lemma group_by_nums_NoDup : forall rows,
  NoDup (map h_num rows) ->
  NoDup (map h_num (group_by_operation_multi_priority rows)).
Proof.
  intros rows Hnd. apply (NoDup_map_via h_key h_num).
  - rewrite group_by_keys.
    apply (Permutation_NoDup (Permutation_sym (order_by_perm key_leb _))).
    apply distinct_keys_NoDup.
  - intros a b Ha Hb E. apply group_by_In in Ha, Hb.
    now rewrite (NoDup_map_eq h_num rows a b Hnd Ha Hb E).
Qed.

Lemma staged_rows_In : forall history imgid merge ops h,
  In h (staged_rows history imgid merge ops) -> In h (history_of history imgid).
Proof.
  intros history imgid merge ops h. unfold staged_rows.
  destruct (merge && _).
  - unfold select_last_entries. intros H.
    apply (proj1 (order_by_In _ _ _)) in H. now apply group_by_In in H.
  - destruct (req_complete ops); [|contradiction].
    unfold select_entries. intros H. apply filter_In in H. tauto.
Qed.

Lemma staged_rows_NoDup : forall history imgid merge ops,
  NoDup (map h_num (history_of history imgid)) ->
  NoDup (map h_num (staged_rows history imgid merge ops)).
Proof.
  intros history imgid merge ops Hnd. unfold staged_rows.
  destruct (merge && _).
  - unfold select_last_entries.
    apply (Permutation_NoDup
             (Permutation_map h_num
                (Permutation_sym (order_by_perm _ _)))).
    now apply group_by_nums_NoDup.
  - destruct (req_complete ops); [|constructor].
    unfold select_entries. now apply NoDup_map_filter.
Qed.

Lemma staged_rows_trim : forall history images imgid dest merge ops,
  imgid <> dest ->
  staged_rows (trim_history history images dest) imgid merge ops
  = staged_rows history imgid merge ops.
Proof.
  intros history images imgid dest merge ops Hne.
  unfold staged_rows, select_last_entries, select_entries.
  rewrite history_of_trim. apply Z.eqb_neq in Hne. now rewrite Hne.
Qed.

Lemma number_rows_nums : forall rows r,
  map s_num (number_rows r rows) = map h_num rows.
Proof.
  induction rows as [|h rows IH]; intros r; simpl; [reflexivity|].
  now rewrite IH.
Qed.

Lemma number_rows_In : forall rows r s,
  In s (number_rows r rows) ->
  exists h, In h rows /\ s_payload s = h_payload h
            /\ s_multi_priority s = h_multi_priority h /\ s_num s = h_num h.
Proof.
  induction rows as [|h rows IH]; intros r s; simpl; [contradiction|].
  intros [<-|Hin].
  - exists h. split; [now left|]. repeat split.
  - destruct (IH _ _ Hin) as (h' & Hh' & Hrest).
    exists h'. split; [now right|assumption].
Qed.

Lemma number_rows_has : forall rows r h,
  In h rows ->
  exists s, In s (number_rows r rows) /\ s_payload s = h_payload h
            /\ s_multi_priority s = h_multi_priority h.
Proof.
  induction rows as [|h0 rows IH]; intros r h; simpl; [contradiction|].
  intros [->|Hin].
  - exists (style_of_history r h). split; [now left|]. split; reflexivity.
  - destruct (IH (r + 1) h Hin) as (s & Hs & Hrest).
    exists s. split; [now right|assumption].
Qed.

(** ** A paste in merge mode, part by part *)

Lemma paste_merge_unfold : forall iop db imgid dest ops,
  imgid <> dest -> imgid <> -1 ->
  let db4 := dt_history_rebuild_multi_priority_merge flag iop
               (_dt_history_cleanup_multi_instance flag iop
                  (staged_db db imgid dest ops)) dest in
  main_history (snd (dt_history_copy_and_paste_on_image flag iop db imgid dest
                                                        true ops))
  = paste_style_items (main_history db4) (memory_style_items db4) dest
      (sqlite3_column_int
         (next_num (trim_history (main_history db) (main_images db) dest) dest)).
Proof.
  intros iop db imgid dest ops Hne Hsrc. cbv zeta.
  unfold dt_history_copy_and_paste_on_image.
  apply Z.eqb_neq in Hne. apply Z.eqb_neq in Hsrc. rewrite Hne, Hsrc.
  cbv beta iota zeta. simpl andb.
  set (history := trim_history (main_history db) (main_images db) dest).
  set (db1 := set_style_items (set_history db history) []).
  assert (H2 : (if match ops with [] => true | _ :: _ => false end
                then set_style_items db1
                       (insert_style_items (memory_style_items db1)
                          (select_last_entries (main_history db1) imgid))
                else if req_complete ops
                     then set_style_items db1
                            (insert_style_items (memory_style_items db1)
                               (select_entries (main_history db1) imgid ops))
                     else db1)
               = staged_db db imgid dest ops).
  { unfold staged_db, staged_rows. fold history. simpl andb.
    destruct ops as [|p ops]; [reflexivity|].
    destruct (req_complete (p :: ops)); reflexivity. }
  rewrite H2. reflexivity.
Qed.

Lemma trim_history_In : forall history images dest h,
  In h (trim_history history images dest) -> In h history.
Proof.
  intros history images dest h H. unfold trim_history in H.
  apply filter_In in H. tauto.
Qed.

Lemma history_of_In : forall history imgid h,
  In h (history_of history imgid) <-> In h history /\ h_imgid h = imgid.
Proof.
  intros. unfold history_of. rewrite filter_In, Z.eqb_eq. tauto.
Qed.

Lemma paste_merge_parts : forall iop db imgid dest ops x,
  imgid <> dest -> imgid <> -1 ->
  one_instance flag iop x = true ->
  NoDup (history_nums db imgid) ->
  (forall h, In h (main_history db) -> 0 <= h_num h < 2147483647) ->
  let history := trim_history (main_history db) (main_images db) dest in
  exists merged items,
    main_history (snd (dt_history_copy_and_paste_on_image flag iop db imgid dest
                                                          true ops))
    = merged ++ map (history_of_style dest
                       (sqlite3_column_int (next_num history dest))) items
    /\ (forall h', In h' merged -> h_operation h' = x -> In h' history)
    /\ map h_ident merged = map h_ident history
    /\ map (s_keep x) items
       = map (s_keep x)
             (number_rows 1 (staged_rows (main_history db) imgid true ops)).
Proof.
  intros iop db imgid dest ops x Hne Hsrc Hone Hnd Hrange history.
  pose proof (paste_merge_unfold iop db imgid dest ops Hne Hsrc) as Hh.
  cbv zeta in Hh.
  set (db2 := staged_db db imgid dest ops) in *.
  set (db3 := _dt_history_cleanup_multi_instance flag iop db2) in *.
  set (db4 := dt_history_rebuild_multi_priority_merge flag iop db3 dest) in *.
  assert (Hs2 : memory_style_items db2
                = number_rows 1 (staged_rows (main_history db) imgid true ops)).
  { subst db2. unfold staged_db. cbn [memory_style_items set_style_items].
    now rewrite staged_rows_trim. }
  assert (Hh2 : main_history db2 = history) by reflexivity.
  destruct (cleanup_tables flag iop db2) as (Ch & _). fold db3 in Ch.
  destruct (merge_ident flag iop db3 dest) as (Mh & _). fold db4 in Mh.
  exists (main_history db4), (memory_style_items db4).
  split; [exact Hh|]. split; [|split].
  - intros h' Hin Hx. rewrite <- Hh2, <- Ch.
    now apply (merge_other iop db3 dest x h' Hone).
  - now rewrite Mh, Ch.
  - subst db4. rewrite merge_keep. subst db3. rewrite cleanup_keep, Hs2;
      try assumption.
    + reflexivity.
    + rewrite Hs2, number_rows_nums. apply staged_rows_NoDup. exact Hnd.
    + intros s Hs. rewrite Hs2 in Hs. apply number_rows_In in Hs.
      destruct Hs as (h & Hh' & _ & _ & ->).
      apply staged_rows_In in Hh'. apply history_of_In in Hh'.
      destruct Hh' as [Hh' _]. specialize (Hrange h Hh'). lia.
Qed.

(** ** Single-instance modules never duplicate *)

Lemma nodup_all_zero : forall l,
  l <> [] -> (forall z, In z l -> z = 0) -> nodup Z.eq_dec l = [0].
Proof.
  induction l as [|z l IH]; intros Hne Hall; [congruence|].
  assert (Hz : z = 0) by (apply Hall; now left). subst z. simpl.
  destruct (in_dec Z.eq_dec 0 l) as [Hin|Hnot].
  - apply IH.
    + intros ->. contradiction.
    + intros z Hz. apply Hall. now right.
  - destruct l as [|y l]; [reflexivity|].
    exfalso. apply Hnot. left. apply Hall. right. now left.
Qed.

Lemma keep_In : forall x items items0 s,
  map (s_keep x) items = map (s_keep x) items0 ->
  In s items -> exists s0, In s0 items0 /\ s_keep x s = s_keep x s0.
Proof.
  intros x items items0 s E Hin.
  assert (H : In (s_keep x s) (map (s_keep x) items0))
    by (rewrite <- E; now apply in_map).
  apply in_map_iff in H. destruct H as (s0 & E0 & Hin0). eauto.
Qed.

Lemma s_payload_operation : forall s s0,
  s_payload s = s_payload s0 -> s_operation s = s_operation s0.
Proof. intros s s0 E. exact (f_equal payload_operation E). Qed.

Lemma h_payload_operation : forall s h,
  s_payload s = h_payload h -> s_operation s = h_operation h.
Proof. intros s h E. exact (f_equal payload_operation E). Qed.

Lemma keep_payload : forall x s s0,
  s_keep x s = s_keep x s0 ->
  s_rowid s = s_rowid s0 /\ s_payload s = s_payload s0
  /\ (s_operation s0 = x -> s_multi_priority s = s_multi_priority s0).
Proof.
  intros x s s0 E.
  pose proof (f_equal (fun t => fst (fst t)) E) as E1.
  pose proof (f_equal (fun t => snd (fst t)) E) as E2.
  pose proof (f_equal snd E) as E3. simpl in E1, E2, E3.
  split; [assumption|]. split; [assumption|].
  intros Hx. rewrite (s_payload_operation _ _ E2), Hx, String.eqb_refl in E3.
  now injection E3.
Qed.

Lemma number_rows_rowid_pos : forall rows r s,
  In s (number_rows r rows) -> r <= s_rowid s.
Proof.
  induction rows as [|h rows IH]; intros r s; simpl; [contradiction|].
  intros [<-|Hin]; [simpl; lia|]. apply IH in Hin. lia.
Qed.

(** C7: for a module [x] that the catalog flags single-instance, a paste
    in merge mode that stages a row of [x] from image [a] onto an image [b]
    whose one live instance of [x] is numbered 0 leaves [b] with exactly
    one live instance of [x], numbered 0; and every row of [x] on [b] with
    the largest seq is an incoming one, with the payload of a staged row.
    The seq values are small non-negative integers, unique on the source,
    and the source rows of [x] carry instance 0, as the data model has it. *)
Theorem single_instance_never_duplicates :
  forall iop db a b ops x,
    a <> b ->
    a <> -1 ->
    one_instance flag iop x = true ->
    (forall h, In h (main_history db) -> 0 <= h_num h < 2147483647) ->
    NoDup (history_nums db a) ->
    live_instances (main_history db) b x = [0] ->
    (forall h, In h (history_of (main_history db) a) ->
               h_operation h = x -> h_multi_priority h = 0) ->
    (exists h, In h (staged_rows (main_history db) a true ops) /\ h_operation h = x) ->
    let history' :=
      main_history (snd (dt_history_copy_and_paste_on_image flag iop db a b true ops)) in
    live_instances history' b x = [0]
    /\ forall d,
         In d (history_of history' b) ->
         h_operation d = x ->
         (forall d', In d' (history_of history' b) -> h_operation d' = x ->
                     h_num d' <= h_num d) ->
         exists h, In h (staged_rows (main_history db) a true ops)
                   /\ h_payload d = h_payload h.
Proof.
  intros iop db a b ops x Hne Hsrc Hone Hrange Hnd Hlive Hzero [h0 [Hh0 Hx0]] history'.
  destruct (paste_merge_parts iop db a b ops x Hne Hsrc Hone Hnd Hrange)
    as (merged & items & Hh & Hfix & Hid & Hkeep).
  fold history' in Hh.
  set (trimmed := trim_history (main_history db) (main_images db) b) in *.
  set (offs := sqlite3_column_int (next_num trimmed b)) in *.
  set (staged := staged_rows (main_history db) a true ops) in *.
  (* the rows of x that were on b before carry instance 0 *)
  assert (Hold : forall d, In d (main_history db) -> h_imgid d = b ->
                           h_operation d = x -> h_multi_priority d = 0).
  { intros d Hd Hb Hx.
    assert (Hin : In (h_multi_priority d) (live_instances (main_history db) b x)).
    { unfold live_instances. apply nodup_In. apply in_map. apply filter_In.
      split; [assumption|]. apply andb_true_iff.
      split; [now apply Z.eqb_eq|now apply String.eqb_eq]. }
    rewrite Hlive in Hin. destruct Hin as [<-|[]]. reflexivity. }
  (* every pasted row comes from a staged one *)
  assert (Hpasted : forall s, In s items ->
                     exists h, In h staged /\ s_payload s = h_payload h
                               /\ (s_operation s = x -> s_multi_priority s = 0)
                               /\ 1 <= s_rowid s).
  { intros s Hs. destruct (keep_In x _ _ s Hkeep Hs) as (s0 & Hs0 & E).
    apply keep_payload in E. destruct E as (Er & Ep & Em).
    pose proof (number_rows_rowid_pos _ _ _ Hs0) as Hr.
    apply number_rows_In in Hs0. destruct Hs0 as (h & Hh' & Hp & Hm & _).
    exists h. split; [assumption|]. split; [congruence|]. split; [|lia].
    intros Hx.
    assert (Hx' : s_operation s0 = x)
      by (rewrite <- (s_payload_operation _ _ Ep); exact Hx).
    rewrite (Em Hx'), Hm. apply Hzero.
    - now apply staged_rows_In in Hh'.
    - rewrite <- (h_payload_operation _ _ Hp). exact Hx'. }
  (* an incoming row of x is pasted *)
  assert (Hnew : exists s, In s items /\ s_operation s = x).
  { destruct (number_rows_has staged 1 h0 Hh0) as (s0 & Hs0 & Hp & _).
    assert (H : In (s_keep x s0) (map (s_keep x) items))
      by (rewrite Hkeep; now apply in_map).
    apply in_map_iff in H. destruct H as (s & E & Hs).
    exists s. split; [assumption|].
    apply keep_payload in E. destruct E as (_ & Ep & _).
    rewrite (s_payload_operation _ _ Ep), (h_payload_operation _ _ Hp).
    exact Hx0. }
  (* the rows of b in the new history *)
  assert (Hrows : forall d, In d (history_of history' b) <->
                    (In d merged /\ h_imgid d = b)
                    \/ exists s, In s items /\ d = history_of_style b offs s).
  { intros d. rewrite Hh, history_of_app, in_app_iff, history_of_pasted, Z.eqb_refl.
    rewrite history_of_In, in_map_iff. split.
    - intros [H|(s & E & Hs)]; [now left|right; eauto].
    - intros [H|(s & Hs & E)]; [now left|right; eauto]. }
  assert (Hzero' : forall d, In d (history_of history' b) -> h_operation d = x ->
                            h_multi_priority d = 0).
  { intros d Hd Hx. apply Hrows in Hd. destruct Hd as [[Hd Hb]|(s & Hs & ->)].
    - apply Hold; try assumption.
      apply (trim_history_In _ (main_images db) b). now apply Hfix.
    - destruct (Hpasted s Hs) as (_ & _ & _ & Hm & _). now apply Hm. }
  split.
  - unfold live_instances. apply nodup_all_zero.
    + destruct Hnew as (s & Hs & Hx).
      assert (Hin : In (history_of_style b offs s) (history_of history' b)).
      { apply Hrows. right. eauto. }
      apply history_of_In in Hin. destruct Hin as [Hin Hb].
      intros E.
      assert (Hf : In (h_multi_priority (history_of_style b offs s))
                      (map h_multi_priority
                           (filter (fun h => (h_imgid h =? b)
                                             && String.eqb (h_operation h) x)
                                   history'))).
      { apply in_map. apply filter_In. split; [assumption|].
        simpl. now rewrite Z.eqb_refl, Hx, String.eqb_refl. }
      rewrite E in Hf. contradiction.
    + intros z Hz. apply in_map_iff in Hz. destruct Hz as (d & <- & Hd).
      apply filter_In in Hd. destruct Hd as [Hd Hc].
      apply andb_true_iff in Hc. destruct Hc as [Hb Hx].
      apply Z.eqb_eq in Hb. apply String.eqb_eq in Hx.
      apply Hzero'; [|assumption]. now apply history_of_In.
  - intros d Hd Hx Hmax. apply Hrows in Hd.
    destruct Hd as [[Hd Hb]|(s & Hs & ->)].
    + exfalso.
      (* an old row lies below offs, a pasted one does not *)
      assert (Hlt : h_num d < offs).
      { assert (Hi : In (h_ident d) (map h_ident trimmed))
          by (rewrite <- Hid; now apply in_map).
        apply in_map_iff in Hi. destruct Hi as (t & Ht & Hin).
        unfold h_ident in Ht. injection Ht as Hti Htn. rewrite Hb in Hti.
        assert (Hn : In (h_num d) (map h_num (history_of trimmed b))).
        { rewrite <- Htn. apply in_map. now apply history_of_In. }
        subst offs. unfold next_num.
        destruct (sql_max (map h_num (history_of trimmed b))) as [m|] eqn:Em.
        - apply sql_max_spec in Em. destruct Em as [Hm Hub].
          specialize (Hub _ Hn). simpl IFNULL.
          apply in_map_iff in Hm. destruct Hm as (t' & <- & Ht').
          apply history_of_In in Ht'. destruct Ht' as [Ht' _].
          apply trim_history_In in Ht'. specialize (Hrange t' Ht').
          rewrite Z.min_l by (unfold LARGEST_INT64; lia).
          rewrite sqlite3_column_int_small by lia. lia.
        - apply sql_max_none in Em. rewrite Em in Hn. contradiction. }
      destruct Hnew as (s & Hs & Hxs).
      destruct (Hpasted s Hs) as (_ & _ & _ & _ & Hr).
      assert (Hp : In (history_of_style b offs s) (history_of history' b)).
      { apply Hrows. right. eauto. }
      specialize (Hmax _ Hp Hxs). simpl in Hmax. lia.
    + destruct (Hpasted s Hs) as (h & Hh' & Hp & _).
      exists h. split; [assumption|]. rewrite <- Hp. reflexivity.
Qed.

End SingleInstance.

Section Selection.

Variable flag : Z.

(** ** The paste on the selection *)

Lemma other_selected_In : forall selected imgid row,
  In row (other_selected selected imgid) <-> In row selected /\ row <> imgid.
Proof.
  intros. unfold other_selected. rewrite filter_In, negb_true_iff, Z.eqb_neq. tauto.
Qed.



End Selection.

Section Idempotence.

Variable flag : Z.

(** ** The cleanup, run twice *)

Lemma renumber_ranks : forall l op_cur c nb,
  (forall s, In s l -> (String.length (s_operation s) <= 1023)%nat) ->
  cleanup_renumber (map history_item_of l) op_cur c nb
  = (map ranked_item (combine l (ranks l op_cur c)),
     nb + Z.of_nat (List.length (filter rank_changed (combine l (ranks l op_cur c))))).
Proof.
  induction l as [|x l IH]; intros op_cur c nb Hlen.
  - simpl. f_equal. lia.
  - assert (Ho : snprintf_s 1024 (s_operation x) = s_operation x).
    { unfold snprintf_s. apply substring_short. apply Hlen. now left. }
    simpl map. rewrite cleanup_renumber_cons.
    cbn [history_item_of hi_op hi_mi hi_num]. rewrite Ho. cbv zeta.
    assert (Hop : (if String.eqb op_cur (s_operation x) then op_cur
                   else g_strlcpy (s_operation x) 1024) = s_operation x).
    { destruct (String.eqb_spec op_cur (s_operation x)) as [E|E]; [exact E|exact Ho]. }
    rewrite Hop, IH by (intros s Hs; apply Hlen; now right).
    cbn [fst snd ranks combine map filter].
    unfold rank_changed at 2. cbn [fst snd].
    set (c' := if String.eqb op_cur (s_operation x) then c else 0).
    f_equal.
    + f_equal. unfold ranked_item. cbn [fst snd]. now rewrite Ho.
    + destruct (sqlite3_column_int (s_multi_priority x) =? c'); simpl negb;
        cbn [List.length]; lia.
Qed.

Lemma ranks_length : forall l op_cur c, List.length (ranks l op_cur c) = List.length l.
Proof.
  induction l as [|x l IH]; intros op_cur c; simpl; [reflexivity|].
  now rewrite IH.
Qed.

Lemma ranks_run : forall l op_cur c,
  StronglySorted (fun a b => op_le (s_operation a) (s_operation b)) l ->
  (forall s, In s l -> op_le op_cur (s_operation s)) ->
  forall o,
    map snd (filter (fun p => String.eqb (s_operation (fst p)) o)
                    (combine l (ranks l op_cur c)))
    = map (fun j => (if String.eqb op_cur o then c else 0) + Z.of_nat j)
          (seq 0 (List.length (filter (fun s => String.eqb (s_operation s) o) l))).
Proof.
  induction l as [|x l IH]; intros op_cur c Hs Hle o; [reflexivity|].
  inversion Hs as [|? ? Hs' Hx]; subst. rewrite Forall_forall in Hx.
  pose proof (IH (s_operation x)
                 ((if String.eqb op_cur (s_operation x) then c else 0) + 1)
                 Hs' Hx o) as IHo.
  cbn [ranks combine filter fst].
  destruct (String.eqb_spec (s_operation x) o) as [E|E].
  - cbn [map snd List.length seq]. rewrite IHo, E. f_equal; [lia|].
    rewrite <- seq_shift, map_map. apply map_ext. intros j. lia.
  - rewrite IHo.
    destruct (filter (fun s => String.eqb (s_operation s) o) l) as [|y F] eqn:EF;
      [reflexivity|].
    assert (Hy : In y (filter (fun s => String.eqb (s_operation s) o) l))
      by (rewrite EF; now left).
    apply filter_In in Hy. destruct Hy as [Hy Hyo]. apply String.eqb_eq in Hyo.
    assert (E' : String.eqb op_cur o = false).
    { apply String.eqb_neq. intros ->. apply E. apply op_le_antisym.
      - rewrite <- Hyo. now apply Hx.
      - apply Hle. now left. }
    now rewrite E'.
Qed.

Lemma combine_ranks_fst : forall l op_cur c,
  map fst (combine l (ranks l op_cur c)) = l.
Proof.
  induction l as [|x l IH]; intros op_cur c; simpl; [reflexivity|].
  now rewrite IH.
Qed.

Lemma Permutation_filter : forall {A : Type} (f : A -> bool) l l',
  Permutation l l' -> Permutation (filter f l) (filter f l').
Proof.
  intros A f l l' P. induction P as [|x l l' P IH|x y l|l l' l'' P1 IH1 P2 IH2]; simpl.
  - constructor.
  - destruct (f x); [now constructor|assumption].
  - destruct (f x), (f y); try apply Permutation_refl. apply perm_swap.
  - eapply Permutation_trans; eassumption.
Qed.

Lemma cleanup_rows_In : forall iop items s,
  In s (filter (fun s => negb (one_instance flag iop (s_operation s)))
               (style_items_ordered items)) ->
  In s items /\ one_instance flag iop (s_operation s) = false.
Proof.
  intros iop items s H. apply filter_In in H. destruct H as [H1 H2].
  apply negb_true_iff in H2. split; [|assumption].
  exact (proj1 (style_items_ordered_In _ _) H1).
Qed.

Lemma cleanup_rows_NoDup : forall iop items,
  NoDup (map s_num items) ->
  NoDup (map s_num (filter (fun s => negb (one_instance flag iop (s_operation s)))
                           (style_items_ordered items))).
Proof.
  intros iop items Hnd. apply NoDup_map_filter.
  apply (Permutation_NoDup
           (Permutation_map s_num (Permutation_sym (order_by_perm _ items)))).
  exact Hnd.
Qed.

Lemma cleanup_ranked_fst : forall iop items,
  map fst (cleanup_ranked flag iop items)
  = filter (fun s => negb (one_instance flag iop (s_operation s)))
           (style_items_ordered items).
Proof. intros. apply combine_ranks_fst. Qed.

Lemma cleanup_ranked_In : forall iop items p,
  In p (cleanup_ranked flag iop items) ->
  In (fst p) items /\ one_instance flag iop (s_operation (fst p)) = false.
Proof.
  intros iop items p H. apply cleanup_rows_In.
  rewrite <- cleanup_ranked_fst. now apply in_map.
Qed.

Lemma cleanup_ranked_NoDup : forall iop items,
  NoDup (map s_num items) ->
  NoDup (map (fun p => s_num (fst p)) (cleanup_ranked flag iop items)).
Proof.
  intros iop items Hnd.
  rewrite <- (map_map fst s_num), cleanup_ranked_fst.
  now apply cleanup_rows_NoDup.
Qed.

Lemma rank_of_In : forall ranked p d,
  NoDup (map (fun p => s_num (fst p)) ranked) ->
  In p ranked -> rank_of ranked (s_num (fst p)) d = snd p.
Proof.
  intros ranked p d Hnd Hin. unfold rank_of.
  destruct (find _ ranked) as [q|] eqn:E.
  - apply find_some in E. destruct E as [Hq E]. apply Z.eqb_eq in E.
    now rewrite (NoDup_map_eq (fun p => s_num (fst p)) ranked q p Hnd Hq Hin E).
  - pose proof (find_none _ _ E p Hin) as H. simpl in H.
    rewrite Z.eqb_refl in H. discriminate.
Qed.

Lemma rank_of_absent : forall ranked n d,
  (forall p, In p ranked -> s_num (fst p) <> n) -> rank_of ranked n d = d.
Proof.
  intros ranked n d H. unfold rank_of.
  destruct (find _ ranked) as [q|] eqn:E; [|reflexivity].
  apply find_some in E. destruct E as [Hq E]. apply Z.eqb_eq in E.
  exfalso. exact (H q Hq E).
Qed.

Lemma cleanup_whens_ranked : forall ranked,
  cleanup_whens (map ranked_item ranked)
  = map (fun p => (sqlite3_column_int (s_num (fst p)), snd p))
        (filter rank_changed ranked).
Proof.
  unfold cleanup_whens. induction ranked as [|p ranked IH]; simpl; [reflexivity|].
  unfold rank_changed at 1.
  destruct (negb (sqlite3_column_int (s_multi_priority (fst p)) =? snd p));
    simpl; now rewrite IH.
Qed.

Lemma case_num_rank : forall ranked n d,
  NoDup (map (fun p => s_num (fst p)) ranked) ->
  (forall p, In p ranked -> sqlite3_column_int (s_num (fst p)) = s_num (fst p)) ->
  (forall p, In p ranked -> s_num (fst p) = n -> rank_changed p = false ->
             snd p = d) ->
  case_num (map (fun p => (sqlite3_column_int (s_num (fst p)), snd p))
                (filter rank_changed ranked)) n d
  = rank_of ranked n d.
Proof.
  induction ranked as [|p ranked IH]; intros n d Hnd Hint Hsame; [reflexivity|].
  simpl in Hnd. inversion Hnd as [|? ? Hnotin Hnd']; subst.
  assert (IH' : case_num (map (fun p => (sqlite3_column_int (s_num (fst p)), snd p))
                              (filter rank_changed ranked)) n d
                = rank_of ranked n d).
  { apply IH; [assumption| |].
    - intros q Hq. apply Hint. now right.
    - intros q Hq. apply Hsame. now right. }
  unfold rank_of in *. cbn [find filter].
  destruct (Z.eqb_spec (s_num (fst p)) n) as [E|E].
  - destruct (rank_changed p) eqn:Hc.
    + cbn [map case_num]. rewrite (Hint p (or_introl eq_refl)), E, Z.eqb_refl.
      reflexivity.
    + rewrite IH'.
      destruct (find (fun p0 => s_num (fst p0) =? n) ranked) as [q|] eqn:Eq.
      * exfalso. apply find_some in Eq. destruct Eq as [Hq Eq].
        apply Z.eqb_eq in Eq. apply Hnotin. rewrite E, <- Eq.
        now apply (in_map (fun p => s_num (fst p))).
      * symmetry. now apply (Hsame p (or_introl eq_refl)).
  - destruct (rank_changed p) eqn:Hc; [|exact IH'].
    cbn [map case_num]. rewrite (Hint p (or_introl eq_refl)).
    assert (E' : (n =? s_num (fst p)) = false) by (apply Z.eqb_neq; congruence).
    rewrite E'. exact IH'.
Qed.

Lemma s_set_multi_priority_same : forall s,
  s_set_multi_priority s (s_multi_priority s) = s.
Proof. now intros []. Qed.

(** What the cleanup leaves in memory.style_items: every row with the
    number it was handed, a row that was handed none as it was. *)
Lemma cleanup_result : forall iop db,
  well_staged (memory_style_items db) ->
  (forall s, In s (memory_style_items db) ->
             (String.length (s_operation s) <= 1023)%nat) ->
  memory_style_items (_dt_history_cleanup_multi_instance flag iop db)
  = map (fun s =>
           s_set_multi_priority s
             (rank_of (cleanup_ranked flag iop (memory_style_items db))
                      (s_num s) (s_multi_priority s)))
        (memory_style_items db).
Proof.
  intros iop db [Hnd Hrange] Hlen.
  set (items := memory_style_items db) in *.
  set (ranked := cleanup_ranked flag iop items).
  assert (HndR : NoDup (map (fun p => s_num (fst p)) ranked))
    by (now apply cleanup_ranked_NoDup).
  assert (HintR : forall p, In p ranked ->
                            sqlite3_column_int (s_num (fst p)) = s_num (fst p)).
  { intros p Hp. apply cleanup_ranked_In in Hp. destruct Hp as [Hp _].
    apply sqlite3_column_int_small. now apply Hrange. }
  assert (Hsame : forall s p, In s items -> In p ranked ->
                              s_num (fst p) = s_num s -> rank_changed p = false ->
                              snd p = s_multi_priority s).
  { intros s p Hs Hp En Hc.
    pose proof (cleanup_ranked_In _ _ _ Hp) as [Hp' _].
    assert (Ep : fst p = s) by (now apply (NoDup_map_eq s_num items)).
    unfold rank_changed in Hc. apply negb_false_iff in Hc. apply Z.eqb_eq in Hc.
    rewrite Ep in Hc. rewrite <- Hc.
    apply sqlite3_column_int_small. now apply Hrange. }
  unfold _dt_history_cleanup_multi_instance. fold items.
  rewrite cleanup_load_map, renumber_ranks.
  2:{ intros s Hs. apply cleanup_rows_In in Hs. now apply Hlen. }
  change (combine _ _) with ranked.
  destruct (Z.eqb_spec (0 + Z.of_nat (List.length (filter rank_changed ranked))) 0)
    as [E|E].
  - assert (Hnone : filter rank_changed ranked = []).
    { destruct (filter rank_changed ranked); [reflexivity|]. simpl in E. lia. }
    etransitivity; [symmetry; apply map_id|]. fold items.
    apply map_ext_in. intros s Hs.
    rewrite <- (s_set_multi_priority_same s) at 1. f_equal.
    rewrite <- (case_num_rank ranked (s_num s) (s_multi_priority s) HndR HintR).
    + now rewrite Hnone.
    + intros p Hp. now apply Hsame.
  - cbn [memory_style_items set_style_items]. unfold cleanup_update.
    apply map_ext_in. intros s Hs. f_equal.
    rewrite cleanup_whens_ranked.
    apply case_num_rank; [assumption|assumption|].
    intros p Hp. now apply Hsame.
Qed.

Lemma StronglySorted_weaken_In : forall {A : Type} (R R' : A -> A -> Prop) l,
  (forall a b, In a l -> In b l -> R a b -> R' a b) ->
  StronglySorted R l -> StronglySorted R' l.
Proof.
  intros A R R' l HR H. induction H as [|x l Hs IH Hx].
  - constructor.
  - constructor.
    + apply IH. intros a b Ha Hb. apply HR; now right.
    + rewrite Forall_forall in *. intros y Hy.
      apply HR; [now left|now right|now apply Hx].
Qed.

Lemma sorted_perm_eq : forall l1 l2 : list Z,
  StronglySorted Z.le l1 -> StronglySorted Z.le l2 -> Permutation l1 l2 ->
  l1 = l2.
Proof.
  induction l1 as [|x l1 IH]; intros l2 H1 H2 P.
  - apply Permutation_nil in P. now subst.
  - destruct l2 as [|y l2].
    + apply Permutation_sym, Permutation_nil in P. discriminate.
    + inversion H1 as [|? ? Hs1 Hx]; subst. inversion H2 as [|? ? Hs2 Hy]; subst.
      rewrite Forall_forall in Hx, Hy.
      assert (Exy : x = y).
      { assert (Hxin : In x (y :: l2))
          by (apply (Permutation_in _ P); now left).
        assert (Hyin : In y (x :: l1))
          by (apply (Permutation_in _ (Permutation_sym P)); now left).
        destruct Hxin as [E|Hxin]; [now symmetry|].
        destruct Hyin as [E|Hyin]; [assumption|].
        pose proof (Hx y Hyin). pose proof (Hy x Hxin). lia. }
      subst y. f_equal. apply IH; try assumption.
      now apply Permutation_cons_inv in P.
Qed.

Lemma seq_sorted : forall k a,
  StronglySorted Z.le (map Z.of_nat (seq a k)).
Proof.
  induction k as [|k IH]; intros a; simpl; constructor; [apply IH|].
  rewrite Forall_forall. intros y Hy. apply in_map_iff in Hy.
  destruct Hy as (j & <- & Hj). apply in_seq in Hj. lia.
Qed.

Lemma key_leb_same_op : forall a b,
  fst a = fst b -> key_leb a b = true -> snd a <= snd b.
Proof.
  intros [a x] [b y]. simpl. intros ->. unfold key_leb. simpl.
  rewrite op_compare_refl. apply Z.leb_le.
Qed.

Lemma ordered_instances_sorted : forall items o,
  StronglySorted Z.le (ordered_instances items o).
Proof.
  intros items o. unfold ordered_instances.
  apply StronglySorted_map.
  eapply StronglySorted_weaken_In;
    [|apply StronglySorted_filter; unfold style_items_ordered;
      apply order_by_sorted; intros; [apply key_leb_total|eapply key_leb_trans; eauto]].
  intros a b Ha Hb H. cbv beta in H.
  apply filter_In in Ha, Hb. destruct Ha as [_ Ea], Hb as [_ Eb].
  apply String.eqb_eq in Ea, Eb.
  apply (key_leb_same_op (s_key a) (s_key b)); [simpl; congruence|assumption].
Qed.

Lemma ordered_instances_perm : forall items o,
  Permutation (ordered_instances items o)
              (map s_multi_priority
                   (filter (fun s => String.eqb (s_operation s) o) items)).
Proof.
  intros items o. unfold ordered_instances, style_items_ordered.
  apply Permutation_map, Permutation_filter, order_by_perm.
Qed.

Lemma filter_operation_set : forall (f : style_item -> Z) o items,
  filter (fun s => String.eqb (s_operation s) o)
         (map (fun s => s_set_multi_priority s (f s)) items)
  = map (fun s => s_set_multi_priority s (f s))
        (filter (fun s => String.eqb (s_operation s) o) items).
Proof.
  intros f o items. induction items as [|x items IH]; simpl; [reflexivity|].
  replace (s_operation (s_set_multi_priority x (f x))) with (s_operation x)
    by (now destruct x).
  destruct (String.eqb (s_operation x) o); simpl; now rewrite IH.
Qed.

(** The cleanup normalizes: afterwards the instances of every module that
    is not single-instance read 0, 1, .., k-1. *)
Lemma cleanup_normalizes : forall iop db,
  well_staged (memory_style_items db) ->
  (forall s, In s (memory_style_items db) ->
             (String.length (s_operation s) <= 1023)%nat) ->
  normalized flag iop
    (memory_style_items (_dt_history_cleanup_multi_instance flag iop db)).
Proof.
  intros iop db Hws Hlen o Ho.
  rewrite cleanup_result by assumption.
  destruct Hws as [Hnd Hrange].
  set (items := memory_style_items db) in *.
  set (ranked := cleanup_ranked flag iop items).
  set (rows := filter (fun s => negb (one_instance flag iop (s_operation s)))
                      (style_items_ordered items)).
  set (k := List.length (filter (fun s => String.eqb (s_operation s) o) rows)).
  assert (HndR : NoDup (map (fun p => s_num (fst p)) ranked))
    by (now apply cleanup_ranked_NoDup).
  assert (Hrun : map snd (filter (fun p => String.eqb (s_operation (fst p)) o) ranked)
                 = map Z.of_nat (seq 0 k)).
  { unfold ranked, cleanup_ranked. fold rows.
    rewrite (ranks_run rows "" 0).
    - apply map_ext. intros j. now destruct (String.eqb "" o).
    - apply StronglySorted_filter, style_items_ordered_sorted.
    - intros s _. apply op_le_empty. }
  set (f := fun s => rank_of ranked (s_num s) (s_multi_priority s)).
  set (items' := map (fun s => s_set_multi_priority s (f s)) items).
  assert (Hperm : Permutation (ordered_instances items' o) (map Z.of_nat (seq 0 k))).
  { eapply Permutation_trans; [apply ordered_instances_perm|].
    unfold items'. rewrite filter_operation_set, map_map.
    erewrite map_ext; [|intros s; now destruct s].
    eapply Permutation_trans.
    { apply Permutation_map, Permutation_filter, Permutation_sym.
      apply (order_by_perm (fun a b => key_leb (s_key a) (s_key b))). }
    fold (style_items_ordered items).
    replace (filter (fun s => String.eqb (s_operation s) o) (style_items_ordered items))
      with (filter (fun s => String.eqb (s_operation s) o) rows)
      by (unfold rows; now rewrite filter_filter_operation, Ho).
    rewrite <- Hrun.
    replace rows with (map fst ranked) by apply cleanup_ranked_fst.
    rewrite filter_map_swap, map_map.
    erewrite map_ext_in; [apply Permutation_refl|].
    intros p Hp. apply filter_In in Hp. destruct Hp as [Hp _].
    unfold f. now apply rank_of_In. }
  change (ordered_instances items' o
          = map Z.of_nat (seq 0 (List.length (ordered_instances items' o)))).
  rewrite (sorted_perm_eq _ _ (ordered_instances_sorted items' o) (seq_sorted k 0) Hperm).
  now rewrite length_map, length_seq.
Qed.

Lemma cleanup_keeps_operations : forall iop db s,
  In s (memory_style_items (_dt_history_cleanup_multi_instance flag iop db)) ->
  exists s0, In s0 (memory_style_items db) /\ s_operation s = s_operation s0.
Proof.
  intros iop db s. unfold _dt_history_cleanup_multi_instance.
  destruct (cleanup_renumber _ _ _ _) as [items nb].
  destruct (nb =? 0).
  - intros H. now exists s.
  - cbn [memory_style_items set_style_items]. unfold cleanup_update.
    intros H. apply in_map_iff in H. destruct H as (s0 & <- & H0).
    exists s0. split; [assumption|now destruct s0].
Qed.

Lemma cleanup_keeps_length : forall iop db,
  List.length (memory_style_items (_dt_history_cleanup_multi_instance flag iop db))
  = List.length (memory_style_items db).
Proof.
  intros iop db. unfold _dt_history_cleanup_multi_instance.
  destruct (cleanup_renumber _ _ _ _) as [items nb].
  destruct (nb =? 0); [reflexivity|].
  cbn [memory_style_items set_style_items]. unfold cleanup_update.
  apply length_map.
Qed.

Lemma cleanup_no_change : forall iop db,
  cleanup_nb_change flag iop (memory_style_items db) = 0 ->
  _dt_history_cleanup_multi_instance flag iop db = db.
Proof.
  intros iop db H. unfold _dt_history_cleanup_multi_instance.
  unfold cleanup_nb_change in H.
  destruct (cleanup_renumber _ _ _ _) as [items nb]. simpl in H. subst nb.
  reflexivity.
Qed.

(** Running the cleanup a second time changes nothing, whatever the first
    run found. *)
Lemma cleanup_idempotent : forall iop db,
  well_staged (memory_style_items db) ->
  (forall s, In s (memory_style_items db) ->
             (String.length (s_operation s) <= 1023)%nat) ->
  Z.of_nat (List.length (memory_style_items db)) <= 2147483647 ->
  _dt_history_cleanup_multi_instance flag iop
    (_dt_history_cleanup_multi_instance flag iop db)
  = _dt_history_cleanup_multi_instance flag iop db.
Proof.
  intros iop db Hws Hlen Hsize.
  apply cleanup_no_change. apply cleanup_normalized_no_change.
  - now apply cleanup_normalizes.
  - intros s Hs. apply cleanup_keeps_operations in Hs.
    destruct Hs as (s0 & Hs0 & ->). now apply Hlen.
  - now rewrite cleanup_keeps_length.
Qed.

End Idempotence.

Section Deleting.

(** ** Deleting the history of an image *)

Lemma id_in_In : forall ids id, id_in ids id = true <-> In id ids.
Proof.
  intros ids id. unfold id_in. rewrite existsb_exists. split.
  - intros (x & Hx & E). apply Z.eqb_eq in E. now subst.
  - intros H. exists id. split; [assumption|apply Z.eqb_refl].
Qed.

Lemma history_end_of_reset : forall images imgid j,
  history_end_of (reset_history_end images imgid) j
  = if j =? imgid
    then match find (fun i => i_id i =? imgid) images with
         | Some _ => Some 0
         | None => None
         end
    else history_end_of images j.
Proof.
  intros images imgid j. unfold history_end_of, reset_history_end.
  induction images as [|i images IH]; simpl.
  - now destruct (j =? imgid).
  - destruct (Z.eqb_spec (i_id i) imgid) as [E|E]; simpl.
    + destruct (Z.eqb_spec j imgid) as [Ej|Ej].
      * subst j. rewrite E, Z.eqb_refl. reflexivity.
      * rewrite E. destruct (Z.eqb_spec imgid j); [congruence|]. exact IH.
    + destruct (Z.eqb_spec (i_id i) j) as [Ej|Ej].
      * subst j. destruct (Z.eqb_spec (i_id i) imgid); [contradiction|reflexivity].
      * exact IH.
Qed.

Lemma find_image_In : forall images imgid,
  In imgid (map i_id images) ->
  exists i, find (fun i => i_id i =? imgid) images = Some i.
Proof.
  induction images as [|i images IH]; simpl; intros imgid H; [contradiction|].
  destruct (Z.eqb_spec (i_id i) imgid) as [E|E]; [now exists i|].
  destruct H as [H|H]; [contradiction|]. now apply IH.
Qed.

Lemma reset_history_end_ids : forall images imgid,
  map i_id (reset_history_end images imgid) = map i_id images.
Proof.
  intros images imgid. unfold reset_history_end. rewrite map_map.
  apply map_ext. intros i. now destruct (i_id i =? imgid).
Qed.

(** X1: [dt_history_delete_on_image] empties the history and the masks of
    the image and sets its [history_end] to 0 when main.images has the
    image; the history, the masks and the [history_end] of every other
    image, the selection and the staged rows stay as they are. *)
Theorem delete_on_image_clears_one_image :
  forall db imgid,
    let db' := dt_history_delete_on_image db imgid in
    history_of (main_history db') imgid = []
    /\ mask_of (main_mask db') imgid = []
    /\ (In imgid (map i_id (main_images db)) ->
        history_end_of (main_images db') imgid = Some 0)
    /\ map i_id (main_images db') = map i_id (main_images db)
    /\ (forall j, j <> imgid ->
                  history_of (main_history db') j = history_of (main_history db) j
                  /\ mask_of (main_mask db') j = mask_of (main_mask db) j
                  /\ history_end_of (main_images db') j
                     = history_end_of (main_images db) j)
    /\ main_selected_images db' = main_selected_images db
    /\ memory_style_items db' = memory_style_items db.
Proof.
  intros db imgid db'. subst db'. unfold dt_history_delete_on_image.
  cbn [main_history main_mask main_images main_selected_images memory_style_items
       set_history set_images set_mask].
  repeat split.
  - rewrite history_of_delete. now rewrite Z.eqb_refl.
  - rewrite mask_of_delete. now rewrite Z.eqb_refl.
  - intros H. rewrite history_end_of_reset, Z.eqb_refl.
    destruct (find_image_In _ _ H) as [i ->]. reflexivity.
  - apply reset_history_end_ids.
  - rewrite history_of_delete. destruct (Z.eqb_spec j imgid); [contradiction|reflexivity].
  - rewrite mask_of_delete. destruct (Z.eqb_spec j imgid); [contradiction|reflexivity].
  - rewrite history_end_of_reset.
    destruct (Z.eqb_spec j imgid); [contradiction|reflexivity].
Qed.

Lemma delete_history_comm : forall history a b,
  delete_history (delete_history history a) b
  = delete_history (delete_history history b) a.
Proof.
  intros history a b. unfold delete_history.
  induction history as [|h history IH]; simpl; [reflexivity|].
  destruct (h_imgid h =? a) eqn:Ea, (h_imgid h =? b) eqn:Eb; simpl;
    rewrite ?Ea, ?Eb; simpl; now rewrite IH.
Qed.

Lemma delete_mask_comm : forall mask a b,
  delete_mask (delete_mask mask a) b = delete_mask (delete_mask mask b) a.
Proof.
  intros mask a b. unfold delete_mask.
  induction mask as [|m mask IH]; simpl; [reflexivity|].
  destruct (m_imgid m =? a) eqn:Ea, (m_imgid m =? b) eqn:Eb; simpl;
    rewrite ?Ea, ?Eb; simpl; now rewrite IH.
Qed.

Lemma reset_history_end_comm : forall images a b,
  reset_history_end (reset_history_end images a) b
  = reset_history_end (reset_history_end images b) a.
Proof.
  intros images a b. unfold reset_history_end. rewrite !map_map.
  apply map_ext. intros i.
  destruct (i_id i =? a) eqn:Ea, (i_id i =? b) eqn:Eb; simpl;
    rewrite ?Ea, ?Eb; reflexivity.
Qed.

Lemma delete_on_image_comm : forall db a b,
  dt_history_delete_on_image (dt_history_delete_on_image db a) b
  = dt_history_delete_on_image (dt_history_delete_on_image db b) a.
Proof.
  intros db a b. unfold dt_history_delete_on_image, set_history, set_images, set_mask.
  cbn [main_history main_mask main_images main_selected_images memory_style_items].
  now rewrite delete_history_comm, delete_mask_comm, reset_history_end_comm.
Qed.

Lemma delete_on_image_twice : forall db a,
  dt_history_delete_on_image (dt_history_delete_on_image db a) a
  = dt_history_delete_on_image db a.
Proof.
  intros db a. unfold dt_history_delete_on_image, set_history, set_images, set_mask.
  cbn [main_history main_mask main_images main_selected_images memory_style_items].
  f_equal.
  - unfold delete_history. induction (main_history db) as [|h l IH]; simpl; [reflexivity|].
    destruct (h_imgid h =? a) eqn:E; simpl; rewrite ?E; simpl; now rewrite IH.
  - unfold reset_history_end. rewrite map_map. apply map_ext. intros i.
    destruct (i_id i =? a) eqn:E; simpl; now rewrite E.
  - unfold delete_mask. induction (main_mask db) as [|m l IH]; simpl; [reflexivity|].
    destruct (m_imgid m =? a) eqn:E; simpl; rewrite ?E; simpl; now rewrite IH.
Qed.

(** X2: deleting the history of an image twice equals deleting it once, and
    two deletions give the same tables in either order. *)
Theorem delete_on_image_idempotent_and_commutes :
  forall db a b,
    dt_history_delete_on_image (dt_history_delete_on_image db a) a
    = dt_history_delete_on_image db a
    /\ dt_history_delete_on_image (dt_history_delete_on_image db a) b
       = dt_history_delete_on_image (dt_history_delete_on_image db b) a.
Proof.
  intros db a b. split; [apply delete_on_image_twice|apply delete_on_image_comm].
Qed.

(** The loop of [dt_history_delete_on_selection] over the ids [ids] in closed
    form. *)
Lemma delete_loop_tables : forall ids db,
  let db' := fold_left dt_history_delete_on_image ids db in
  main_history db' = filter (fun h => negb (id_in ids (h_imgid h))) (main_history db)
  /\ main_mask db' = filter (fun m => negb (id_in ids (m_imgid m))) (main_mask db)
  /\ main_images db'
     = map (fun i => if id_in ids (i_id i) then mk_image (i_id i) (Some 0) else i)
           (main_images db)
  /\ main_selected_images db' = main_selected_images db
  /\ memory_style_items db' = memory_style_items db.
Proof.
  induction ids as [|a ids IH]; intros db db'; subst db'.
  - cbn [fold_left id_in existsb negb]. repeat split.
    + induction (main_history db) as [|h l IHl]; simpl; [reflexivity|now rewrite <- IHl].
    + induction (main_mask db) as [|h l IHl]; simpl; [reflexivity|now rewrite <- IHl].
    + now rewrite map_id.
  - cbn [fold_left].
    destruct (IH (dt_history_delete_on_image db a)) as (H1 & H2 & H3 & H4 & H5).
    rewrite H1, H2, H3, H4, H5. clear.
    unfold dt_history_delete_on_image, set_history, set_images, set_mask.
    cbn [main_history main_mask main_images main_selected_images memory_style_items].
    repeat split.
    + unfold delete_history. induction (main_history db) as [|h l IHl]; [reflexivity|].
      cbn [filter id_in existsb]. rewrite (Z.eqb_sym (h_imgid h) a).
      destruct (a =? h_imgid h) eqn:E; cbn [negb orb filter]; [exact IHl|].
      fold (id_in ids (h_imgid h)).
      destruct (id_in ids (h_imgid h)); cbn [negb]; [exact IHl|now rewrite IHl].
    + unfold delete_mask. induction (main_mask db) as [|h l IHl]; [reflexivity|].
      cbn [filter id_in existsb]. rewrite (Z.eqb_sym (m_imgid h) a).
      destruct (a =? m_imgid h) eqn:E; cbn [negb orb filter]; [exact IHl|].
      fold (id_in ids (m_imgid h)).
      destruct (id_in ids (m_imgid h)); cbn [negb]; [exact IHl|now rewrite IHl].
    + unfold reset_history_end. rewrite map_map. apply map_ext. intros i.
      cbn [id_in existsb]. fold (id_in ids (i_id i)).
      destruct (i_id i =? a) eqn:E; cbn [i_id orb].
      * now destruct (id_in ids (i_id i)).
      * reflexivity.
Qed.

Lemma history_of_filter_ids : forall ids history j,
  history_of (filter (fun h => negb (id_in ids (h_imgid h))) history) j
  = if id_in ids j then [] else history_of history j.
Proof.
  intros ids history j. unfold history_of.
  induction history as [|h history IH]; simpl; [now destruct (id_in ids j)|].
  destruct (Z.eqb_spec (h_imgid h) j) as [E|E].
  - rewrite E. destruct (id_in ids j) eqn:Ej; simpl.
    + rewrite IH. reflexivity.
    + rewrite E, Z.eqb_refl, IH. reflexivity.
  - destruct (id_in ids (h_imgid h)); simpl; [exact IH|].
    destruct (Z.eqb_spec (h_imgid h) j); [contradiction|exact IH].
Qed.

Lemma mask_of_filter_ids : forall ids mask j,
  mask_of (filter (fun m => negb (id_in ids (m_imgid m))) mask) j
  = if id_in ids j then [] else mask_of mask j.
Proof.
  intros ids mask j. unfold mask_of.
  induction mask as [|h mask IH]; simpl; [now destruct (id_in ids j)|].
  destruct (Z.eqb_spec (m_imgid h) j) as [E|E].
  - rewrite E. destruct (id_in ids j) eqn:Ej; simpl.
    + rewrite IH. reflexivity.
    + rewrite E, Z.eqb_refl, IH. reflexivity.
  - destruct (id_in ids (m_imgid h)); simpl; [exact IH|].
    destruct (Z.eqb_spec (m_imgid h) j); [contradiction|exact IH].
Qed.

Lemma history_end_of_reset_ids : forall ids images j,
  history_end_of
    (map (fun i => if id_in ids (i_id i) then mk_image (i_id i) (Some 0) else i) images) j
  = if id_in ids j
    then match find (fun i => i_id i =? j) images with
         | Some _ => Some 0
         | None => None
         end
    else history_end_of images j.
Proof.
  intros ids images j. unfold history_end_of.
  induction images as [|i images IH]; simpl; [now destruct (id_in ids j)|].
  destruct (id_in ids (i_id i)) eqn:Ei; cbn [i_id].
  - destruct (Z.eqb_spec (i_id i) j) as [E|E].
    + subst j. now rewrite Ei.
    + exact IH.
  - destruct (Z.eqb_spec (i_id i) j) as [E|E].
    + subst j. now rewrite Ei.
    + exact IH.
Qed.

Lemma fold_left_map_ids : forall rows db,
  fold_left dt_history_delete_on_image (map sqlite3_column_int rows) db
  = fold_left (fun db row => dt_history_delete_on_image db (sqlite3_column_int row))
              rows db.
Proof.
  induction rows as [|r rows IH]; intros db; simpl; [reflexivity|apply IH].
Qed.

(** X3: [dt_history_delete_on_selection] clears exactly the images whose id
    is among the selected ids as [sqlite3_column_int] reads them: their
    history and masks are empty afterwards and their [history_end] is 0;
    every other image keeps its history, masks and [history_end], and the
    selection itself is not changed. *)
Theorem delete_on_selection_clears_selected :
  forall db j,
    let db' := dt_history_delete_on_selection db in
    history_of (main_history db') j
    = (if id_in (selected_ids db) j then [] else history_of (main_history db) j)
    /\ mask_of (main_mask db') j
       = (if id_in (selected_ids db) j then [] else mask_of (main_mask db) j)
    /\ history_end_of (main_images db') j
       = (if id_in (selected_ids db) j
          then match find (fun i => i_id i =? j) (main_images db) with
               | Some _ => Some 0
               | None => None
               end
          else history_end_of (main_images db) j)
    /\ main_selected_images db' = main_selected_images db
    /\ memory_style_items db' = memory_style_items db.
Proof.
  intros db j db'. subst db'. unfold dt_history_delete_on_selection.
  rewrite <- (fold_left_map_ids (main_selected_images db) db).
  fold (selected_ids db).
  destruct (delete_loop_tables (selected_ids db) db) as (H1 & H2 & H3 & H4 & H5).
  rewrite H1, H2, H3, H4, H5.
  rewrite history_of_filter_ids, mask_of_filter_ids, history_end_of_reset_ids.
  repeat split.
Qed.

End Deleting.

Section Pasting.

Variable flag : Z.

(** ** What a paste leaves alone *)

Lemma history_of_map_fix : forall (f : history_row -> history_row) dest j history,
  (forall h, h_imgid (f h) = h_imgid h) ->
  (forall h, h_imgid h <> dest -> f h = h) ->
  j <> dest ->
  history_of (map f history) j = history_of history j.
Proof.
  intros f dest j history Hid Hfix Hj. unfold history_of.
  induction history as [|h history IH]; simpl; [reflexivity|].
  rewrite Hid. destruct (Z.eqb_spec (h_imgid h) j) as [E|E].
  - rewrite Hfix by congruence. now rewrite IH.
  - exact IH.
Qed.

Lemma shift_multi_priority_entry : forall items dest op history,
  map h_entry (shift_multi_priority items dest op history) = map h_entry history.
Proof.
  intros items dest op history. unfold shift_multi_priority. rewrite map_map.
  apply map_ext. intros h.
  now destruct ((h_imgid h =? dest) && String.eqb (h_operation h) op).
Qed.

Lemma update_multi_priority_entry : forall history dest op old new,
  map h_entry (update_multi_priority history dest op old new) = map h_entry history.
Proof.
  intros history dest op old new. unfold update_multi_priority. rewrite map_map.
  apply map_ext. intros h.
  now destruct ((h_imgid h =? dest) && String.eqb (h_operation h) op
                && (h_multi_priority h =? old)).
Qed.

Lemma shift_multi_priority_others : forall items dest op history j,
  j <> dest ->
  history_of (shift_multi_priority items dest op history) j = history_of history j.
Proof.
  intros items dest op history j Hj. unfold shift_multi_priority.
  apply (history_of_map_fix _ dest); [| |assumption]; intros h.
  - now destruct ((h_imgid h =? dest) && String.eqb (h_operation h) op).
  - intros Hne. apply Z.eqb_neq in Hne. now rewrite Hne.
Qed.

Lemma update_multi_priority_others : forall history dest op old new j,
  j <> dest ->
  history_of (update_multi_priority history dest op old new) j = history_of history j.
Proof.
  intros history dest op old new j Hj. unfold update_multi_priority.
  apply (history_of_map_fix _ dest); [| |assumption]; intros h.
  - now destruct ((h_imgid h =? dest) && String.eqb (h_operation h) op
                  && (h_multi_priority h =? old)).
  - intros Hne. apply Z.eqb_neq in Hne. now rewrite Hne.
Qed.

Lemma append_frame : forall iop db dest,
  let db' := _history_rebuild_multi_priority_append flag iop db dest in
  map h_entry (main_history db') = map h_entry (main_history db)
  /\ (forall j, j <> dest ->
                history_of (main_history db') j = history_of (main_history db) j)
  /\ main_images db' = main_images db
  /\ main_mask db' = main_mask db
  /\ main_selected_images db' = main_selected_images db
  /\ memory_style_items db' = memory_style_items db.
Proof.
  intros iop db dest db'. subst db'. unfold _history_rebuild_multi_priority_append.
  cbn [main_history main_images main_mask main_selected_images memory_style_items
       set_history].
  generalize (distinct_operations (map s_operation (memory_style_items db))).
  intros ops. generalize (main_history db). intros history.
  assert (H : map h_entry
                  (fold_left
                     (fun history op_old =>
                        if one_instance flag iop op_old then history
                        else shift_multi_priority (memory_style_items db) dest op_old
                                                  history) ops history)
              = map h_entry history
              /\ forall j, j <> dest ->
                   history_of
                     (fold_left
                        (fun history op_old =>
                           if one_instance flag iop op_old then history
                           else shift_multi_priority (memory_style_items db) dest op_old
                                                     history) ops history) j
                   = history_of history j).
  { revert history. induction ops as [|o ops IH]; intros history; simpl; [auto|].
    destruct (IH (if one_instance flag iop o then history
                  else shift_multi_priority (memory_style_items db) dest o history))
      as [H1 H2].
    split.
    - rewrite H1. destruct (one_instance flag iop o); [reflexivity|].
      apply shift_multi_priority_entry.
    - intros j Hj. rewrite (H2 j Hj). destruct (one_instance flag iop o); [reflexivity|].
      now apply shift_multi_priority_others. }
  destruct H as [H1 H2]. repeat split; auto.
Qed.

Lemma flag_used_entry : forall items n,
  map s_entry (flag_used items n) = map s_entry items
  /\ map s_multi_priority (flag_used items n) = map s_multi_priority items.
Proof.
  intros items n. unfold flag_used. rewrite !map_map.
  split; apply map_ext; intros s; now destruct (s_num s =? n).
Qed.

Lemma merge_row_frame : forall iop dest st g,
  let st' := merge_row flag iop dest st g in
  map h_entry (ms_history st') = map h_entry (ms_history st)
  /\ (forall j, j <> dest ->
                history_of (ms_history st') j = history_of (ms_history st) j)
  /\ map s_entry (ms_style_items st') = map s_entry (ms_style_items st)
  /\ map s_multi_priority (ms_style_items st')
     = map s_multi_priority (ms_style_items st).
Proof.
  intros iop dest st g st'. subst st'. unfold merge_row.
  destruct (one_instance flag iop (h_operation g)); [auto|]. cbv zeta.
  match goal with |- context [if ?c then _ else _] => destruct c end;
    cbn [ms_history ms_style_items];
    (split; [apply update_multi_priority_entry|]);
    (split; [intros j Hj; now apply update_multi_priority_others|]);
    auto using flag_used_entry.
Qed.

Lemma merge_loop_frame : forall iop dest groups st,
  let st' := fold_left (merge_row flag iop dest) groups st in
  map h_entry (ms_history st') = map h_entry (ms_history st)
  /\ (forall j, j <> dest ->
                history_of (ms_history st') j = history_of (ms_history st) j)
  /\ map s_entry (ms_style_items st') = map s_entry (ms_style_items st)
  /\ map s_multi_priority (ms_style_items st')
     = map s_multi_priority (ms_style_items st).
Proof.
  intros iop dest groups. induction groups as [|g groups IH]; intros st; simpl; [auto|].
  destruct (IH (merge_row flag iop dest st g)) as (A & B & C & D).
  destruct (merge_row_frame iop dest st g) as (A' & B' & C' & D').
  cbv zeta. rewrite A, C, D. repeat split; try assumption.
  intros j Hj. rewrite (B j Hj). now apply B'.
Qed.

(** The merge rewrites instance numbers of the destination and flags staged
    rows as used; it adds, drops and reorders nothing. *)
Lemma merge_frame : forall iop db dest,
  let db' := dt_history_rebuild_multi_priority_merge flag iop db dest in
  map h_entry (main_history db') = map h_entry (main_history db)
  /\ (forall j, j <> dest ->
                history_of (main_history db') j = history_of (main_history db) j)
  /\ map s_entry (memory_style_items db') = map s_entry (memory_style_items db)
  /\ map s_multi_priority (memory_style_items db')
     = map s_multi_priority (memory_style_items db)
  /\ main_images db' = main_images db
  /\ main_mask db' = main_mask db
  /\ main_selected_images db' = main_selected_images db.
Proof.
  intros iop db dest db'. subst db'.
  unfold dt_history_rebuild_multi_priority_merge. cbv zeta.
  destruct (append_frame iop db dest) as (A & B & C & D & E & F).
  cbn [main_history memory_style_items main_images main_mask main_selected_images
       set_style_items set_history].
  match goal with
  | |- context [fold_left ?f ?gs ?st] =>
      destruct (merge_loop_frame iop dest gs st) as (A' & B' & C' & D')
  end.
  cbn [merge_init ms_history ms_style_items] in A', B', C', D'.
  repeat split; try assumption.
  - now rewrite A'.
  - intros j Hj. rewrite (B' j Hj). now apply B.
Qed.

Lemma cleanup_update_entry : forall items whens,
  map s_entry (cleanup_update items whens) = map s_entry items
  /\ map s_num (cleanup_update items whens) = map s_num items.
Proof.
  intros items whens. unfold cleanup_update. rewrite !map_map.
  split; apply map_ext; intros s; reflexivity.
Qed.

Lemma cleanup_frame : forall iop db,
  let db' := _dt_history_cleanup_multi_instance flag iop db in
  main_history db' = main_history db
  /\ map s_entry (memory_style_items db') = map s_entry (memory_style_items db)
  /\ map s_num (memory_style_items db') = map s_num (memory_style_items db)
  /\ main_images db' = main_images db
  /\ main_mask db' = main_mask db
  /\ main_selected_images db' = main_selected_images db.
Proof.
  intros iop db db'. subst db'. unfold _dt_history_cleanup_multi_instance.
  destruct (cleanup_renumber _ _ _ _) as [hitems nb].
  destruct (nb =? 0); [auto 10|].
  cbn [main_history memory_style_items main_images main_mask main_selected_images
       set_style_items].
  destruct (cleanup_update_entry (memory_style_items db) (cleanup_whens hitems)).
  auto 10.
Qed.

(** The tables after a paste in merge mode. *)
Lemma paste_merge_db : forall iop db imgid dest ops,
  imgid <> dest -> imgid <> -1 ->
  let db4 := dt_history_rebuild_multi_priority_merge flag iop
               (_dt_history_cleanup_multi_instance flag iop
                  (staged_db db imgid dest ops)) dest in
  let offs := sqlite3_column_int
                (next_num (trim_history (main_history db) (main_images db) dest) dest) in
  let history' := paste_style_items (main_history db4) (memory_style_items db4)
                                    dest offs in
  snd (dt_history_copy_and_paste_on_image flag iop db imgid dest true ops)
  = mk_db history'
          (update_history_end (main_images db4) history' dest)
          (copy_mask (main_mask db4) dest imgid)
          (main_selected_images db4)
          (memory_style_items db4).
Proof.
  intros iop db imgid dest ops Hne Hsrc. cbv zeta.
  unfold dt_history_copy_and_paste_on_image.
  apply Z.eqb_neq in Hne. apply Z.eqb_neq in Hsrc. rewrite Hne, Hsrc.
  cbv beta iota zeta. simpl andb.
  set (history := trim_history (main_history db) (main_images db) dest).
  set (db1 := set_style_items (set_history db history) []).
  assert (H2 : (if match ops with [] => true | _ :: _ => false end
                then set_style_items db1
                       (insert_style_items (memory_style_items db1)
                          (select_last_entries (main_history db1) imgid))
                else if req_complete ops
                     then set_style_items db1
                            (insert_style_items (memory_style_items db1)
                               (select_entries (main_history db1) imgid ops))
                     else db1)
               = staged_db db imgid dest ops).
  { unfold staged_db, staged_rows. fold history. simpl andb.
    destruct ops as [|p ops]; [reflexivity|].
    destruct (req_complete (p :: ops)); reflexivity. }
  rewrite H2. reflexivity.
Qed.

(** The tables after a paste in replace mode. *)
Lemma paste_replace_db : forall iop db imgid dest ops,
  imgid <> dest -> imgid <> -1 ->
  let history := delete_history (main_history db) dest in
  let items := number_rows 1 (staged_rows history imgid false ops) in
  let history' := paste_style_items history items dest 0 in
  snd (dt_history_copy_and_paste_on_image flag iop db imgid dest false ops)
  = mk_db history'
          (update_history_end (main_images db) history' dest)
          (copy_mask (delete_mask (main_mask db) dest) dest imgid)
          (main_selected_images db)
          items.
Proof.
  intros iop db imgid dest ops Hne Hsrc. cbv zeta.
  unfold dt_history_copy_and_paste_on_image.
  apply Z.eqb_neq in Hne. apply Z.eqb_neq in Hsrc. rewrite Hne, Hsrc.
  unfold staged_rows. simpl.
  destruct (req_complete ops); reflexivity.
Qed.

Lemma staged_db_tables : forall db imgid dest ops,
  main_history (staged_db db imgid dest ops)
  = trim_history (main_history db) (main_images db) dest
  /\ main_images (staged_db db imgid dest ops) = main_images db
  /\ main_mask (staged_db db imgid dest ops) = main_mask db
  /\ main_selected_images (staged_db db imgid dest ops) = main_selected_images db
  /\ memory_style_items (staged_db db imgid dest ops)
     = number_rows 1 (staged_rows (trim_history (main_history db) (main_images db) dest)
                                  imgid true ops).
Proof. intros. unfold staged_db. cbv zeta. repeat split. Qed.

Lemma history_end_of_update : forall images history dest j,
  history_end_of (update_history_end images history dest) j
  = if j =? dest
    then match find (fun i => i_id i =? dest) images with
         | Some _ => option_map (fun m => m + 1)
                                (sql_max (map h_num (history_of history dest)))
         | None => None
         end
    else history_end_of images j.
Proof.
  intros images history dest j. unfold history_end_of, update_history_end.
  induction images as [|i images IH]; simpl.
  - now destruct (j =? dest).
  - destruct (Z.eqb_spec (i_id i) dest) as [E|E]; simpl.
    + destruct (Z.eqb_spec j dest) as [Ej|Ej].
      * subst j. rewrite E, Z.eqb_refl. reflexivity.
      * rewrite E. destruct (Z.eqb_spec dest j); [congruence|]. exact IH.
    + destruct (Z.eqb_spec (i_id i) j) as [Ej|Ej].
      * subst j. destruct (Z.eqb_spec (i_id i) dest); [contradiction|reflexivity].
      * exact IH.
Qed.

Lemma update_history_end_ids : forall images history dest,
  map i_id (update_history_end images history dest) = map i_id images.
Proof.
  intros. unfold update_history_end. rewrite map_map. apply map_ext.
  intros i. now destruct (i_id i =? dest).
Qed.

Lemma mask_of_app : forall m1 m2 j, mask_of (m1 ++ m2) j = mask_of m1 j ++ mask_of m2 j.
Proof. intros. apply filter_app. Qed.

Lemma mask_of_mask_for_other : forall dest l j,
  j <> dest -> mask_of (map (mask_for dest) l) j = [].
Proof.
  intros dest l j Hj. unfold mask_of. induction l as [|m l IH]; simpl; [reflexivity|].
  destruct (Z.eqb_spec dest j); [congruence|exact IH].
Qed.

Lemma copy_mask_of : forall mask dest imgid j,
  mask_of (copy_mask mask dest imgid) j
  = mask_of mask j ++ (if j =? dest then map (mask_for dest) (mask_of mask imgid) else []).
Proof.
  intros mask dest imgid j. unfold copy_mask.
  change (map _ (filter _ mask)) with (map (mask_for dest) (mask_of mask imgid)).
  rewrite mask_of_app. f_equal.
  destruct (Z.eqb_spec j dest) as [->|E].
  - apply mask_of_mask_for.
  - now apply mask_of_mask_for_other.
Qed.

Lemma paste_frame : forall iop db imgid dest merge ops j,
  j <> dest ->
  let db' := snd (dt_history_copy_and_paste_on_image flag iop db imgid dest merge ops) in
  history_of (main_history db') j = history_of (main_history db) j
  /\ mask_of (main_mask db') j = mask_of (main_mask db) j
  /\ history_end_of (main_images db') j = history_end_of (main_images db) j.
Proof.
  intros iop db imgid dest merge ops j Hj db'. subst db'.
  destruct (Z.eq_dec imgid dest) as [->|Hne].
  { now rewrite (copy_and_paste_same_image flag). }
  destruct (Z.eq_dec imgid (-1)) as [->|Hsrc].
  { now rewrite (copy_and_paste_no_source flag). }
  assert (Ej : (j =? dest) = false) by now apply Z.eqb_neq.
  assert (Ej' : (dest =? j) = false) by (apply Z.eqb_neq; congruence).
  destruct merge.
  - rewrite (paste_merge_db iop db imgid dest ops Hne Hsrc). cbv zeta.
    cbn [main_history main_mask main_images].
    set (db3 := _dt_history_cleanup_multi_instance flag iop (staged_db db imgid dest ops)).
    destruct (merge_frame iop db3 dest) as (_ & B & _ & _ & C & D & _).
    destruct (cleanup_frame iop (staged_db db imgid dest ops))
      as (A' & _ & _ & C' & D' & _).
    fold db3 in A', C', D'.
    destruct (staged_db_tables db imgid dest ops) as (S1 & S2 & S3 & _).
    unfold paste_style_items.
    rewrite history_of_app, history_of_pasted, Ej', app_nil_r.
    rewrite (B j Hj), A', S1, history_of_trim, Ej.
    rewrite copy_mask_of, Ej, app_nil_r, D, D', S3.
    rewrite history_end_of_update, Ej, C, C', S2. auto.
  - rewrite (paste_replace_db iop db imgid dest ops Hne Hsrc). cbv zeta.
    cbn [main_history main_mask main_images]. unfold paste_style_items.
    rewrite history_of_app, history_of_pasted, Ej', app_nil_r.
    rewrite history_of_delete, Ej.
    rewrite copy_mask_of, Ej, app_nil_r, mask_of_delete, Ej.
    rewrite history_end_of_update, Ej. auto.
Qed.

(** X4: a paste works on the destination only: the history, the masks and
    the [history_end] of every other image, the source among them, are
    afterwards what they were. *)
Theorem paste_touches_only_destination :
  forall iop db imgid dest_imgid merge ops j,
    j <> dest_imgid ->
    let db' := snd (dt_history_copy_and_paste_on_image flag iop db imgid dest_imgid
                                                       merge ops) in
    history_of (main_history db') j = history_of (main_history db) j
    /\ mask_of (main_mask db') j = mask_of (main_mask db) j
    /\ history_end_of (main_images db') j = history_end_of (main_images db) j.
Proof. intros. now apply paste_frame. Qed.

(** ** [history_end] after a paste *)

Lemma paste_history_end : forall iop db imgid dest merge ops,
  imgid <> dest -> imgid <> -1 ->
  In dest (map i_id (main_images db)) ->
  let db' := snd (dt_history_copy_and_paste_on_image flag iop db imgid dest merge ops) in
  history_end_of (main_images db') dest
  = option_map (fun m => m + 1) (sql_max (history_nums db' dest)).
Proof.
  intros iop db imgid dest merge ops Hne Hsrc Hin db'. subst db'.
  destruct (find_image_In _ _ Hin) as [i Hi]. unfold history_nums.
  destruct merge.
  - rewrite (paste_merge_db iop db imgid dest ops Hne Hsrc). cbv zeta.
    cbn [main_history main_images].
    set (db3 := _dt_history_cleanup_multi_instance flag iop (staged_db db imgid dest ops)).
    destruct (merge_frame iop db3 dest) as (_ & _ & _ & _ & C & _).
    destruct (cleanup_frame iop (staged_db db imgid dest ops)) as (_ & _ & _ & C' & _).
    fold db3 in C'.
    destruct (staged_db_tables db imgid dest ops) as (_ & S2 & _).
    rewrite history_end_of_update, Z.eqb_refl, C, C', S2, Hi. reflexivity.
  - rewrite (paste_replace_db iop db imgid dest ops Hne Hsrc). cbv zeta.
    cbn [main_history main_images].
    rewrite history_end_of_update, Z.eqb_refl, Hi. reflexivity.
Qed.

Lemma seq_set_max : forall l n,
  seq_set l n ->
  option_map (fun m => m + 1) (sql_max l)
  = match l with [] => None | _ :: _ => Some (Z.of_nat (List.length l)) end.
Proof.
  intros l n H. pose proof (seq_set_next l n H) as Hn.
  pose proof (seq_set_length l n H) as Hl.
  destruct l as [|x l]; [reflexivity|].
  destruct (sql_max (x :: l)) as [m|] eqn:E; [|discriminate E].
  cbn [option_map IFNULL] in *. rewrite Hl. f_equal. lia.
Qed.

(** X5: after a paste the whole stack of the destination is active: with
    seq values 0, .., n-1 before, [history_end] is afterwards the number of
    history rows the destination has; when the destination ends up with no
    row at all, [history_end] is NULL, not 0. *)
Theorem paste_makes_whole_stack_active :
  forall iop db imgid dest_imgid merge ops,
    imgid <> dest_imgid ->
    imgid <> -1 ->
    In dest_imgid (map i_id (main_images db)) ->
    contiguous_from_0 (history_nums db dest_imgid) ->
    Z.of_nat (List.length (history_nums db dest_imgid)) <= 2147483647 ->
    let db' := snd (dt_history_copy_and_paste_on_image flag iop db imgid dest_imgid
                                                       merge ops) in
    history_end_of (main_images db') dest_imgid
    = match history_nums db' dest_imgid with
      | [] => None
      | _ :: _ => Some (Z.of_nat (List.length (history_nums db' dest_imgid)))
      end.
Proof.
  intros iop db imgid dest merge ops Hne Hsrc Hin Hc Hlen db'. subst db'.
  rewrite (paste_history_end iop db imgid dest merge ops Hne Hsrc Hin).
  pose proof (paste_keeps_contiguous flag iop db dest imgid dest merge ops Hc Hlen) as Hc'.
  apply contiguous_seq_set in Hc'. destruct Hc' as [n Hn].
  exact (seq_set_max _ _ Hn).
Qed.

(** ** The staging table *)

Lemma paste_from_empty_staging : forall iop db imgid dest merge ops items,
  imgid <> dest -> imgid <> -1 ->
  dt_history_copy_and_paste_on_image flag iop (set_style_items db items)
                                     imgid dest merge ops
  = dt_history_copy_and_paste_on_image flag iop db imgid dest merge ops.
Proof.
  intros iop db imgid dest merge ops items Hne Hsrc.
  unfold dt_history_copy_and_paste_on_image.
  apply Z.eqb_neq in Hne. apply Z.eqb_neq in Hsrc. rewrite Hne, Hsrc.
  destruct merge; reflexivity.
Qed.

(** X6: a paste starts from an empty staging table: whatever
    memory.style_items held before the call has no effect on the result and
    on the tables afterwards. *)
Theorem paste_ignores_previous_staging :
  forall iop db imgid dest_imgid merge ops items,
    imgid <> dest_imgid ->
    imgid <> -1 ->
    dt_history_copy_and_paste_on_image flag iop (set_style_items db items)
                                       imgid dest_imgid merge ops
    = dt_history_copy_and_paste_on_image flag iop db imgid dest_imgid merge ops.
Proof. intros. now apply paste_from_empty_staging. Qed.

(** ** What a paste in merge mode keeps *)

Lemma pasted_entries : forall dest offs items,
  map h_entry (map (history_of_style dest offs) items)
  = map (fun e => (dest, offs + fst e - 1, snd e)) (map s_entry items).
Proof. intros. rewrite !map_map. apply map_ext. intros s. reflexivity. Qed.

Lemma renumbered_entries : forall dest offs rows r,
  map h_entry (renumbered dest (offs + r - 1) rows)
  = map (fun e => (dest, offs + fst e - 1, snd e)) (map s_entry (number_rows r rows)).
Proof.
  intros dest offs rows. induction rows as [|h rows IH]; intros r; simpl; [reflexivity|].
  f_equal. replace (offs + r - 1 + 1) with (offs + (r + 1) - 1) by lia. apply IH.
Qed.

(** X7: a paste in merge mode keeps every entry of the destination below
    its [history_end], position and parameters untouched, and appends the
    staged entries after them with their parameters as in the source; only
    instance numbers are rewritten.  The appended entries are numbered
    from the [int] the function reads for IFNULL(MAX(num), -1) + 1, whatever
    the seq values of the destination are. *)
Theorem paste_merge_keeps_entries :
  forall iop db imgid dest_imgid ops,
    imgid <> dest_imgid ->
    imgid <> -1 ->
    let history := trim_history (main_history db) (main_images db) dest_imgid in
    let offs := sqlite3_column_int (next_num history dest_imgid) in
    let db' := snd (dt_history_copy_and_paste_on_image flag iop db imgid dest_imgid
                                                       true ops) in
    exists kept pasted,
      main_history db' = kept ++ pasted
      /\ map h_entry kept = map h_entry history
      /\ map h_entry pasted
         = map h_entry (renumbered dest_imgid offs
                                   (staged_rows history imgid true ops)).
Proof.
  intros iop db imgid dest ops Hne Hsrc history offs db'. subst db'.
  rewrite (paste_merge_db iop db imgid dest ops Hne Hsrc). cbv zeta.
  cbn [main_history]. fold history. fold offs.
  set (db3 := _dt_history_cleanup_multi_instance flag iop (staged_db db imgid dest ops)).
  destruct (merge_frame iop db3 dest) as (A & _ & B & _).
  destruct (cleanup_frame iop (staged_db db imgid dest ops)) as (A' & B' & _).
  fold db3 in A', B'.
  destruct (staged_db_tables db imgid dest ops) as (S1 & _ & _ & _ & S5).
  fold history in S1, S5.
  eexists. eexists. split; [reflexivity|]. split.
  - now rewrite A, A', S1.
  - rewrite pasted_entries, B, B', S5, <- renumbered_entries.
    now replace (offs + 1 - 1) with offs by lia.
Qed.

(** ** Masks in merge mode *)

Lemma paste_merge_mask : forall iop db imgid dest ops,
  imgid <> dest -> imgid <> -1 ->
  main_mask (snd (dt_history_copy_and_paste_on_image flag iop db imgid dest true ops))
  = main_mask db ++ map (mask_for dest) (mask_of (main_mask db) imgid).
Proof.
  intros iop db imgid dest ops Hne Hsrc.
  destruct (paste_merge_tables flag iop db imgid dest ops Hne Hsrc)
    as (merged & items & _ & _ & _ & Hm).
  rewrite Hm. reflexivity.
Qed.

(** X8: a paste in merge mode deletes no mask and appends a copy of every
    mask of the source to the destination, whether or not the destination
    has that form already: pasting the same source twice leaves every
    source mask twice on the destination. *)
Theorem paste_merge_accumulates_masks :
  forall iop db imgid dest_imgid ops ops',
    imgid <> dest_imgid ->
    imgid <> -1 ->
    let copies := map (mask_for dest_imgid) (mask_of (main_mask db) imgid) in
    let db1 := snd (dt_history_copy_and_paste_on_image flag iop db imgid dest_imgid
                                                       true ops) in
    let db2 := snd (dt_history_copy_and_paste_on_image flag iop db1 imgid dest_imgid
                                                       true ops') in
    main_mask db1 = main_mask db ++ copies
    /\ main_mask db2 = main_mask db ++ copies ++ copies
    /\ mask_of (main_mask db2) dest_imgid
       = mask_of (main_mask db) dest_imgid ++ copies ++ copies.
Proof.
  intros iop db imgid dest ops ops' Hne Hsrc copies db1 db2.
  assert (H1 : main_mask db1 = main_mask db ++ copies)
    by (apply paste_merge_mask; assumption).
  assert (Hsame : mask_of (main_mask db1) imgid = mask_of (main_mask db) imgid)
    by (apply (paste_frame iop db imgid dest true ops imgid Hne)).
  assert (H2 : main_mask db2 = main_mask db ++ copies ++ copies).
  { subst db2. rewrite paste_merge_mask by assumption.
    rewrite Hsame, H1, <- app_assoc. reflexivity. }
  split; [exact H1|]. split; [exact H2|].
  rewrite H2, !mask_of_app. subst copies.
  now rewrite mask_of_mask_for.
Qed.

End Pasting.

Section Renumbering.

Variable flag : Z.

(** ** The three renumbering passes, each as a whole *)

(** X9: on staged rows with distinct, int-sized [num] values the cleanup
    leaves the instance numbers of every module that is not single-instance
    as 0, 1, .., k-1 in the order (operation, multi_priority), and changes
    nothing else: rowid, [num] and parameters of every staged row and the
    instance numbers of single-instance modules are kept. *)
Theorem cleanup_renumbers_only_multi_instance :
  forall iop db,
    well_staged (memory_style_items db) ->
    (forall s, In s (memory_style_items db) ->
               (String.length (s_operation s) <= 1023)%nat) ->
    let db' := _dt_history_cleanup_multi_instance flag iop db in
    normalized flag iop (memory_style_items db')
    /\ map s_entry (memory_style_items db') = map s_entry (memory_style_items db)
    /\ map s_num (memory_style_items db') = map s_num (memory_style_items db)
    /\ (forall x, one_instance flag iop x = true ->
                  map (s_keep x) (memory_style_items db')
                  = map (s_keep x) (memory_style_items db))
    /\ main_history db' = main_history db.
Proof.
  intros iop db Hws Hlen db'. subst db'.
  destruct (cleanup_frame flag iop db) as (A & B & C & _).
  split; [now apply cleanup_normalizes|]. split; [exact B|]. split; [exact C|].
  split; [|exact A].
  intros x Hx. destruct Hws as [Hnd Hrange].
  apply cleanup_keep; [assumption|assumption|].
  intros s Hs. now apply Hrange.
Qed.

(** X10: the cleanup is idempotent on any staged rows with distinct,
    int-sized [num] values: a second run finds nothing to change. *)
Theorem cleanup_twice_is_once :
  forall iop db,
    well_staged (memory_style_items db) ->
    (forall s, In s (memory_style_items db) ->
               (String.length (s_operation s) <= 1023)%nat) ->
    Z.of_nat (List.length (memory_style_items db)) <= 2147483647 ->
    let db' := _dt_history_cleanup_multi_instance flag iop db in
    cleanup_nb_change flag iop (memory_style_items db') = 0
    /\ _dt_history_cleanup_multi_instance flag iop db' = db'.
Proof.
  intros iop db Hws Hlen Hsize db'. subst db'.
  assert (H : cleanup_nb_change flag iop
                (memory_style_items (_dt_history_cleanup_multi_instance flag iop db)) = 0).
  { apply cleanup_normalized_no_change.
    - now apply cleanup_normalizes.
    - intros s Hs. apply cleanup_keeps_operations in Hs.
      destruct Hs as (s0 & Hs0 & ->). now apply Hlen.
    - now rewrite cleanup_keeps_length. }
  split; [exact H|now apply cleanup_no_change].
Qed.

Lemma staged_existsb : forall items o,
  existsb (String.eqb o) (distinct_operations (map s_operation items)) = true
  <-> In o (map s_operation items).
Proof.
  intros items o. rewrite existsb_exists. split.
  - intros (x & Hx & E). apply String.eqb_eq in E. subst x.
    now apply distinct_operations_In.
  - intros H. exists o. split; [now apply distinct_operations_In|apply String.eqb_refl].
Qed.

Lemma append_above : forall iop db dest h' s,
  (forall h, In h (main_history db) -> h_imgid h = dest -> 0 <= h_multi_priority h) ->
  In h' (main_history (_history_rebuild_multi_priority_append flag iop db dest)) ->
  h_imgid h' = dest ->
  one_instance flag iop (h_operation h') = false ->
  In s (memory_style_items db) ->
  s_operation s = h_operation h' ->
  s_multi_priority s < h_multi_priority h'.
Proof.
  intros iop db dest h' s Hpos Hin Hd Hone Hs Hop.
  unfold _history_rebuild_multi_priority_append in Hin. cbn [main_history set_history] in Hin.
  rewrite append_loop_map in Hin by apply distinct_operations_NoDup.
  apply in_map_iff in Hin. destruct Hin as (h & Hh' & Hh).
  assert (Hst : In (h_operation h') (map s_operation (memory_style_items db))).
  { rewrite <- Hop. now apply in_map. }
  assert (Hsame : h_operation h' = h_operation h /\ h_imgid h' = h_imgid h).
  { subst h'. destruct (_ && _ && _); now simpl. }
  destruct Hsame as [Eo Ei].
  rewrite Eo in Hone, Hst. rewrite Ei in Hd.
  apply staged_existsb in Hst as Hex.
  apply Z.eqb_eq in Hd as Hd'. rewrite Hd', Hex, Hone in Hh'. simpl in Hh'.
  destruct (style_max_multi_priority_some _ _ Hst) as [m Hm].
  subst h'. unfold shifted. rewrite Hm. cbn [h_multi_priority h_set_multi_priority IFNULL].
  apply style_max_multi_priority_spec in Hm. destruct Hm as [_ Hmax].
  pose proof (Hmax s Hs (eq_trans Hop Eo)). pose proof (Hpos h Hh Hd). lia.
Qed.

(** X11: the append pass makes room: afterwards every row of the
    destination whose module is staged and not single-instance carries an
    instance number above every staged instance number of that module,
    provided no instance number of the destination was negative. *)
Theorem append_makes_room :
  forall iop db dest_imgid h' s,
    (forall h, In h (main_history db) -> h_imgid h = dest_imgid ->
               0 <= h_multi_priority h) ->
    In h' (main_history (_history_rebuild_multi_priority_append flag iop db dest_imgid)) ->
    h_imgid h' = dest_imgid ->
    one_instance flag iop (h_operation h') = false ->
    In s (memory_style_items db) ->
    s_operation s = h_operation h' ->
    s_multi_priority s < h_multi_priority h'.
Proof. intros iop db dest h' s. apply append_above. Qed.

Lemma flag_used_nums : forall items n,
  Forall2 (fun s s' => s_num s' = s_num s \/ s_num s' = -1) items (flag_used items n).
Proof.
  intros items n. unfold flag_used. induction items as [|s items IH]; simpl; constructor;
    [|exact IH].
  destruct (s_num s =? n); [now right|now left].
Qed.

Lemma Forall2_nums_refl : forall items : list style_item,
  Forall2 (fun s s' => s_num s' = s_num s \/ s_num s' = -1) items items.
Proof. induction items; constructor; auto. Qed.

Lemma Forall2_nums_trans : forall l1 l2 l3 : list style_item,
  Forall2 (fun s s' => s_num s' = s_num s \/ s_num s' = -1) l1 l2 ->
  Forall2 (fun s s' => s_num s' = s_num s \/ s_num s' = -1) l2 l3 ->
  Forall2 (fun s s' => s_num s' = s_num s \/ s_num s' = -1) l1 l3.
Proof.
  intros l1 l2 l3 H. revert l3. induction H as [|a b l1 l2 Hab H IH]; intros l3 H3.
  - inversion H3. constructor.
  - inversion H3 as [|? c ? l3' Hbc H3']; subst. constructor; [|now apply IH].
    destruct Hab as [E|E], Hbc as [E'|E']; try (left; congruence); right; congruence.
Qed.

Lemma merge_row_nums : forall iop dest st g,
  Forall2 (fun s s' => s_num s' = s_num s \/ s_num s' = -1)
          (ms_style_items st) (ms_style_items (merge_row flag iop dest st g)).
Proof.
  intros iop dest st g. unfold merge_row.
  destruct (one_instance flag iop (h_operation g)); [apply Forall2_nums_refl|].
  cbv zeta. match goal with |- context [if ?c then _ else _] => destruct c end;
    cbn [ms_style_items]; [apply flag_used_nums|apply Forall2_nums_refl].
Qed.

Lemma merge_loop_nums : forall iop dest groups st,
  Forall2 (fun s s' => s_num s' = s_num s \/ s_num s' = -1)
          (ms_style_items st)
          (ms_style_items (fold_left (merge_row flag iop dest) groups st)).
Proof.
  intros iop dest groups. induction groups as [|g groups IH]; intros st; simpl.
  - apply Forall2_nums_refl.
  - eapply Forall2_nums_trans; [apply merge_row_nums|apply IH].
Qed.

(** X12: [dt_history_rebuild_multi_priority_merge] adds, drops and reorders
    no row: every history row keeps its image, position and parameters
    (only instance numbers change, and only on the destination), every
    staged row keeps its rowid, parameters and instance number, and its
    [num] is either kept or set to -1. *)
Theorem merge_rewrites_instance_numbers_only :
  forall iop db dest_imgid,
    let db' := dt_history_rebuild_multi_priority_merge flag iop db dest_imgid in
    map h_entry (main_history db') = map h_entry (main_history db)
    /\ (forall j, j <> dest_imgid ->
                  history_of (main_history db') j = history_of (main_history db) j)
    /\ map s_entry (memory_style_items db') = map s_entry (memory_style_items db)
    /\ map s_multi_priority (memory_style_items db')
       = map s_multi_priority (memory_style_items db)
    /\ Forall2 (fun s s' => s_num s' = s_num s \/ s_num s' = -1)
               (memory_style_items db) (memory_style_items db')
    /\ main_images db' = main_images db
    /\ main_mask db' = main_mask db.
Proof.
  intros iop db dest db'.
  destruct (merge_frame flag iop db dest) as (A & B & C & D & E & F & _).
  repeat split; try assumption.
  subst db'. unfold dt_history_rebuild_multi_priority_merge. cbv zeta.
  cbn [memory_style_items set_style_items].
  match goal with
  | |- context [fold_left ?f ?gs ?st] => exact (merge_loop_nums iop dest gs st)
  end.
Qed.

End Renumbering.

Section ListingFacts.

Variable localized : string -> string.
Variable label_on label_off : string.

(** ** The two listings of a history *)

Lemma substring_length_le : forall n m s, (String.length (substring n m s) <= m)%nat.
Proof.
  intros n m s. revert n m. induction s as [|c s IH]; intros n m.
  - destruct n, m; simpl; lia.
  - destruct n as [|n].
    + destruct m as [|m]; simpl; [lia|]. specialize (IH 0%nat m). lia.
    + simpl. apply IH.
Qed.

(** X13: an instance without a name of its own carries the multi_name "0".
    The item list shows such a row under the module's name alone when
    [enabled] is TRUE, but with the "0" when [enabled] is FALSE, while the
    text listing leaves the "0" out; every item name fits [char name[512]]. *)
Theorem unnamed_instance_labels :
  forall h enabled,
    (h_multi_name h = "0"%string ->
     history_item_name localized label_on label_off true h
     = snprintf_s 512 (localized (h_operation h))
     /\ history_item_name localized label_on label_off false h
        = snprintf_s 512
            (localized (h_operation h) ++ " 0 ("
             ++ (if sqlite3_column_int (h_enabled h) =? 0 then label_off else label_on)
             ++ ")")
     /\ history_line localized label_on label_off h
        = (localized (h_operation h) ++ " ("
           ++ (if Z.eqb (sqlite3_column_int (h_enabled h)) 0 then label_off else label_on)
           ++ ")")%string)
    /\ (String.length (history_item_name localized label_on label_off enabled h)
        <= 511)%nat.
Proof.
  intros h enabled. split.
  - intros E. unfold history_item_name, history_line. rewrite E. cbn [String.eqb Ascii.eqb Bool.eqb negb andb].
    destruct (sqlite3_column_int (h_enabled h) =? 0); simpl negb; cbv iota; auto.
  - unfold history_item_name.
    destruct enabled; [destruct (String.eqb _ _)|]; apply substring_length_le.
Qed.

(** ** The item list and the last entry of every instance *)

Lemma max_num_row_max : forall rs r x,
  In x (r :: rs) -> h_num x <= h_num (max_num_row r rs).
Proof.
  unfold max_num_row. induction rs as [|y rs IH]; intros r x Hx.
  - destruct Hx as [<-|[]]. simpl. lia.
  - cbn [fold_left]. destruct (Z.ltb_spec (h_num r) (h_num y)) as [Hlt|Hge].
    + destruct Hx as [<-|Hx].
      * specialize (IH y y (or_introl eq_refl)). lia.
      * now apply IH.
    + destruct Hx as [<-|[<-|Hx]].
      * apply IH. now left.
      * specialize (IH r r (or_introl eq_refl)). lia.
      * apply IH. now right.
Qed.

Lemma group_by_last : forall rows g,
  In g (group_by_operation_multi_priority rows) -> last_of_instance rows g.
Proof.
  intros rows g H. split; [now apply group_by_In|].
  unfold group_by_operation_multi_priority in H.
  apply in_flat_map in H. destruct H as (k & _ & H).
  destruct (filter (fun h => key_eqb k (h_key h)) rows) as [|r rs] eqn:E; [contradiction|].
  destruct H as [<-|[]].
  assert (Hg : In (max_num_row r rs) (filter (fun h => key_eqb k (h_key h)) rows))
    by (rewrite E; apply max_num_row_In).
  apply filter_In in Hg. destruct Hg as [_ Hg]. apply key_eqb_eq in Hg.
  intros h' Hh' Hk. apply max_num_row_max. rewrite <- E.
  apply filter_In. split; [assumption|]. apply key_eqb_eq. congruence.
Qed.

Lemma last_group_by : forall rows h,
  NoDup (map h_num rows) ->
  last_of_instance rows h -> In h (group_by_operation_multi_priority rows).
Proof.
  intros rows h Hnd [Hin Hlast]. unfold group_by_operation_multi_priority.
  apply in_flat_map. exists (h_key h). split.
  - apply order_by_In, distinct_keys_In. now apply in_map.
  - assert (Hf : In h (filter (fun x => key_eqb (h_key h) (h_key x)) rows)).
    { apply filter_In. split; [assumption|]. now apply key_eqb_eq. }
    destruct (filter (fun x => key_eqb (h_key h) (h_key x)) rows) as [|r rs] eqn:E;
      [contradiction|].
    left.
    assert (Hg : In (max_num_row r rs) (filter (fun x => key_eqb (h_key h) (h_key x)) rows))
      by (rewrite E; apply max_num_row_In).
    apply filter_In in Hg. destruct Hg as [Hg Hk]. apply key_eqb_eq in Hk.
    apply (NoDup_map_eq h_num rows); try assumption.
    pose proof (max_num_row_max rs r h Hf). pose proof (Hlast _ Hg (eq_sym Hk)). lia.
Qed.

Lemma last_nums_spec : forall history imgid op n,
  In n (last_nums history imgid op)
  <-> exists h, last_of_instance (history_of history imgid) h
                /\ h_operation h = op /\ h_num h = n.
Proof.
  intros history imgid op n. unfold last_nums. cbv zeta.
  set (rows := history_of history imgid).
  set (rs := filter (fun h => String.eqb (h_operation h) op) rows).
  rewrite in_flat_map. split.
  - intros (mp & Hmp & Hn).
    destruct (sql_max _) as [m|] eqn:E; [|contradiction].
    destruct Hn as [<-|[]]. apply sql_max_spec in E. destruct E as [Hin Hmax].
    apply in_map_iff in Hin. destruct Hin as (h & Hnum & Hh).
    apply filter_In in Hh. destruct Hh as [Hh Hp]. apply Z.eqb_eq in Hp.
    apply filter_In in Hh. destruct Hh as [Hh Ho]. apply String.eqb_eq in Ho.
    exists h. split; [|now split]. split; [assumption|].
    intros h' Hh' Hk. rewrite Hnum. apply Hmax. apply in_map.
    unfold h_key in Hk. injection Hk as Hko Hkp.
    apply filter_In. split; [|apply Z.eqb_eq; congruence].
    apply filter_In. split; [assumption|]. apply String.eqb_eq. congruence.
  - intros (h & [Hh Hlast] & Ho & Hn).
    assert (Hrs : In h rs).
    { apply filter_In. split; [assumption|]. now apply String.eqb_eq. }
    exists (h_multi_priority h). split.
    + apply nodup_In. now apply in_map.
    + assert (Hmax : sql_max (map h_num (filter (fun x => h_multi_priority x
                                                          =? h_multi_priority h) rs))
                     = Some n).
      { apply sql_max_spec. split.
        - rewrite <- Hn. apply in_map. apply filter_In. split; [assumption|].
          apply Z.eqb_refl.
        - intros x Hx. apply in_map_iff in Hx. destruct Hx as (h' & <- & Hh').
          apply filter_In in Hh'. destruct Hh' as [Hh' Hp]. apply Z.eqb_eq in Hp.
          apply filter_In in Hh'. destruct Hh' as [Hh' Ho']. apply String.eqb_eq in Ho'.
          rewrite <- Hn. apply Hlast; [assumption|]. unfold h_key. congruence. }
      rewrite Hmax. now left.
Qed.

Lemma history_items_rows_In : forall history imgid h,
  NoDup (map h_num (history_of history imgid)) ->
  In h (history_items_rows history imgid)
  <-> last_of_instance (history_of history imgid) h.
Proof.
  intros history imgid h Hnd. unfold history_items_rows.
  rewrite order_by_In, filter_In, existsb_exists. split.
  - intros (Hh & n & Hn & E). apply Z.eqb_eq in E. subst n.
    apply last_nums_spec in Hn. destruct Hn as (g & Hg & _ & Hnum).
    destruct Hg as [Hgin Hglast].
    assert (g = h) by (now apply (NoDup_map_eq h_num (history_of history imgid))).
    subst g. now split.
  - intros Hlast. split; [apply Hlast|]. exists (h_num h). split; [|apply Z.eqb_refl].
    apply last_nums_spec. now exists h.
Qed.

Lemma StronglySorted_rev : forall {A : Type} (R : A -> A -> Prop) l,
  StronglySorted R l -> StronglySorted (fun a b => R b a) (rev l).
Proof.
  intros A R l H. induction H as [|x l Hs IH Hx]; simpl; [constructor|].
  assert (G : forall l1 : list A,
             StronglySorted (fun a b => R b a) l1 ->
             (forall y, In y l1 -> R x y) ->
             StronglySorted (fun a b => R b a) (l1 ++ [x])).
  { induction l1 as [|y l1 IH1]; intros Hs1 Hy; simpl.
    - constructor; constructor.
    - inversion Hs1 as [|? ? Hs1' Hy1]; subst. constructor.
      + apply IH1; [assumption|]. intros z Hz. apply Hy. now right.
      + rewrite Forall_forall in *. intros z Hz. apply in_app_iff in Hz.
        destruct Hz as [Hz|[<-|[]]]; [now apply Hy1|]. apply Hy. now left. }
  apply G; [assumption|]. rewrite Forall_forall in Hx.
  intros y Hy. apply Hx. now apply in_rev.
Qed.

Lemma sorted_perm_unique : forall {A : Type} (R : A -> A -> Prop) (l1 l2 : list A),
  (forall a b, In a l1 -> In b l1 -> R a b -> R b a -> a = b) ->
  StronglySorted R l1 -> StronglySorted R l2 -> Permutation l1 l2 -> l1 = l2.
Proof.
  intros A R. induction l1 as [|x l1 IH]; intros l2 Hanti H1 H2 P.
  - apply Permutation_nil in P. now subst.
  - destruct l2 as [|y l2].
    + apply Permutation_sym, Permutation_nil in P. discriminate.
    + inversion H1 as [|? ? Hs1 Hx]; subst. inversion H2 as [|? ? Hs2 Hy]; subst.
      rewrite Forall_forall in Hx, Hy.
      assert (Hxin : In x (y :: l2)) by (apply (Permutation_in _ P); now left).
      assert (Hyin : In y (x :: l1))
        by (apply (Permutation_in _ (Permutation_sym P)); now left).
      assert (Exy : x = y).
      { destruct Hxin as [E|Hxin]; [now symmetry|].
        destruct Hyin as [E|Hyin]; [assumption|].
        apply Hanti; [now left|now right|now apply Hx|now apply Hy]. }
      subst y. f_equal. apply IH; try assumption.
      * intros a b Ha Hb. apply Hanti; now right.
      * now apply Permutation_cons_inv in P.
Qed.

Lemma history_items_rows_last : forall history imgid,
  NoDup (map h_num (history_of history imgid)) ->
  history_items_rows history imgid = rev (select_last_entries history imgid).
Proof.
  intros history imgid Hnd.
  set (rows := history_of history imgid) in *.
  assert (Hrows : NoDup rows) by (now apply (NoDup_map_inv h_num)).
  assert (Hmem : forall h, In h (history_items_rows history imgid)
                           <-> In h (rev (select_last_entries history imgid))).
  { intros h. rewrite history_items_rows_In by assumption. fold rows.
    rewrite <- in_rev. unfold select_last_entries. rewrite order_by_In. fold rows.
    split; [now apply last_group_by|apply group_by_last]. }
  assert (Hsub : forall h, In h (history_items_rows history imgid) -> In h rows).
  { intros h Hh. apply history_items_rows_In in Hh; [|assumption]. apply Hh. }
  apply (sorted_perm_unique (fun a b => h_num b <= h_num a)).
  - intros a b Ha Hb Hab Hba.
    apply (NoDup_map_eq h_num rows); auto. lia.
  - unfold history_items_rows.
    eapply StronglySorted_weaken;
      [|apply (order_by_sorted (fun a b : history_row => h_num b <=? h_num a))].
    + intros a b H. now apply Z.leb_le.
    + intros a b. destruct (Z.leb_spec (h_num b) (h_num a)); [now left|right].
      apply Z.leb_le. lia.
    + intros a b c H1 H2. apply Z.leb_le. apply Z.leb_le in H1, H2. lia.
  - apply (StronglySorted_rev (fun a b : history_row => h_num a <= h_num b)).
    unfold select_last_entries.
    eapply StronglySorted_weaken;
      [|apply (order_by_sorted (fun a b : history_row => h_num a <=? h_num b))].
    + intros a b H. now apply Z.leb_le.
    + intros a b. destruct (Z.leb_spec (h_num a) (h_num b)); [now left|right].
      apply Z.leb_le. lia.
    + intros a b c H1 H2. apply Z.leb_le. apply Z.leb_le in H1, H2. lia.
  - apply NoDup_Permutation.
    + unfold history_items_rows.
      apply (Permutation_NoDup (Permutation_sym (order_by_perm _ _))).
      now apply NoDup_filter.
    + apply NoDup_rev. unfold select_last_entries.
      apply (Permutation_NoDup (Permutation_sym (order_by_perm _ _))).
      apply (NoDup_map_inv h_num). now apply group_by_nums_NoDup.
    + exact Hmem.
Qed.

Lemma filter_all : forall {A : Type} (l : list A), filter (fun _ => true) l = l.
Proof. induction l as [|x l IH]; simpl; [reflexivity|now rewrite IH]. Qed.

Lemma guint_of_column_int : forall v,
  guint_of_int (sqlite3_column_int v) = v mod 4294967296.
Proof.
  intros v. unfold guint_of_int, sqlite3_column_int.
  rewrite Zminus_mod, Z.mod_mod, <- Zminus_mod by lia.
  f_equal. lia.
Qed.

(** X14: when the seq values of an image are distinct, the rows
    [dt_history_get_items] lists are the last entry of every instance
    (operation, multi_priority), newest first: the entries that "copy all"
    stages for a paste in merge mode, in reverse order, one item per
    instance when [enabled] is FALSE.  An item carries the operation of
    its row and, in its unsigned [num], the seq of the row modulo 2^32. *)
Theorem get_items_lists_last_entries :
  forall db imgid,
    NoDup (history_nums db imgid) ->
    let last := select_last_entries (main_history db) imgid in
    history_items_rows (main_history db) imgid = rev last
    /\ map (fun it => (item_num it, item_op it))
           (dt_history_get_items localized label_on label_off db imgid false)
       = map (fun h => (h_num h mod 4294967296, h_operation h)) (rev last)
    /\ List.length (dt_history_get_items localized label_on label_off db imgid false)
       = List.length (distinct_keys (map h_key (history_of (main_history db) imgid)))
    /\ forall h, In h last <-> last_of_instance (history_of (main_history db) imgid) h.
Proof.
  intros db imgid Hnd last. unfold history_nums in Hnd.
  pose proof (history_items_rows_last (main_history db) imgid Hnd) as Hrows.
  fold last in Hrows.
  split; [exact Hrows|]. split; [|split].
  - unfold dt_history_get_items. rewrite Hrows. cbn [negb orb].
    rewrite filter_all, map_map. apply map_ext. intros h.
    cbn [item_num item_op]. now rewrite guint_of_column_int.
  - unfold dt_history_get_items. rewrite Hrows. cbn [negb orb].
    rewrite filter_all, length_map, length_rev. subst last. unfold select_last_entries.
    rewrite (Permutation_length (order_by_perm _ _)).
    rewrite <- (length_map h_key), group_by_keys.
    apply Permutation_length, order_by_perm.
  - intros h. subst last. unfold select_last_entries. rewrite order_by_In.
    split; [apply group_by_last|now apply last_group_by].
Qed.

(** X15: the text listing has one line for every history row of the image,
    not only for the last entry of each instance: it is never shorter than
    the item list, and an image without history rows gives no line and no
    item. *)
Theorem text_listing_has_every_row :
  forall db imgid enabled,
    List.length (history_lines localized label_on label_off db imgid)
    = List.length (history_of (main_history db) imgid)
    /\ (List.length (dt_history_get_items localized label_on label_off db imgid enabled)
        <= List.length (history_lines localized label_on label_off db imgid))%nat
    /\ (history_of (main_history db) imgid = [] ->
        history_lines localized label_on label_off db imgid = []
        /\ dt_history_get_items localized label_on label_off db imgid enabled = []).
Proof.
  intros db imgid enabled.
  assert (Hlines : List.length (history_lines localized label_on label_off db imgid)
                   = List.length (history_of (main_history db) imgid)).
  { unfold history_lines. rewrite length_map.
    apply Permutation_length, order_by_perm. }
  split; [exact Hlines|]. split.
  - rewrite Hlines. unfold dt_history_get_items, history_items_rows.
    rewrite length_map.
    eapply Nat.le_trans; [apply filter_length_le|].
    rewrite (Permutation_length (order_by_perm _ _)). apply filter_length_le.
  - intros E. unfold history_lines, dt_history_get_items, history_items_rows.
    rewrite E. split; reflexivity.
Qed.

End ListingFacts.

Section Loading.

Variable world : Type.
Variable dt_image_t : Type.
Variable dt_image_cache_get : Z -> world -> option dt_image_t * world.
Variable dt_exif_xmp_read : dt_image_t -> string -> Z -> world -> Z * world.
Variable dt_dev_is_current_image : Z -> world -> bool.
Variable dt_dev_reload_history_items : world -> world.
Variable dt_image_cache_write_release : dt_image_t -> world -> world.
Variable dt_mipmap_cache_remove : Z -> world -> world.
Variable selected_images : world -> list Z.

(** ** Loading a sidecar onto the selection *)

Notation load_and_apply :=
  (dt_history_load_and_apply world dt_image_t dt_image_cache_get dt_exif_xmp_read
     dt_dev_is_current_image dt_dev_reload_history_items
     dt_image_cache_write_release dt_mipmap_cache_remove).

Notation load_row :=
  (load_and_apply_row world dt_image_t dt_image_cache_get dt_exif_xmp_read
     dt_dev_is_current_image dt_dev_reload_history_items
     dt_image_cache_write_release dt_mipmap_cache_remove).

Notation load_and_apply_on_selection :=
  (dt_history_load_and_apply_on_selection world dt_image_t dt_image_cache_get
     dt_exif_xmp_read dt_dev_is_current_image dt_dev_reload_history_items
     dt_image_cache_write_release dt_mipmap_cache_remove selected_images).

Lemma load_and_apply_result : forall imgid filename history_only w,
  fst (load_and_apply imgid filename history_only w) = 0
  \/ fst (load_and_apply imgid filename history_only w) = 1.
Proof.
  intros imgid filename history_only w. unfold dt_history_load_and_apply.
  destruct (dt_image_cache_get imgid w) as [[img|] w1]; [|now left].
  destruct (dt_exif_xmp_read img filename history_only w1) as [failed w2].
  destruct (negb (failed =? 0)); [now right|now left].
Qed.

Lemma load_loop_result : forall filename rows res w,
  (res = 0 \/ res = 1) ->
  let r := fold_left (load_row filename) rows (res, w) in
  (fst r = 0 \/ fst r = 1)
  /\ (fst r = 1 <->
      res = 1
      \/ exists before row after,
           rows = before ++ row :: after
           /\ fst (load_and_apply (sqlite3_column_int row) filename 1
                     (snd (fold_left (load_row filename) before (res, w)))) <> 0).
Proof.
  intros filename rows. induction rows as [|row rows IH]; intros res w Hres r; subst r.
  - cbn [fold_left fst]. split; [assumption|]. split; [now left|].
    intros [H|(before & row & after & H & _)]; [assumption|].
    destruct before; discriminate.
  - cbn [fold_left].
    set (st1 := load_row filename (res, w) row).
    assert (Hst1 : st1 = (if negb (fst (load_and_apply (sqlite3_column_int row)
                                                       filename 1 w) =? 0)
                          then 1 else res,
                          snd (load_and_apply (sqlite3_column_int row) filename 1 w))).
    { subst st1. unfold load_and_apply_row. cbn [fst snd].
      now destruct (load_and_apply (sqlite3_column_int row) filename 1 w). }
    assert (Hres1 : fst st1 = 0 \/ fst st1 = 1).
    { rewrite Hst1. cbn [fst]. destruct (negb _); [now right|assumption]. }
    destruct st1 as [res1 w1] eqn:E1. cbn [fst] in Hres1.
    destruct (IH res1 w1 Hres1) as [Hr Hiff]. split; [exact Hr|].
    rewrite Hiff. clear Hiff Hr IH. injection Hst1 as Hres1' Hw1.
    split.
    + intros [H|(before & row' & after & Hrows & Hfail)].
      * rewrite Hres1' in H.
        destruct (Z.eqb_spec (fst (load_and_apply (sqlite3_column_int row) filename 1 w)) 0)
          as [E0|E0]; cbn [negb] in H; [now left|].
        right. exists [], row, rows. split; [reflexivity|]. exact E0.
      * right. exists (row :: before), row', after. split; [now rewrite Hrows|].
        cbn [fold_left]. fold st1. rewrite E1. exact Hfail.
    + intros [H|(before & row' & after & Hrows & Hfail)].
      * left. rewrite Hres1', H. now destruct (negb _).
      * destruct before as [|b before].
        -- injection Hrows as <- <-. cbn [fold_left snd] in Hfail.
           left. rewrite Hres1'. apply Z.eqb_neq in Hfail. now rewrite Hfail.
        -- injection Hrows as <- ->. right. exists before, row', after.
           split; [reflexivity|]. cbn [fold_left] in Hfail.
           fold st1 in Hfail. rewrite E1 in Hfail. exact Hfail.
Qed.

(** X16: [dt_history_load_and_apply_on_selection] returns 0 or 1, and 1
    exactly when the load failed on some selected image, on the world as
    the loop had left it for that image; a later success does not clear
    the result, and an empty selection gives 0 and an untouched world. *)
Theorem load_on_selection_reports_any_failure :
  forall filename w,
    let r := load_and_apply_on_selection filename w in
    (fst r = 0 \/ fst r = 1)
    /\ (fst r = 1 <->
        exists before row after,
          selected_images w = before ++ row :: after
          /\ fst (load_and_apply (sqlite3_column_int row) filename 1
                    (snd (fold_left (load_row filename) before (0, w)))) <> 0)
    /\ (selected_images w = [] -> r = (0, w)).
Proof.
  intros filename w r. subst r. unfold dt_history_load_and_apply_on_selection.
  destruct (load_loop_result filename (selected_images w) 0 w (or_introl eq_refl))
    as [Hr Hiff].
  split; [exact Hr|]. split.
  - rewrite Hiff. split; [|now right]. intros [H|H]; [discriminate|exact H].
  - intros E. now rewrite E.
Qed.

End Loading.

Section Merging.

Variable flag : Z.

(** ** Phase B as a whole *)

Lemma used_instance_flag : forall items n op mp,
  used_instance items op mp -> used_instance (flag_used items n) op mp.
Proof.
  intros items n op mp (s & Hs & Ho & Hp & Hn). exists s.
  split; [|auto]. unfold flag_used. apply in_map_iff. exists s.
  split; [|assumption].
  destruct (s_num s =? n); [|reflexivity].
  destruct s; simpl in *. now subst.
Qed.

End Merging.

Section Composing.

Variable flag : Z.

(** ** A paste followed by a replace or by a delete *)

Lemma delete_history_app : forall h1 h2 dest,
  delete_history (h1 ++ h2) dest = delete_history h1 dest ++ delete_history h2 dest.
Proof. intros. apply filter_app. Qed.

Lemma delete_history_twice : forall history dest,
  delete_history (delete_history history dest) dest = delete_history history dest.
Proof.
  intros history dest. unfold delete_history.
  induction history as [|h l IH]; simpl; [reflexivity|].
  destruct (h_imgid h =? dest) eqn:E; simpl; rewrite ?E; simpl; now rewrite IH.
Qed.

Lemma delete_mask_twice : forall mask dest,
  delete_mask (delete_mask mask dest) dest = delete_mask mask dest.
Proof.
  intros mask dest. unfold delete_mask.
  induction mask as [|h l IH]; simpl; [reflexivity|].
  destruct (m_imgid h =? dest) eqn:E; simpl; rewrite ?E; simpl; now rewrite IH.
Qed.

Lemma delete_history_pasted : forall dest offs items,
  delete_history (map (history_of_style dest offs) items) dest = [].
Proof.
  intros dest offs items. unfold delete_history.
  induction items as [|s items IH]; simpl; [reflexivity|].
  now rewrite Z.eqb_refl.
Qed.

Lemma delete_mask_copies : forall dest l,
  delete_mask (map (mask_for dest) l) dest = [].
Proof.
  intros dest l. unfold delete_mask.
  induction l as [|m l IH]; simpl; [reflexivity|]. now rewrite Z.eqb_refl.
Qed.

Lemma delete_mask_copy : forall mask dest imgid,
  delete_mask (copy_mask mask dest imgid) dest = delete_mask mask dest.
Proof.
  intros mask dest imgid. unfold copy_mask.
  change (map _ (filter _ mask)) with (map (mask_for dest) (mask_of mask imgid)).
  unfold delete_mask at 1. rewrite filter_app.
  fold (delete_mask mask dest).
  fold (delete_mask (map (mask_for dest) (mask_of mask imgid)) dest).
  now rewrite delete_mask_copies, app_nil_r.
Qed.

Lemma delete_history_map_fix : forall (f : history_row -> history_row) dest history,
  (forall h, h_imgid (f h) = h_imgid h) ->
  (forall h, h_imgid h <> dest -> f h = h) ->
  delete_history (map f history) dest = delete_history history dest.
Proof.
  intros f dest history Hid Hfix. unfold delete_history.
  induction history as [|h history IH]; simpl; [reflexivity|].
  rewrite Hid. destruct (Z.eqb_spec (h_imgid h) dest) as [E|E]; simpl.
  - exact IH.
  - rewrite Hfix by assumption. now rewrite IH.
Qed.

Lemma delete_history_shift : forall items dest op history,
  delete_history (shift_multi_priority items dest op history) dest
  = delete_history history dest.
Proof.
  intros items dest op history. unfold shift_multi_priority.
  apply delete_history_map_fix; intros h.
  - now destruct ((h_imgid h =? dest) && String.eqb (h_operation h) op).
  - intros Hne. apply Z.eqb_neq in Hne. now rewrite Hne.
Qed.

Lemma delete_history_update : forall history dest op old new,
  delete_history (update_multi_priority history dest op old new) dest
  = delete_history history dest.
Proof.
  intros history dest op old new. unfold update_multi_priority.
  apply delete_history_map_fix; intros h.
  - now destruct ((h_imgid h =? dest) && String.eqb (h_operation h) op
                  && (h_multi_priority h =? old)).
  - intros Hne. apply Z.eqb_neq in Hne. now rewrite Hne.
Qed.

Lemma delete_history_merge : forall iop db dest,
  delete_history
    (main_history (dt_history_rebuild_multi_priority_merge flag iop db dest)) dest
  = delete_history (main_history db) dest.
Proof.
  intros iop db dest. unfold dt_history_rebuild_multi_priority_merge. cbv zeta.
  cbn [main_history set_style_items set_history].
  assert (Hloop : forall groups st,
             delete_history (ms_history (fold_left (merge_row flag iop dest) groups st))
                            dest
             = delete_history (ms_history st) dest).
  { induction groups as [|g groups IH]; intros st; simpl; [reflexivity|].
    rewrite IH. unfold merge_row.
    destruct (one_instance flag iop (h_operation g)); [reflexivity|]. cbv zeta.
    match goal with |- context [if ?c then _ else _] => destruct c end;
      cbn [ms_history]; apply delete_history_update. }
  rewrite Hloop. cbn [merge_init ms_history].
  unfold _history_rebuild_multi_priority_append. cbn [main_history set_history].
  generalize (distinct_operations (map s_operation (memory_style_items db))).
  intros ops. generalize (main_history db).
  induction ops as [|o ops IH]; intros history; simpl; [reflexivity|].
  rewrite IH. destruct (one_instance flag iop o); [reflexivity|].
  apply delete_history_shift.
Qed.

Lemma delete_history_trim : forall history images dest,
  delete_history (trim_history history images dest) dest = delete_history history dest.
Proof.
  intros history images dest. unfold delete_history, trim_history.
  induction history as [|h history IH]; simpl; [reflexivity|].
  destruct (Z.eqb_spec (h_imgid h) dest) as [E|E]; simpl.
  - destruct (match history_end_of images (h_imgid h) with
              | Some e => e <=? h_num h
              | None => false
              end); simpl; [exact IH|].
    destruct (Z.eqb_spec (h_imgid h) dest); [|contradiction]. exact IH.
  - destruct (Z.eqb_spec (h_imgid h) dest); [contradiction|]. simpl. now rewrite IH.
Qed.

Lemma reset_update_history_end : forall images history dest,
  reset_history_end (update_history_end images history dest) dest
  = reset_history_end images dest.
Proof.
  intros images history dest. unfold reset_history_end, update_history_end.
  rewrite map_map. apply map_ext. intros i.
  destruct (i_id i =? dest) eqn:E; cbn [i_id]; now rewrite E.
Qed.

(** A paste changes only what belongs to the destination. *)
Lemma paste_same_outside : forall iop db imgid dest merge ops,
  same_outside dest
    (snd (dt_history_copy_and_paste_on_image flag iop db imgid dest merge ops)) db.
Proof.
  intros iop db imgid dest merge ops. unfold same_outside.
  destruct (Z.eq_dec imgid dest) as [->|Hne].
  { rewrite (copy_and_paste_same_image flag). auto. }
  destruct (Z.eq_dec imgid (-1)) as [->|Hsrc].
  { rewrite (copy_and_paste_no_source flag). auto. }
  destruct merge.
  - rewrite (paste_merge_db flag iop db imgid dest ops Hne Hsrc). cbv zeta.
    cbn [main_history main_mask main_images main_selected_images].
    set (db3 := _dt_history_cleanup_multi_instance flag iop (staged_db db imgid dest ops)).
    destruct (merge_frame flag iop db3 dest) as (_ & _ & _ & _ & C & D & E).
    destruct (cleanup_frame flag iop (staged_db db imgid dest ops))
      as (A' & _ & _ & C' & D' & E').
    fold db3 in A', C', D', E'.
    destruct (staged_db_tables db imgid dest ops) as (S1 & S2 & S3 & S4 & _).
    unfold paste_style_items.
    rewrite delete_history_app, delete_history_pasted, app_nil_r.
    rewrite delete_history_merge, A', S1, delete_history_trim.
    rewrite delete_mask_copy, D, D', S3.
    rewrite reset_update_history_end, C, C', S2.
    rewrite E, E', S4. auto.
  - rewrite (paste_replace_db flag iop db imgid dest ops Hne Hsrc). cbv zeta.
    cbn [main_history main_mask main_images main_selected_images].
    unfold paste_style_items.
    rewrite delete_history_app, delete_history_pasted, app_nil_r, delete_history_twice.
    rewrite delete_mask_copy, delete_mask_twice.
    rewrite reset_update_history_end. auto.
Qed.

Lemma update_history_end_outside : forall images1 images2 history dest,
  reset_history_end images1 dest = reset_history_end images2 dest ->
  update_history_end images1 history dest = update_history_end images2 history dest.
Proof.
  intros images1. unfold reset_history_end, update_history_end.
  induction images1 as [|i1 l1 IH]; intros [|i2 l2] history dest H;
    try discriminate; [reflexivity|].
  cbn [map] in *.
  assert (H1 : (if i_id i1 =? dest then mk_image (i_id i1) (Some 0) else i1)
               = (if i_id i2 =? dest then mk_image (i_id i2) (Some 0) else i2))
    by congruence.
  assert (H2 : map (fun i => if i_id i =? dest then mk_image (i_id i) (Some 0) else i) l1
               = map (fun i => if i_id i =? dest then mk_image (i_id i) (Some 0) else i) l2)
    by congruence.
  rewrite (IH l2 history dest H2). f_equal.
  destruct (Z.eqb_spec (i_id i1) dest) as [E1|E1];
    destruct (Z.eqb_spec (i_id i2) dest) as [E2|E2].
  - congruence.
  - exfalso. apply E2. rewrite <- H1. simpl. exact E1.
  - exfalso. apply E1. rewrite H1. simpl. exact E2.
  - exact H1.
Qed.

Lemma select_entries_outside : forall history1 history2 imgid dest ops,
  imgid <> dest ->
  delete_history history1 dest = delete_history history2 dest ->
  staged_rows (delete_history history1 dest) imgid false ops
  = staged_rows (delete_history history2 dest) imgid false ops.
Proof. intros history1 history2 imgid dest ops _ H. now rewrite H. Qed.

Lemma paste_fst : forall iop db imgid dest merge ops,
  imgid <> dest -> imgid <> -1 ->
  fst (dt_history_copy_and_paste_on_image flag iop db imgid dest merge ops) = 0.
Proof.
  intros iop db imgid dest merge ops Hne Hsrc.
  unfold dt_history_copy_and_paste_on_image.
  apply Z.eqb_neq in Hne. apply Z.eqb_neq in Hsrc. rewrite Hne, Hsrc.
  now destruct merge.
Qed.

Lemma paste_replace_outside : forall iop db1 db2 imgid dest ops,
  imgid <> dest -> imgid <> -1 ->
  same_outside dest db1 db2 ->
  dt_history_copy_and_paste_on_image flag iop db1 imgid dest false ops
  = dt_history_copy_and_paste_on_image flag iop db2 imgid dest false ops.
Proof.
  intros iop db1 db2 imgid dest ops Hne Hsrc (Hh & Hm & Hi & Hs).
  rewrite (surjective_pairing
             (dt_history_copy_and_paste_on_image flag iop db1 imgid dest false ops)).
  rewrite (surjective_pairing
             (dt_history_copy_and_paste_on_image flag iop db2 imgid dest false ops)).
  rewrite !paste_fst by assumption.
  rewrite !paste_replace_db by assumption. cbv zeta.
  rewrite Hh, Hm, Hs.
  now rewrite (update_history_end_outside _ _ _ _ Hi).
Qed.

(** X18: a paste in replace mode forgets what an earlier paste onto the same
    destination has done: after any paste onto the destination, in merge or
    replace mode and from any source, a replace gives the result and the
    tables it gives on its own.  Pasting the same source twice in replace
    mode is pasting it once. *)
Theorem replace_forgets_earlier_paste :
  forall iop db first merge first_ops imgid dest_imgid ops,
    imgid <> dest_imgid ->
    imgid <> -1 ->
    dt_history_copy_and_paste_on_image flag iop
      (snd (dt_history_copy_and_paste_on_image flag iop db first dest_imgid
                                               merge first_ops))
      imgid dest_imgid false ops
    = dt_history_copy_and_paste_on_image flag iop db imgid dest_imgid false ops.
Proof.
  intros iop db first merge first_ops imgid dest ops Hne Hsrc.
  apply paste_replace_outside; try assumption.
  apply paste_same_outside.
Qed.

(** X19: deleting the history of the destination after a paste leaves the
    history, image and mask tables and the selection as a delete without
    the paste does: a paste puts nothing outside the rows of the
    destination that the delete removes. *)
Theorem delete_undoes_paste :
  forall iop db imgid dest_imgid merge ops,
    let pasted := snd (dt_history_copy_and_paste_on_image flag iop db imgid dest_imgid
                                                          merge ops) in
    main_history (dt_history_delete_on_image pasted dest_imgid)
    = main_history (dt_history_delete_on_image db dest_imgid)
    /\ main_images (dt_history_delete_on_image pasted dest_imgid)
       = main_images (dt_history_delete_on_image db dest_imgid)
    /\ main_mask (dt_history_delete_on_image pasted dest_imgid)
       = main_mask (dt_history_delete_on_image db dest_imgid)
    /\ main_selected_images (dt_history_delete_on_image pasted dest_imgid)
       = main_selected_images (dt_history_delete_on_image db dest_imgid).
Proof.
  intros iop db imgid dest merge ops pasted.
  destruct (paste_same_outside iop db imgid dest merge ops) as (Hh & Hm & Hi & Hs).
  fold pasted in Hh, Hm, Hi, Hs.
  unfold dt_history_delete_on_image.
  cbn [main_history main_mask main_images main_selected_images
       set_history set_images set_mask].
  auto.
Qed.

End Composing.

Section Restricting.

Variable flag : Z.

(** ** A paste reads and writes the two images only *)

Lemma filter_map_fix : forall {A : Type} (p : A -> bool) (f : A -> A) l,
  (forall x, p (f x) = p x) ->
  filter p (map f l) = map f (filter p l).
Proof.
  intros A p f l H. induction l as [|x l IH]; simpl; [reflexivity|].
  rewrite H. destruct (p x); simpl; now rewrite IH.
Qed.

Lemma filter_comm : forall {A : Type} (p q : A -> bool) l,
  filter p (filter q l) = filter q (filter p l).
Proof.
  intros A p q l. induction l as [|x l IH]; simpl; [reflexivity|].
  destruct (p x) eqn:Ep, (q x) eqn:Eq; simpl; rewrite ?Ep, ?Eq; now rewrite IH.
Qed.

Lemma filter_filter_implied : forall {A : Type} (p q : A -> bool) l,
  (forall x, p x = true -> q x = true) ->
  filter p (filter q l) = filter p l.
Proof.
  intros A p q l H. induction l as [|x l IH]; simpl; [reflexivity|].
  destruct (q x) eqn:Eq; simpl.
  - destruct (p x); now rewrite IH.
  - destruct (p x) eqn:Ep; [|exact IH]. apply H in Ep. congruence.
Qed.

Lemma of_pair_left : forall a b, of_pair a b a = true.
Proof. intros. unfold of_pair. now rewrite Z.eqb_refl. Qed.

Lemma of_pair_right : forall a b, of_pair a b b = true.
Proof. intros. unfold of_pair. now rewrite Z.eqb_refl, orb_true_r. Qed.

Lemma history_of_restricted : forall a b history j,
  of_pair a b j = true ->
  history_of (filter (fun h => of_pair a b (h_imgid h)) history) j
  = history_of history j.
Proof.
  intros a b history j Hj. unfold history_of. apply filter_filter_implied.
  intros h E. apply Z.eqb_eq in E. now rewrite E.
Qed.

Lemma mask_of_restricted : forall a b mask j,
  of_pair a b j = true ->
  mask_of (filter (fun m => of_pair a b (m_imgid m)) mask) j = mask_of mask j.
Proof.
  intros a b mask j Hj. unfold mask_of. apply filter_filter_implied.
  intros h E. apply Z.eqb_eq in E. now rewrite E.
Qed.

Lemma history_end_of_restricted : forall images b,
  history_end_of (filter (fun i => i_id i =? b) images) b = history_end_of images b.
Proof.
  intros images b. unfold history_end_of.
  induction images as [|i images IH]; simpl; [reflexivity|].
  destruct (i_id i =? b) eqn:E; simpl; rewrite ?E; [reflexivity|exact IH].
Qed.

Lemma trim_history_restricted : forall a b history images,
  trim_history (filter (fun h => of_pair a b (h_imgid h)) history)
               (filter (fun i => i_id i =? b) images) b
  = filter (fun h => of_pair a b (h_imgid h)) (trim_history history images b).
Proof.
  intros a b history images. unfold trim_history.
  rewrite filter_comm. f_equal. apply filter_ext. intros h.
  destruct (Z.eqb_spec (h_imgid h) b) as [E|E]; [|reflexivity].
  now rewrite E, history_end_of_restricted.
Qed.

Lemma staged_rows_restricted : forall a b history merge ops,
  staged_rows (filter (fun h => of_pair a b (h_imgid h)) history) a merge ops
  = staged_rows history a merge ops.
Proof.
  intros a b history merge ops.
  unfold staged_rows, select_last_entries, select_entries.
  now rewrite history_of_restricted by apply of_pair_left.
Qed.

Lemma next_num_restricted : forall a b history,
  next_num (filter (fun h => of_pair a b (h_imgid h)) history) b = next_num history b.
Proof.
  intros. unfold next_num. now rewrite history_of_restricted by apply of_pair_right.
Qed.

Lemma staged_db_restricted : forall a b db ops,
  staged_db (restrict a b db) a b ops = restrict a b (staged_db db a b ops).
Proof.
  intros a b db ops. unfold staged_db, restrict. cbv zeta.
  cbn [main_history main_images main_mask main_selected_images memory_style_items
       set_history set_style_items].
  now rewrite trim_history_restricted, staged_rows_restricted.
Qed.

Lemma cleanup_restricted : forall iop a b db,
  _dt_history_cleanup_multi_instance flag iop (restrict a b db)
  = restrict a b (_dt_history_cleanup_multi_instance flag iop db).
Proof.
  intros iop a b db. unfold _dt_history_cleanup_multi_instance.
  cbn [restrict memory_style_items].
  destruct (cleanup_renumber _ _ _ _) as [hitems nb].
  destruct (nb =? 0); reflexivity.
Qed.

Lemma shift_restricted : forall a b items dest op history,
  shift_multi_priority items dest op (filter (fun h => of_pair a b (h_imgid h)) history)
  = filter (fun h => of_pair a b (h_imgid h))
           (shift_multi_priority items dest op history).
Proof.
  intros a b items dest op history. unfold shift_multi_priority.
  symmetry. apply filter_map_fix. intros h.
  now destruct ((h_imgid h =? dest) && String.eqb (h_operation h) op).
Qed.

Lemma update_restricted : forall a b history dest op old new,
  update_multi_priority (filter (fun h => of_pair a b (h_imgid h)) history)
                        dest op old new
  = filter (fun h => of_pair a b (h_imgid h))
           (update_multi_priority history dest op old new).
Proof.
  intros a b history dest op old new. unfold update_multi_priority.
  symmetry. apply filter_map_fix. intros h.
  now destruct ((h_imgid h =? dest) && String.eqb (h_operation h) op
                && (h_multi_priority h =? old)).
Qed.

Lemma append_loop_restricted : forall iop a b items ops history,
  fold_left
    (fun history op_old =>
       if one_instance flag iop op_old then history
       else shift_multi_priority items b op_old history)
    ops (filter (fun h => of_pair a b (h_imgid h)) history)
  = filter (fun h => of_pair a b (h_imgid h))
      (fold_left
         (fun history op_old =>
            if one_instance flag iop op_old then history
            else shift_multi_priority items b op_old history)
         ops history).
Proof.
  intros iop a b items ops. induction ops as [|o ops IH]; intros history; simpl;
    [reflexivity|].
  destruct (one_instance flag iop o); [apply IH|].
  rewrite shift_restricted. apply IH.
Qed.

Lemma append_restricted : forall iop a b db,
  _history_rebuild_multi_priority_append flag iop (restrict a b db) b
  = restrict a b (_history_rebuild_multi_priority_append flag iop db b).
Proof.
  intros iop a b db. unfold _history_rebuild_multi_priority_append, restrict.
  cbn [main_history main_images main_mask main_selected_images memory_style_items
       set_history].
  now rewrite append_loop_restricted.
Qed.

Lemma merge_groups_restricted : forall a b history items,
  merge_groups (filter (fun h => of_pair a b (h_imgid h)) history) items b
  = merge_groups history items b.
Proof.
  intros a b history items. unfold merge_groups. f_equal.
  apply filter_filter_implied. intros h E.
  apply andb_prop in E. destruct E as [E _]. apply Z.eqb_eq in E.
  rewrite E. apply of_pair_right.
Qed.

Lemma merge_row_restricted : forall iop a b st g,
  merge_row flag iop b
    (mk_merge_state (filter (fun h => of_pair a b (h_imgid h)) (ms_history st))
                    (ms_style_items st) (operation_prev st) (multi_priority_next st))
    g
  = let st' := merge_row flag iop b st g in
    mk_merge_state (filter (fun h => of_pair a b (h_imgid h)) (ms_history st'))
                   (ms_style_items st') (operation_prev st') (multi_priority_next st').
Proof.
  intros iop a b st g. unfold merge_row.
  cbn [ms_history ms_style_items operation_prev multi_priority_next].
  destruct (one_instance flag iop (h_operation g)); [reflexivity|]. cbv zeta.
  match goal with |- context [if 0 <=? ?c then _ else _] => destruct (0 <=? c) end;
    cbn [ms_history ms_style_items operation_prev multi_priority_next];
    now rewrite update_restricted.
Qed.

Lemma merge_loop_restricted : forall iop a b groups st,
  fold_left (merge_row flag iop b) groups
    (mk_merge_state (filter (fun h => of_pair a b (h_imgid h)) (ms_history st))
                    (ms_style_items st) (operation_prev st) (multi_priority_next st))
  = let st' := fold_left (merge_row flag iop b) groups st in
    mk_merge_state (filter (fun h => of_pair a b (h_imgid h)) (ms_history st'))
                   (ms_style_items st') (operation_prev st') (multi_priority_next st').
Proof.
  intros iop a b groups. induction groups as [|g groups IH]; intros st; simpl;
    [reflexivity|].
  rewrite merge_row_restricted. cbv zeta. apply IH.
Qed.

Lemma merge_restricted : forall iop a b db,
  dt_history_rebuild_multi_priority_merge flag iop (restrict a b db) b
  = restrict a b (dt_history_rebuild_multi_priority_merge flag iop db b).
Proof.
  intros iop a b db. unfold dt_history_rebuild_multi_priority_merge. cbv zeta.
  rewrite append_restricted.
  set (db1 := _history_rebuild_multi_priority_append flag iop db b).
  cbn [restrict main_history memory_style_items].
  rewrite merge_groups_restricted.
  change (merge_init (restrict a b db1))
    with (mk_merge_state
            (filter (fun h => of_pair a b (h_imgid h)) (ms_history (merge_init db1)))
            (ms_style_items (merge_init db1)) (operation_prev (merge_init db1))
            (multi_priority_next (merge_init db1))).
  rewrite merge_loop_restricted. cbv zeta.
  reflexivity.
Qed.

Lemma pasted_restricted : forall a b offs items,
  filter (fun h => of_pair a b (h_imgid h)) (map (history_of_style b offs) items)
  = map (history_of_style b offs) items.
Proof.
  intros a b offs items. induction items as [|s items IH]; simpl; [reflexivity|].
  now rewrite of_pair_right, IH.
Qed.

Lemma update_history_end_restricted : forall a b images history,
  update_history_end (filter (fun i => i_id i =? b) images)
                     (filter (fun h => of_pair a b (h_imgid h)) history) b
  = filter (fun i => i_id i =? b) (update_history_end images history b).
Proof.
  intros a b images history. unfold update_history_end.
  rewrite history_of_restricted by apply of_pair_right.
  symmetry. apply filter_map_fix. intros i.
  destruct (i_id i =? b) eqn:E; cbn [i_id]; now rewrite ?E.
Qed.

Lemma copy_mask_restricted : forall a b mask,
  copy_mask (filter (fun m => of_pair a b (m_imgid m)) mask) b a
  = filter (fun m => of_pair a b (m_imgid m)) (copy_mask mask b a).
Proof.
  intros a b mask. unfold copy_mask. rewrite filter_app. f_equal.
  rewrite (filter_filter_implied (fun m => m_imgid m =? a)
                                 (fun m => of_pair a b (m_imgid m))).
  2:{ intros m E. apply Z.eqb_eq in E. rewrite E. apply of_pair_left. }
  induction (filter (fun m => m_imgid m =? a) mask) as [|m l IH]; simpl; [reflexivity|].
  now rewrite of_pair_right, <- IH.
Qed.

(** The restriction to the two images commutes with the paste. *)
Lemma paste_restricted : forall iop db a b merge ops,
  snd (dt_history_copy_and_paste_on_image flag iop (restrict a b db) a b merge ops)
  = restrict a b (snd (dt_history_copy_and_paste_on_image flag iop db a b merge ops)).
Proof.
  intros iop db a b merge ops.
  destruct (Z.eq_dec a b) as [->|Hne].
  { now rewrite !(copy_and_paste_same_image flag). }
  destruct (Z.eq_dec a (-1)) as [->|Hsrc].
  { now rewrite !(copy_and_paste_no_source flag). }
  destruct merge.
  - rewrite !(paste_merge_db flag) by assumption. cbv zeta.
    rewrite staged_db_restricted, cleanup_restricted, merge_restricted.
    set (db4 := dt_history_rebuild_multi_priority_merge flag iop _ b).
    cbn [restrict main_history main_images main_mask main_selected_images
         memory_style_items].
    rewrite trim_history_restricted, next_num_restricted.
    unfold paste_style_items, restrict.
    cbn [main_history main_images main_mask main_selected_images memory_style_items].
    set (pasted := map (history_of_style b _) (memory_style_items db4)).
    assert (E : filter (fun h => of_pair a b (h_imgid h)) (main_history db4) ++ pasted
                = filter (fun h => of_pair a b (h_imgid h)) (main_history db4 ++ pasted))
      by (rewrite filter_app; unfold pasted; now rewrite pasted_restricted).
    rewrite E, update_history_end_restricted, copy_mask_restricted.
    reflexivity.
  - rewrite !(paste_replace_db flag) by assumption. cbv zeta.
    cbn [restrict main_history main_images main_mask main_selected_images
         memory_style_items].
    assert (Hd : delete_history (filter (fun h => of_pair a b (h_imgid h)) (main_history db)) b
                 = filter (fun h => of_pair a b (h_imgid h))
                          (delete_history (main_history db) b))
      by apply filter_comm.
    assert (Hm : delete_mask (filter (fun m => of_pair a b (m_imgid m)) (main_mask db)) b
                 = filter (fun m => of_pair a b (m_imgid m))
                          (delete_mask (main_mask db) b))
      by apply filter_comm.
    rewrite Hd, Hm, staged_rows_restricted.
    unfold paste_style_items, restrict.
    cbn [main_history main_images main_mask main_selected_images memory_style_items].
    set (history := delete_history (main_history db) b).
    set (pasted := map (history_of_style b 0) _).
    assert (E : filter (fun h => of_pair a b (h_imgid h)) history ++ pasted
                = filter (fun h => of_pair a b (h_imgid h)) (history ++ pasted))
      by (rewrite filter_app; unfold pasted; now rewrite pasted_restricted).
    rewrite E, update_history_end_restricted, copy_mask_restricted.
    reflexivity.
Qed.

End Restricting.

Section Batch.

Variable flag : Z.

(** ** The batch, image by image *)

Lemma main_part_views : forall a b db1 db2,
  main_part a b db1 = main_part a b db2 ->
  history_of (main_history db1) b = history_of (main_history db2) b
  /\ mask_of (main_mask db1) b = mask_of (main_mask db2) b
  /\ history_end_of (main_images db1) b = history_end_of (main_images db2) b.
Proof.
  intros a b db1 db2 H.
  assert (Hh : main_history (main_part a b db1) = main_history (main_part a b db2))
    by now rewrite H.
  assert (Hm : main_mask (main_part a b db1) = main_mask (main_part a b db2))
    by now rewrite H.
  assert (Hi : main_images (main_part a b db1) = main_images (main_part a b db2))
    by now rewrite H.
  cbn [main_part restrict set_style_items main_history main_mask main_images] in Hh, Hm, Hi.
  split; [|split].
  - rewrite <- (history_of_restricted a b (main_history db1) b (of_pair_right a b)).
    rewrite <- (history_of_restricted a b (main_history db2) b (of_pair_right a b)).
    now rewrite Hh.
  - rewrite <- (mask_of_restricted a b (main_mask db1) b (of_pair_right a b)).
    rewrite <- (mask_of_restricted a b (main_mask db2) b (of_pair_right a b)).
    now rewrite Hm.
  - rewrite <- (history_end_of_restricted (main_images db1) b).
    rewrite <- (history_end_of_restricted (main_images db2) b).
    now rewrite Hi.
Qed.

Lemma paste_main_part : forall iop db1 db2 a b merge ops,
  a <> b -> a <> -1 ->
  main_part a b db1 = main_part a b db2 ->
  main_part a b (snd (dt_history_copy_and_paste_on_image flag iop db1 a b merge ops))
  = main_part a b (snd (dt_history_copy_and_paste_on_image flag iop db2 a b merge ops)).
Proof.
  intros iop db1 db2 a b merge ops Hne Hsrc H. unfold main_part.
  rewrite <- !(paste_restricted flag).
  rewrite <- (paste_from_empty_staging flag iop (restrict a b db1) a b merge ops []
                                      Hne Hsrc).
  rewrite <- (paste_from_empty_staging flag iop (restrict a b db2) a b merge ops []
                                      Hne Hsrc).
  fold (main_part a b db1). fold (main_part a b db2). now rewrite H.
Qed.

Lemma filter_implied_delete_history : forall a b d history,
  a <> d -> b <> d ->
  filter (fun h => of_pair a b (h_imgid h)) (delete_history history d)
  = filter (fun h => of_pair a b (h_imgid h)) history.
Proof.
  intros a b d history Ha Hb. unfold delete_history.
  apply filter_filter_implied. intros h E. unfold of_pair in E.
  apply orb_prop in E. apply negb_true_iff, Z.eqb_neq.
  destruct E as [E|E]; apply Z.eqb_eq in E; congruence.
Qed.

Lemma filter_implied_delete_mask : forall a b d mask,
  a <> d -> b <> d ->
  filter (fun m => of_pair a b (m_imgid m)) (delete_mask mask d)
  = filter (fun m => of_pair a b (m_imgid m)) mask.
Proof.
  intros a b d mask Ha Hb. unfold delete_mask.
  apply filter_filter_implied. intros h E. unfold of_pair in E.
  apply orb_prop in E. apply negb_true_iff, Z.eqb_neq.
  destruct E as [E|E]; apply Z.eqb_eq in E; congruence.
Qed.

Lemma filter_reset_history_end : forall b d images,
  b <> d ->
  filter (fun i => i_id i =? b) (reset_history_end images d)
  = filter (fun i => i_id i =? b) images.
Proof.
  intros b d images Hb. unfold reset_history_end.
  induction images as [|i images IH]; simpl; [reflexivity|].
  destruct (Z.eqb_spec (i_id i) d) as [E|E]; cbn [i_id].
  - destruct (Z.eqb_spec (i_id i) b); [congruence|exact IH].
  - destruct (i_id i =? b); now rewrite IH.
Qed.

Lemma main_part_outside : forall a b d db1 db2,
  a <> d -> b <> d ->
  same_outside d db1 db2 ->
  main_part a b db1 = main_part a b db2.
Proof.
  intros a b d db1 db2 Ha Hb (Hh & Hm & Hi & Hs).
  unfold main_part, restrict, set_style_items.
  cbn [main_history main_images main_mask main_selected_images memory_style_items].
  rewrite <- (filter_implied_delete_history a b d (main_history db1) Ha Hb).
  rewrite <- (filter_implied_delete_history a b d (main_history db2) Ha Hb).
  rewrite <- (filter_implied_delete_mask a b d (main_mask db1) Ha Hb).
  rewrite <- (filter_implied_delete_mask a b d (main_mask db2) Ha Hb).
  rewrite <- (filter_reset_history_end b d (main_images db1) Hb).
  rewrite <- (filter_reset_history_end b d (main_images db2) Hb).
  now rewrite Hh, Hm, Hi, Hs.
Qed.

Lemma paste_elsewhere : forall iop db a b d merge ops,
  a <> d -> b <> d ->
  main_part a b (snd (dt_history_copy_and_paste_on_image flag iop db a d merge ops))
  = main_part a b db.
Proof.
  intros iop db a b d merge ops Ha Hb.
  apply (main_part_outside a b d); try assumption.
  apply (paste_same_outside flag).
Qed.

Lemma batch_elsewhere : forall iop a b merge ops rows db,
  (forall r, In r rows -> sqlite3_column_int r <> a /\ sqlite3_column_int r <> b) ->
  main_part a b (paste_on_rows flag iop a merge ops rows db) = main_part a b db.
Proof.
  intros iop a b merge ops rows. unfold paste_on_rows.
  induction rows as [|r rows IH]; intros db H; [reflexivity|].
  cbn [fold_left]. rewrite IH by (intros r' Hr'; apply H; now right).
  destruct (H r (or_introl eq_refl)) as [Ha Hb].
  apply paste_elsewhere; congruence.
Qed.

Lemma batch_each : forall iop a merge ops rows db b,
  a <> -1 ->
  NoDup rows ->
  (forall r, In r rows -> sqlite3_column_int r = r /\ r <> a) ->
  In b rows ->
  main_part a b (paste_on_rows flag iop a merge ops rows db)
  = main_part a b (snd (dt_history_copy_and_paste_on_image flag iop db a b merge ops)).
Proof.
  intros iop a merge ops rows. induction rows as [|r rows IH];
    intros db b Hsrc Hnd Hrows Hb; [contradiction|].
  inversion Hnd as [|? ? Hnotin Hnd']; subst.
  destruct (Hrows r (or_introl eq_refl)) as [Hr Hra].
  change (paste_on_rows flag iop a merge ops (r :: rows) db)
    with (paste_on_rows flag iop a merge ops rows
            (snd (dt_history_copy_and_paste_on_image flag iop db a
                                                     (sqlite3_column_int r) merge ops))).
  rewrite Hr.
  set (db1 := snd (dt_history_copy_and_paste_on_image flag iop db a r merge ops)).
  destruct Hb as [<-|Hb].
  - apply batch_elsewhere. intros r' Hr'.
    destruct (Hrows r' (or_intror Hr')) as [E Hne]. rewrite E.
    split; [assumption|]. intros ->. contradiction.
  - assert (Hbr : b <> r) by (intros ->; contradiction).
    destruct (Hrows b (or_intror Hb)) as [_ Hba].
    rewrite (IH db1 b Hsrc Hnd') by (auto; intros r' Hr'; apply Hrows; now right).
    apply paste_main_part; [congruence|assumption|].
    apply paste_elsewhere; congruence.
Qed.

Lemma batch_frame : forall iop a merge ops rows db j,
  (forall r, In r rows -> sqlite3_column_int r <> j) ->
  history_of (main_history (paste_on_rows flag iop a merge ops rows db)) j
  = history_of (main_history db) j
  /\ mask_of (main_mask (paste_on_rows flag iop a merge ops rows db)) j
     = mask_of (main_mask db) j
  /\ history_end_of (main_images (paste_on_rows flag iop a merge ops rows db)) j
     = history_end_of (main_images db) j.
Proof.
  intros iop a merge ops rows. unfold paste_on_rows.
  induction rows as [|r rows IH]; intros db j H; [auto|].
  cbn [fold_left].
  destruct (IH (snd (dt_history_copy_and_paste_on_image flag iop db a
                                                        (sqlite3_column_int r) merge ops))
               j (fun r' Hr' => H r' (or_intror Hr'))) as (A & B & C).
  assert (Hj : j <> sqlite3_column_int r)
    by (intros E; apply (H r (or_introl eq_refl)); now symmetry).
  destruct (paste_frame flag iop db a (sqlite3_column_int r) merge ops j Hj)
    as (A' & B' & C').
  rewrite A, B, C. auto.
Qed.

Lemma batch_tables : forall iop db imgid merge ops,
  0 <= imgid ->
  snd (dt_history_copy_and_paste_on_selection flag iop db imgid merge ops)
  = paste_on_rows flag iop imgid merge ops
                  (other_selected (main_selected_images db) imgid) db.
Proof.
  intros iop db imgid merge ops Hpos. unfold dt_history_copy_and_paste_on_selection.
  destruct (Z.ltb_spec imgid 0); [lia|].
  now destruct (other_selected (main_selected_images db) imgid).
Qed.

(** X20: the batch gives every selected image what a paste onto that image
    alone gives it: when the selected ids are distinct and fit an [int],
    the history, the masks and the [history_end] of each selected image
    other than the source are after the batch what a single
    [dt_history_copy_and_paste_on_image] on the tables before the batch
    leaves, whatever the order of the selection; images that are not
    selected, and the source, keep theirs. *)
Theorem batch_gives_each_image_its_own_paste :
  forall iop db imgid merge ops,
    0 <= imgid ->
    NoDup (main_selected_images db) ->
    (forall row, In row (main_selected_images db) ->
                 -2147483648 <= row <= 2147483647) ->
    let others := other_selected (main_selected_images db) imgid in
    let db' := snd (dt_history_copy_and_paste_on_selection flag iop db imgid
                                                           merge ops) in
    (forall dest_imgid,
        In dest_imgid others ->
        let alone := snd (dt_history_copy_and_paste_on_image flag iop db imgid
                                                             dest_imgid merge ops) in
        history_of (main_history db') dest_imgid
        = history_of (main_history alone) dest_imgid
        /\ mask_of (main_mask db') dest_imgid = mask_of (main_mask alone) dest_imgid
        /\ history_end_of (main_images db') dest_imgid
           = history_end_of (main_images alone) dest_imgid)
    /\ (forall j,
           ~ In j others ->
           history_of (main_history db') j = history_of (main_history db) j
           /\ mask_of (main_mask db') j = mask_of (main_mask db) j
           /\ history_end_of (main_images db') j = history_end_of (main_images db) j).
Proof.
  intros iop db imgid merge ops Hpos Hnd Hrange others db'. subst db'.
  rewrite batch_tables by assumption. fold others.
  assert (Hothers : forall r, In r others -> sqlite3_column_int r = r /\ r <> imgid).
  { intros r Hr. apply other_selected_In in Hr. destruct Hr as [Hr Hne].
    split; [|assumption]. apply sqlite3_column_int_small. now apply Hrange. }
  split.
  - intros b Hb alone. apply (main_part_views imgid b).
    apply batch_each; try assumption; [lia|].
    unfold others, other_selected. now apply NoDup_filter.
  - intros j Hj. apply batch_frame. intros r Hr E.
    apply Hj. destruct (Hothers r Hr) as [E' _]. now rewrite <- E, E'.
Qed.

End Batch.

Section Request.

(** ** The request buffer *)

Lemma string_length_app : forall a b : string,
  String.length (a ++ b) = (String.length a + String.length b)%nat.
Proof. induction a as [|c a IH]; intros b; simpl; [reflexivity|now rewrite IH]. Qed.

Lemma string_app_nil : forall a : string, (a ++ "")%string = a.
Proof. induction a as [|c a IH]; simpl; [reflexivity|now rewrite IH]. Qed.

Lemma string_app_assoc : forall a b c : string,
  ((a ++ b) ++ c)%string = (a ++ (b ++ c))%string.
Proof. induction a as [|x a IH]; intros b c; simpl; [reflexivity|now rewrite IH]. Qed.

Lemma g_strlcat_fits : forall dst src,
  (String.length dst + String.length src <= 2047)%nat ->
  g_strlcat dst src 2048 = (dst ++ src)%string.
Proof.
  intros dst src H. unfold g_strlcat. apply substring_short.
  rewrite string_length_app. simpl. lia.
Qed.

Lemma top_nonzero_double : forall d,
  (top_nonzero d = true -> top_nonzero (Decimal.Little.double d) = true)
  /\ (d = Decimal.Nil \/ top_nonzero d = true ->
      top_nonzero (Decimal.Little.succ_double d) = true).
Proof.
  induction d as [|d IH|d IH|d IH|d IH|d IH|d IH|d IH|d IH|d IH|d IH];
    (split; [intros H|intros [H|H]]); try discriminate; try reflexivity;
    destruct IH as [IH1 IH2]; cbn [Decimal.Little.double Decimal.Little.succ_double];
    destruct d; cbn [top_nonzero] in *; try reflexivity; try discriminate;
    try (apply IH1; assumption); try (apply IH2; right; assumption);
    try (apply IH2; now left).
Qed.

Lemma top_nonzero_to_little_uint : forall p, top_nonzero (Pos.to_little_uint p) = true.
Proof.
  induction p as [p IH|p IH|]; simpl.
  - apply top_nonzero_double. now right.
  - now apply top_nonzero_double.
  - reflexivity.
Qed.

Lemma top_nonzero_bound : forall d,
  top_nonzero d = true ->
  (10 ^ N.of_nat (Decimal.nb_digits d) <= 10 * DecimalPos.Unsigned.of_lu d)%N.
Proof.
  induction d as [|d IH|d IH|d IH|d IH|d IH|d IH|d IH|d IH|d IH|d IH];
    intros H; try discriminate;
    cbn [Decimal.nb_digits DecimalPos.Unsigned.of_lu];
    rewrite Nnat.Nat2N.inj_succ, N.pow_succ_r';
    destruct d; cbn [top_nonzero] in H; try discriminate;
    try (cbn; lia);
    specialize (IH H); lia.
Qed.

Lemma string_of_uint_length : forall d,
  String.length (NilEmpty.string_of_uint d) = Decimal.nb_digits d.
Proof.
  induction d; simpl; try reflexivity; now rewrite IHd.
Qed.

Lemma pos_digits : forall p,
  (Npos p < 4294967296)%N -> (Decimal.nb_digits (Pos.to_uint p) <= 10)%nat.
Proof.
  intros p Hp. unfold Pos.to_uint. rewrite DecimalFacts.nb_digits_rev.
  pose proof (top_nonzero_bound _ (top_nonzero_to_little_uint p)) as Hb.
  assert (Hv : DecimalPos.Unsigned.of_lu (Pos.to_little_uint p) = Npos p).
  { rewrite <- (DecimalPos.Unsigned.of_to p). unfold Pos.to_uint.
    now rewrite DecimalPos.Unsigned.of_uint_alt, DecimalFacts.rev_rev. }
  rewrite Hv in Hb.
  destruct (Nat.le_gt_cases (Decimal.nb_digits (Pos.to_little_uint p)) 10) as [H|H];
    [assumption|exfalso].
  assert (Hpow : (10 ^ 11 <= 10 ^ N.of_nat (Decimal.nb_digits (Pos.to_little_uint p)))%N).
  { apply N.pow_le_mono_r; lia. }
  change (10 ^ 11)%N with 100000000000%N in Hpow. lia.
Qed.

Lemma snprintf_u_length : forall value,
  0 <= value < 4294967296 -> (String.length (snprintf_u value) <= 10)%nat.
Proof.
  intros value Hv. unfold snprintf_u.
  destruct (Z.to_N value) as [|p] eqn:E; [simpl; lia|].
  cbn [N.to_uint].
  assert (Hp : (Npos p < 4294967296)%N) by (rewrite <- E; lia).
  pose proof (pos_digits p Hp) as Hd.
  pose proof (DecimalPos.Unsigned.to_uint_nonnil p) as Hn.
  unfold NilZero.string_of_uint.
  destruct (Pos.to_uint p) eqn:Eu; try contradiction;
    rewrite string_of_uint_length; exact Hd.
Qed.

Lemma req_values_fits : forall l first req,
  (String.length req + 11 * List.length l <= 2047)%nat ->
  exists tail,
    req_values l first req = (req ++ tail)%string
    /\ (String.length tail <= 11 * List.length l)%nat.
Proof.
  induction l as [|p l IH]; intros first req H.
  - exists ""%string. split; [|simpl; lia]. simpl. now rewrite string_app_nil.
  - cbn [req_values List.length] in *.
    assert (Hd : (String.length (snprintf_u (GPOINTER_TO_UINT p)) <= 10)%nat).
    { apply snprintf_u_length. unfold GPOINTER_TO_UINT.
      apply Z.mod_pos_bound. lia. }
    set (v := snprintf_u (GPOINTER_TO_UINT p)) in *.
    set (sep := if first then ""%string else ","%string).
    assert (Hsep : (String.length sep <= 1)%nat) by (subst sep; destruct first; simpl; lia).
    assert (E : g_strlcat (if first then req else g_strlcat req "," 2048) v 2048
                = (req ++ (sep ++ v))%string).
    { subst sep. destruct first.
      - rewrite g_strlcat_fits by lia. reflexivity.
      - rewrite (g_strlcat_fits req ",") by (simpl; lia).
        rewrite g_strlcat_fits by (rewrite string_length_app; simpl; lia).
        apply string_app_assoc. }
    rewrite E.
    destruct (IH false (req ++ (sep ++ v))%string) as (tail & Ht & Hl).
    { rewrite !string_length_app. lia. }
    exists (sep ++ v ++ tail)%string. split.
    + rewrite Ht. now rewrite !string_app_assoc.
    + rewrite !string_length_app. lia.
Qed.

Lemma substring_last : forall x : string,
  substring (String.length (x ++ ")") - 1) 1 (x ++ ")") = ")"%string.
Proof.
  induction x as [|c x IH]; [reflexivity|].
  cbn [append String.length].
  replace (S (String.length (x ++ ")")) - 1)%nat
    with (S (String.length (x ++ ")") - 1))%nat
    by (rewrite string_length_app; simpl; lia).
  exact IH.
Qed.

(** X21: a selection of at most 159 history entries always fits
    [char req[2048]]: the request is built without a cut, ends in its
    closing parenthesis and is the statement the source means, whatever
    the values of the entries. *)
Theorem request_fits_159_entries :
  forall ops,
    (List.length ops <= 159)%nat ->
    req_complete ops = true
    /\ (String.length (build_req ops) <= 2045)%nat.
Proof.
  intros ops Hlen. unfold req_complete, build_req.
  destruct ops as [|p ops]; [split; [reflexivity|simpl; lia]|].
  set (l := p :: ops) in *.
  assert (E0 : g_strlcpy req_select 2048 = req_select) by reflexivity.
  rewrite E0.
  assert (E1 : g_strlcat req_select " AND num IN (" 2048
               = (req_select ++ " AND num IN (")%string) by reflexivity.
  rewrite E1.
  set (base := (req_select ++ " AND num IN (")%string).
  assert (Hbase : String.length base = 295%nat) by reflexivity.
  destruct (req_values_fits l true base) as (tail & Ht & Hl); [lia|].
  rewrite Ht.
  rewrite g_strlcat_fits by (rewrite string_length_app; simpl; lia).
  split.
  - rewrite substring_last. reflexivity.
  - rewrite !string_length_app. simpl String.length at 3. lia.
Qed.

End Request.

Section PastedInstances.

Variable flag : Z.

(** ** The instance numbers of the pasted entries *)

Lemma keys_of_entries : forall l1 l2 : list style_item,
  map s_entry l1 = map s_entry l2 ->
  map s_multi_priority l1 = map s_multi_priority l2 ->
  map s_key l1 = map s_key l2.
Proof.
  induction l1 as [|a l1 IH]; intros [|b l2] He Hp; try discriminate; [reflexivity|].
  cbn [map] in *.
  assert (E1 : s_payload a = s_payload b) by (unfold s_entry in He; congruence).
  assert (E2 : s_multi_priority a = s_multi_priority b) by congruence.
  assert (He' : map s_entry l1 = map s_entry l2) by congruence.
  assert (Hp' : map s_multi_priority l1 = map s_multi_priority l2) by congruence.
  rewrite (IH l2 He' Hp'). f_equal. unfold s_key.
  now rewrite (s_payload_operation _ _ E1), E2.
Qed.

Lemma ordered_instances_keys : forall items op,
  ordered_instances items op
  = map snd (filter (fun k => String.eqb (fst k) op)
                    (order_by key_leb (map s_key items))).
Proof.
  intros items op. unfold ordered_instances, style_items_ordered.
  rewrite <- (order_by_map s_key key_leb items).
  induction (order_by (fun a b => key_leb (s_key a) (s_key b)) items) as [|s l IH];
    simpl; [reflexivity|].
  destruct (String.eqb (s_operation s) op); simpl; now rewrite IH.
Qed.

Lemma normalized_keys : forall iop items1 items2,
  map s_key items1 = map s_key items2 ->
  normalized flag iop items1 -> normalized flag iop items2.
Proof.
  intros iop items1 items2 H Hn op Hop. specialize (Hn op Hop).
  rewrite !ordered_instances_keys in *. now rewrite <- H.
Qed.

Lemma staged_well_staged : forall db imgid dest ops,
  imgid <> dest ->
  NoDup (history_nums db imgid) ->
  (forall h, In h (history_of (main_history db) imgid) ->
             -2147483648 <= h_num h <= 2147483647
             /\ -2147483648 <= h_multi_priority h <= 2147483647
             /\ (String.length (h_operation h) <= 1023)%nat) ->
  well_staged (memory_style_items (staged_db db imgid dest ops))
  /\ (forall s, In s (memory_style_items (staged_db db imgid dest ops)) ->
                (String.length (s_operation s) <= 1023)%nat).
Proof.
  intros db imgid dest ops Hne Hnd Hrange.
  destruct (staged_db_tables db imgid dest ops) as (_ & _ & _ & _ & S5).
  rewrite S5. clear S5.
  set (history := trim_history (main_history db) (main_images db) dest).
  assert (Hsrc : history_of history imgid = history_of (main_history db) imgid).
  { unfold history. rewrite history_of_trim.
    destruct (Z.eqb_spec imgid dest); [contradiction|reflexivity]. }
  assert (Hin : forall s, In s (number_rows 1 (staged_rows history imgid true ops)) ->
                exists h, In h (history_of (main_history db) imgid)
                          /\ s_payload s = h_payload h
                          /\ s_multi_priority s = h_multi_priority h
                          /\ s_num s = h_num h).
  { intros s Hs. apply number_rows_In in Hs. destruct Hs as (h & Hh & H1).
    exists h. split; [|assumption]. rewrite <- Hsrc. now apply staged_rows_In in Hh. }
  split; [split|].
  - rewrite number_rows_nums. apply staged_rows_NoDup. now rewrite Hsrc.
  - intros s Hs. destruct (Hin s Hs) as (h & Hh & _ & Hp & Hn).
    rewrite Hp, Hn. destruct (Hrange h Hh) as (A & B & _). auto.
  - intros s Hs. destruct (Hin s Hs) as (h & Hh & Hpay & _ & _).
    rewrite (h_payload_operation _ _ Hpay). now apply Hrange.
Qed.

(** X22: the entries a paste in merge mode appends are numbered without
    gaps: the staged rows it leaves in memory.style_items, from which the
    appended history rows take operation and multi_priority row by row,
    carry for every module that is not single-instance the instance
    numbers 0, 1, .., k-1 in the order (operation, multi_priority).  The
    seq values of the source are distinct; its seq and multi_priority values
    fit an [int] and its operation names [char op[1024]]. *)
Theorem paste_merge_numbers_pasted_instances :
  forall iop db imgid dest_imgid ops,
    imgid <> dest_imgid ->
    imgid <> -1 ->
    NoDup (history_nums db imgid) ->
    (forall h, In h (history_of (main_history db) imgid) ->
               -2147483648 <= h_num h <= 2147483647
               /\ -2147483648 <= h_multi_priority h <= 2147483647
               /\ (String.length (h_operation h) <= 1023)%nat) ->
    let db' := snd (dt_history_copy_and_paste_on_image flag iop db imgid dest_imgid
                                                       true ops) in
    let offs := sqlite3_column_int
                  (next_num (trim_history (main_history db) (main_images db) dest_imgid)
                            dest_imgid) in
    normalized flag iop (memory_style_items db')
    /\ exists kept,
         main_history db'
         = kept ++ map (history_of_style dest_imgid offs) (memory_style_items db')
         /\ map h_entry kept
            = map h_entry (trim_history (main_history db) (main_images db) dest_imgid).
Proof.
  intros iop db imgid dest ops Hne Hsrc Hnd Hrange db' offs. subst db' offs.
  rewrite (paste_merge_db flag iop db imgid dest ops Hne Hsrc). cbv zeta.
  cbn [main_history memory_style_items].
  set (db2 := staged_db db imgid dest ops).
  set (db3 := _dt_history_cleanup_multi_instance flag iop db2).
  destruct (staged_well_staged db imgid dest ops Hne Hnd Hrange) as [Hws Hlen].
  fold db2 in Hws, Hlen.
  pose proof (cleanup_normalizes flag iop db2 Hws Hlen) as Hnorm. fold db3 in Hnorm.
  destruct (merge_frame flag iop db3 dest) as (A & _ & B & C & _).
  destruct (cleanup_frame flag iop db2) as (A' & _).
  fold db3 in A'.
  destruct (staged_db_tables db imgid dest ops) as (S1 & _).
  fold db2 in S1.
  split.
  - apply (normalized_keys iop (memory_style_items db3)); [|assumption].
    symmetry. now apply keys_of_entries.
  - eexists. split; [unfold paste_style_items; reflexivity|].
    now rewrite A, A', S1.
Qed.

End PastedInstances.

Section DestinationInstances.

Variable flag : Z.

(** ** Phase B keeps the instances of the destination apart *)

Lemma in_combine_same : forall {A : Type} (l : list A) a b,
  In (a, b) (combine l l) -> a = b.
Proof.
  induction l as [|x l IH]; intros a b H; [contradiction|].
  destruct H as [H|H]; [congruence|now apply IH].
Qed.

Lemma in_combine_map_r : forall {A B : Type} (f : B -> B) (l : list A) (l2 : list B) a b',
  In (a, b') (combine l (map f l2)) ->
  exists b, b' = f b /\ In (a, b) (combine l l2).
Proof.
  intros A B f l. induction l as [|x l IH]; intros [|y l2] a b' H; try contradiction.
  destruct H as [H|H].
  - injection H as <- <-. exists y. split; [reflexivity|now left].
  - destruct (IH l2 a b' H) as (b & E & Hb). exists b. split; [assumption|now right].
Qed.

Lemma in_combine_map_l : forall {A B : Type} (f : A -> A) (l : list A) (l2 : list B) a c,
  In (a, c) (combine l l2) -> In (f a, c) (combine (map f l) l2).
Proof.
  intros A B f l. induction l as [|x l IH]; intros [|y l2] a c H; try contradiction.
  destruct H as [H|H].
  - injection H as <- <-. now left.
  - right. now apply IH.
Qed.

Lemma op_le_nil : forall a, op_le a "" -> a = ""%string.
Proof. intros a H. apply op_le_antisym; [assumption|apply op_le_empty]. Qed.

Lemma merge_groups_keys : forall history items dest,
  map h_key (merge_groups history items dest)
  = order_by key_leb
      (distinct_keys (map h_key (filter (live_row items dest) history))).
Proof. intros. unfold merge_groups. apply group_by_keys. Qed.

Lemma merge_groups_live : forall history items dest g,
  In g (merge_groups history items dest) ->
  In g history /\ live_row items dest g = true.
Proof.
  intros history items dest g H. unfold merge_groups in H.
  apply group_by_In in H. apply filter_In in H. exact H.
Qed.

Lemma live_in_groups : forall history items dest h,
  In h history -> live_row items dest h = true ->
  In (h_key h) (map h_key (merge_groups history items dest)).
Proof.
  intros history items dest h Hh Hl. rewrite merge_groups_keys.
  apply order_by_In, distinct_keys_In, in_map.
  apply filter_In. now split.
Qed.

Lemma merge_groups_keys_NoDup : forall history items dest,
  NoDup (map h_key (merge_groups history items dest)).
Proof.
  intros. rewrite merge_groups_keys.
  apply (Permutation_NoDup (Permutation_sym (order_by_perm key_leb _))).
  apply distinct_keys_NoDup.
Qed.

Lemma merge_groups_strict : forall history items dest pre g post g',
  merge_groups history items dest = pre ++ g :: post ->
  In g' post -> h_operation g' = h_operation g ->
  h_multi_priority g < h_multi_priority g'.
Proof.
  intros history items dest pre g post g' Hgs Hg' Hop.
  pose proof (merge_groups_keys_NoDup history items dest) as Hnd.
  assert (Hs : StronglySorted (fun a b => key_leb (h_key a) (h_key b) = true)
                              (merge_groups history items dest)).
  { apply (proj1 (StronglySorted_map h_key (fun a b => key_leb a b = true) _)).
    rewrite merge_groups_keys.
    apply order_by_sorted; intros; [apply key_leb_total|eapply key_leb_trans; eauto]. }
  rewrite Hgs in Hnd, Hs. rewrite map_app in Hnd. cbn [map] in Hnd.
  apply NoDup_remove_2 in Hnd.
  apply StronglySorted_app_inv in Hs. destruct Hs as (_ & Hs & _).
  inversion Hs as [|? ? _ Hall]; subst. rewrite Forall_forall in Hall.
  pose proof (key_leb_same_op (h_key g) (h_key g') (eq_sym Hop) (Hall g' Hg')) as Hle.
  cbn [h_key snd] in Hle.
  assert (Hne : h_multi_priority g <> h_multi_priority g').
  { intros E. apply Hnd. apply in_or_app. right.
    replace (h_key g) with (h_key g') by (unfold h_key; congruence).
    now apply in_map. }
  lia.
Qed.

Lemma merge_groups_ops : forall history items dest pre post gp g,
  merge_groups history items dest = pre ++ post ->
  In gp pre -> In g post -> op_le (h_operation gp) (h_operation g).
Proof.
  intros history items dest pre post gp g Hgs Hgp Hg.
  pose proof (merge_groups_sorted history items dest) as Hs.
  rewrite Hgs in Hs. apply StronglySorted_app_inv in Hs.
  destruct Hs as (_ & _ & Hle). now apply Hle.
Qed.

Lemma flag_used_keys : forall p items n,
  map s_key (filter (fun s => p (s_operation s)) (flag_used items n))
  = map s_key (filter (fun s => p (s_operation s)) items).
Proof.
  intros p items n. unfold flag_used.
  induction items as [|s items IH]; simpl; [reflexivity|].
  replace (s_operation (if s_num s =? n then s_set_num s (-1) else s))
    with (s_operation s) by (now destruct (s_num s =? n)).
  destruct (p (s_operation s)); simpl; [|exact IH].
  rewrite IH. f_equal. now destruct (s_num s =? n).
Qed.

Lemma flag_used_items : forall items n s,
  In s (flag_used items n) ->
  exists s0, In s0 items /\ s_key s = s_key s0 /\ (s_num s = s_num s0 \/ s_num s = -1).
Proof.
  intros items n s H. unfold flag_used in H. apply in_map_iff in H.
  destruct H as (s0 & E & H0). exists s0. split; [assumption|].
  destruct (s_num s0 =? n); subst s; auto.
Qed.

Lemma used_instance_below : forall items items0 op mp,
  (forall s, In s items ->
     exists s0, In s0 items0 /\ s_key s = s_key s0
                /\ (s_num s = s_num s0 \/ s_num s = -1)) ->
  used_instance items op mp -> above_staged items0 op mp -> False.
Proof.
  intros items items0 op mp Hitems (s & Hs & Ho & Hp & _) Habove.
  destruct (Hitems s Hs) as (s0 & Hs0 & Hk & _).
  unfold s_key in Hk. injection Hk as Hko Hkp.
  assert (H : s_multi_priority s0 < mp) by (apply Habove; congruence).
  lia.
Qed.

Section Loop.

Variable iop : list dt_iop_module_so_t.
Variable dest : Z.
Variable items : list style_item.
Variable history : list history_row.

Hypothesis Hok : mergeable items.
Hypothesis Hint :
  forall h, In h history -> live_row items dest h = true ->
            one_instance flag iop (h_operation h) = false ->
            -2147483648 <= h_multi_priority h <= 2147483647.
Hypothesis Habove :
  forall h, In h history -> live_row items dest h = true ->
            one_instance flag iop (h_operation h) = false ->
            above_staged items (h_operation h) (h_multi_priority h).

Lemma live_row_staged : forall h,
  live_row items dest h = true ->
  h_imgid h = dest
  /\ exists s, In s items /\ s_operation s = h_operation h.
Proof.
  intros h H. unfold live_row in H. apply andb_prop in H. destruct H as [H1 H2].
  apply Z.eqb_eq in H1. split; [assumption|].
  apply existsb_exists in H2. destruct H2 as (s & Hs & E).
  apply String.eqb_eq in E. now exists s.
Qed.

Lemma staged_nonempty : forall s, In s items -> s_operation s <> ""%string.
Proof. intros s Hs. now destruct (Hok s Hs). Qed.

Lemma live_row_same : forall h h',
  h_imgid h = h_imgid h' -> h_operation h = h_operation h' ->
  live_row items dest h = live_row items dest h'.
Proof. intros h h' E1 E2. unfold live_row. now rewrite E1, E2. Qed.

Lemma staged_op_nonempty : forall h,
  live_row items dest h = true -> h_operation h <> ""%string.
Proof.
  intros h H. destruct (live_row_staged h H) as (_ & s & Hs & <-).
  now apply staged_nonempty.
Qed.

Lemma inv_init :
  merge_inv flag iop dest items history [] (merge_groups history items dest)
            (mk_merge_state history items "" (-1)).
Proof.
  constructor; cbn [ms_history ms_style_items operation_prev multi_priority_next].
  - intros h1 h H _. symmetry. now apply in_combine_same in H.
  - intros h1 h H _ _ _. symmetry. now apply in_combine_same in H.
  - intros h1 h H Hl _ Hk. exfalso. apply Hk.
    apply live_in_groups; [|assumption]. now apply in_combine_l in H.
  - intros _ h1 h h1' h' H _ Hl _ _ _ Hk. exfalso. apply Hk.
    apply live_in_groups; [|assumption]. now apply in_combine_l in H.
  - intros g Hg E. exfalso. apply merge_groups_live in Hg. destruct Hg as [_ Hg].
    now apply (staged_op_nonempty g).
  - intros s Hs E. exfalso. now apply (staged_nonempty s Hs).
  - split; [intros gp []|now left].
  - reflexivity.
  - intros s Hs. exists s. auto.
  - intros HK. exact HK.
Qed.

Lemma key_of_single : forall g h1,
  one_instance flag iop (h_operation g) = true ->
  one_instance flag iop (h_operation h1) = false ->
  h_key h1 <> h_key g.
Proof. intros g h1 Hg Hh E. unfold h_key in E. congruence. Qed.

Lemma inv_single : forall pre g post st,
  one_instance flag iop (h_operation g) = true ->
  merge_inv flag iop dest items history pre (g :: post) st ->
  merge_inv flag iop dest items history (pre ++ [g]) post st.
Proof.
  intros pre g post st Hg [I1 I2 I3 I4 I5 I6 I7 I8 I9 I10].
  assert (Hk : forall h1, one_instance flag iop (h_operation h1) = false ->
                          ~ In (h_key h1) (map h_key post) ->
                          ~ In (h_key h1) (map h_key (g :: post))).
  { intros h1 Hm Hn [E|E]; [|contradiction].
    now apply (key_of_single g h1 Hg Hm). }
  constructor.
  - exact I1.
  - intros h1 h H Hl Hm Hin. apply (I2 h1 h H Hl Hm). now right.
  - intros h1 h H Hl Hm Hn.
    destruct (I3 h1 h H Hl Hm (Hk h1 Hm Hn)) as (A & B & C).
    split; [exact A|]. split; [|exact C].
    intros g' Hg'. apply B. now right.
  - intros HK h1 h h1' h' H H' Hl Hl' Hm Ho Hn Hn'.
    apply (I4 HK h1 h h1' h' H H' Hl Hl' Hm Ho); apply Hk; try assumption.
    now rewrite <- Ho.
  - intros g' Hg'. apply I5. now right.
  - exact I6.
  - destruct I7 as [A B]. split.
    + intros gp Hgp Hm. apply in_app_or in Hgp. destruct Hgp as [Hgp|[<-|[]]];
        [now apply A|congruence].
    + destruct B as [B|(gl & Hgl & B)]; [now left|right].
      exists gl. split; [apply in_or_app; now left|assumption].
  - exact I8.
  - exact I9.
  - exact I10.
Qed.

Lemma processed_prev : forall pre g post st h1 h,
  merge_groups history items dest = pre ++ g :: post ->
  merge_inv flag iop dest items history pre (g :: post) st ->
  In (h1, h) (combine history (ms_history st)) ->
  live_row items dest h1 = true ->
  one_instance flag iop (h_operation h1) = false ->
  h_operation h1 = h_operation g ->
  ~ In (h_key h1) (map h_key (g :: post)) ->
  operation_prev st = h_operation g.
Proof.
  intros pre g post st h1 h Hgs Hinv H Hl Hm Ho Hn.
  destruct (inv_prev _ _ _ _ _ _ _ _ Hinv) as [A B].
  assert (Hk : In (h_key h1) (map h_key (merge_groups history items dest))).
  { apply live_in_groups; [|assumption]. now apply in_combine_l in H. }
  rewrite Hgs, map_app in Hk. apply in_app_or in Hk.
  destruct Hk as [Hk|Hk]; [|contradiction].
  apply in_map_iff in Hk. destruct Hk as (gp & Ek & Hgp).
  assert (Eo : h_operation gp = h_operation g)
    by (unfold h_key in Ek; congruence).
  assert (Hle : op_le (h_operation g) (operation_prev st)).
  { rewrite <- Eo. apply A; [assumption|]. now rewrite Eo, <- Ho. }
  destruct B as [B|(gl & Hgl & B)].
  - exfalso. rewrite B in Hle. apply op_le_nil in Hle.
    apply (staged_op_nonempty h1 Hl). congruence.
  - apply op_le_antisym; [|assumption]. rewrite <- B.
    apply (merge_groups_ops history items dest pre (g :: post)); [assumption|assumption|].
    now left.
Qed.

Lemma inv_step : forall pre g post st n items' next',
  merge_groups history items dest = pre ++ g :: post ->
  one_instance flag iop (h_operation g) = false ->
  merge_inv flag iop dest items history pre (g :: post) st ->
  n <= h_multi_priority g ->
  ((above_staged items (h_operation g) n /\ n <= next')
   \/ used_instance items' (h_operation g) n) ->
  (NoDup (map s_key (filter (fun s => negb (one_instance flag iop (s_operation s)))
                            items)) ->
   forall h1 h, In (h1, h) (combine history (ms_history st)) ->
                live_row items dest h1 = true ->
                h_operation h1 = h_operation g ->
                ~ In (h_key h1) (map h_key (g :: post)) ->
                h_multi_priority h <> n) ->
  next' <= h_multi_priority g ->
  (operation_prev st = h_operation g -> multi_priority_next st <= next') ->
  (forall s, In s items -> s_operation s = h_operation g ->
             s_multi_priority s <= next') ->
  (forall op mp, used_instance (ms_style_items st) op mp -> used_instance items' op mp) ->
  (forall op, style_max_multi_priority items' op = style_max_multi_priority items op) ->
  (forall s, In s items' ->
     exists s0, In s0 items /\ s_key s = s_key s0
                /\ (s_num s = s_num s0 \/ s_num s = -1)) ->
  (NoDup (map s_key (filter (fun s => negb (one_instance flag iop (s_operation s)))
                            items)) ->
   NoDup (map s_key (filter (fun s => negb (one_instance flag iop (s_operation s)))
                            items'))) ->
  merge_inv flag iop dest items history (pre ++ [g]) post
    (mk_merge_state
       (update_multi_priority (ms_history st) dest (h_operation g)
                              (sqlite3_column_int (h_multi_priority g)) n)
       items' (h_operation g) next').
Proof.
  intros pre g post st n items' next' Hgs Hg Hinv Hnv Hkind Hfresh Hnext Hmono Hseed
         Hused Hmax Hitems Hnd.
  pose proof Hinv as [I1 I2 I3 I4 I5 I6 I7 I8 I9 I10].
  assert (Hgin : In g (merge_groups history items dest))
    by (rewrite Hgs; apply in_or_app; right; now left).
  destruct (merge_groups_live history items dest g Hgin) as [Hgh Hgl].
  destruct (live_row_staged g Hgl) as [Hgd _].
  assert (Hv : sqlite3_column_int (h_multi_priority g) = h_multi_priority g).
  { apply sqlite3_column_int_small. now apply Hint. }
  rewrite Hv.
  assert (K1 : ~ In (h_key g) (map h_key post)).
  { pose proof (merge_groups_keys_NoDup history items dest) as Hn.
    rewrite Hgs, map_app in Hn. cbn [map] in Hn.
    apply NoDup_remove_2 in Hn. intros E. apply Hn. apply in_or_app. now right. }
  assert (K2 : forall g', In g' post -> h_operation g' = h_operation g ->
                          h_multi_priority g < h_multi_priority g').
  { intros g' Hg' E. now apply (merge_groups_strict history items dest pre g post g'). }
  set (upd := fun h : history_row =>
                if (h_imgid h =? dest) && String.eqb (h_operation h) (h_operation g)
                   && (h_multi_priority h =? h_multi_priority g)
                then h_set_multi_priority h n else h).
  assert (Hpair : forall h1 h',
             In (h1, h') (combine history
                            (update_multi_priority (ms_history st) dest (h_operation g)
                                                   (h_multi_priority g) n)) ->
             exists h, h' = upd h /\ In (h1, h) (combine history (ms_history st))).
  { intros h1 h' H. unfold update_multi_priority in H.
    exact (in_combine_map_r upd history (ms_history st) h1 h' H). }
  assert (Hhit : forall h, h_imgid h = dest -> h_operation h = h_operation g ->
                           h_multi_priority h = h_multi_priority g ->
                           upd h = h_set_multi_priority h n).
  { intros h E1 E2 E3. unfold upd.
    now rewrite E1, E2, E3, Z.eqb_refl, String.eqb_refl, Z.eqb_refl. }
  assert (Hmiss : forall h, (h_imgid h <> dest \/ h_operation h <> h_operation g
                             \/ h_multi_priority h <> h_multi_priority g) ->
                            upd h = h).
  { intros h H. unfold upd.
    destruct (Z.eqb_spec (h_imgid h) dest) as [E1|E1]; [|reflexivity].
    destruct (String.eqb_spec (h_operation h) (h_operation g)) as [E2|E2]; [|reflexivity].
    destruct (Z.eqb_spec (h_multi_priority h) (h_multi_priority g)) as [E3|E3];
      [|reflexivity].
    destruct H as [H|[H|H]]; contradiction. }
  (* a row that is done stays as it is *)
  assert (Hkeep : forall h1 h,
             In (h1, h) (combine history (ms_history st)) ->
             live_row items dest h1 = true ->
             one_instance flag iop (h_operation h1) = false ->
             ~ In (h_key h1) (map h_key post) ->
             h_key h1 <> h_key g ->
             upd h = h /\ ~ In (h_key h1) (map h_key (g :: post))).
  { intros h1 h H Hl Hm Hn Hne.
    assert (Hn' : ~ In (h_key h1) (map h_key (g :: post))).
    { intros [E|E]; [now apply Hne|contradiction]. }
    split; [|exact Hn'].
    destruct (I3 h1 h H Hl Hm Hn') as (A & B & _).
    apply Hmiss.
    destruct (String.eqb_spec (h_operation h) (h_operation g)) as [E|E]; [|auto].
    right. right.
    assert (Eo : h_operation g = h_operation h1) by (rewrite A in E; now simpl in E).
    pose proof (B g (or_introl eq_refl) Eo). lia. }
  (* a row of the group takes the new value *)
  assert (Htake : forall h1 h,
             In (h1, h) (combine history (ms_history st)) ->
             live_row items dest h1 = true ->
             one_instance flag iop (h_operation h1) = false ->
             h_key h1 = h_key g ->
             upd h = h_set_multi_priority h1 n).
  { intros h1 h H Hl Hm Ek.
    assert (E : h = h1).
    { apply (I2 h1 h H Hl Hm). left. now symmetry. }
    subst h. unfold h_key in Ek. injection Ek as Eo Ep.
    apply Hhit; [apply (live_row_staged h1 Hl)|assumption|assumption]. }
  constructor; cbn [ms_history ms_style_items operation_prev multi_priority_next].
  - (* inv_other *)
    intros h1 h' H Hno. destruct (Hpair h1 h' H) as (h & -> & Hh).
    rewrite (I1 h1 h Hh Hno). apply Hmiss.
    destruct (Z.eqb_spec (h_imgid h1) dest) as [E1|E1]; [|auto].
    destruct (String.eqb_spec (h_operation h1) (h_operation g)) as [E2|E2]; [|auto].
    exfalso.
    rewrite (live_row_same h1 g) in Hno by congruence.
    rewrite Hgl, E2, Hg in Hno. discriminate.
  - (* inv_waiting *)
    intros h1 h' H Hl Hm Hin. destruct (Hpair h1 h' H) as (h & -> & Hh).
    assert (E : h = h1) by (apply (I2 h1 h Hh Hl Hm); now right).
    subst h. apply Hmiss.
    destruct (String.eqb_spec (h_operation h1) (h_operation g)) as [E2|E2]; [|auto].
    destruct (Z.eqb_spec (h_multi_priority h1) (h_multi_priority g)) as [E3|E3]; [|auto].
    exfalso. apply K1. replace (h_key g) with (h_key h1); [assumption|].
    unfold h_key. congruence.
  - (* inv_done *)
    intros h1 h' H Hl Hm Hn. destruct (Hpair h1 h' H) as (h & -> & Hh).
    destruct (string_dec (h_operation h1) (h_operation g)) as [Eo|Eo];
      [destruct (Z.eq_dec (h_multi_priority h1) (h_multi_priority g)) as [Ep|Ep]|].
    + (* the group itself *)
      assert (Ek : h_key h1 = h_key g) by (unfold h_key; congruence).
      rewrite (Htake h1 h Hh Hl Hm Ek).
      cbn [h_multi_priority h_set_multi_priority]. split; [reflexivity|]. split.
      * intros g' Hg' E. rewrite Eo in E. pose proof (K2 g' Hg' E). lia.
      * rewrite Eo. destruct Hkind as [[A B]|A]; [left|now right].
        split; [assumption|]. intros _. exact B.
    + assert (Hne : h_key h1 <> h_key g) by (unfold h_key; congruence).
      destruct (Hkeep h1 h Hh Hl Hm Hn Hne) as [E Hn']. rewrite E.
      destruct (I3 h1 h Hh Hl Hm Hn') as (A & B & C).
      split; [exact A|]. split; [intros g' Hg'; apply B; now right|].
      destruct C as [[C1 C2]|C]; [left|right; now apply Hused].
      split; [assumption|]. intros _.
      pose proof (processed_prev pre g post st h1 h Hgs Hinv Hh Hl Hm Eo Hn') as Hp.
      rewrite <- Hp in Eo. specialize (C2 Eo). specialize (Hmono Hp). lia.
    + assert (Hne : h_key h1 <> h_key g) by (unfold h_key; congruence).
      destruct (Hkeep h1 h Hh Hl Hm Hn Hne) as [E Hn']. rewrite E.
      destruct (I3 h1 h Hh Hl Hm Hn') as (A & B & C).
      split; [exact A|]. split; [intros g' Hg'; apply B; now right|].
      destruct C as [[C1 C2]|C]; [left|right; now apply Hused].
      split; [assumption|]. intros E'. congruence.
  - (* inv_pairs *)
    intros HK h1 h' h1' h'' H H' Hl Hl' Hm Ho Hn Hn'.
    destruct (Hpair h1 h' H) as (h & -> & Hh).
    destruct (Hpair h1' h'' H') as (k & -> & Hk).
    assert (Hm' : one_instance flag iop (h_operation h1') = false) by now rewrite <- Ho.
    assert (Hdec : forall a : history_row, h_key a = h_key g \/ h_key a <> h_key g).
    { intros a. unfold h_key.
      destruct (string_dec (h_operation a) (h_operation g)) as [E1|E1];
        destruct (Z.eq_dec (h_multi_priority a) (h_multi_priority g)) as [E2|E2];
        try (right; congruence). left. congruence. }
    destruct (Hdec h1) as [E1|E1]; destruct (Hdec h1') as [E2|E2].
    + rewrite (Htake h1 h Hh Hl Hm E1), (Htake h1' k Hk Hl' Hm' E2).
      cbn [h_multi_priority h_set_multi_priority].
      unfold h_key in E1, E2. split; intros _; congruence.
    + rewrite (Htake h1 h Hh Hl Hm E1).
      destruct (Hkeep h1' k Hk Hl' Hm' Hn' E2) as [E Hn2]. rewrite E.
      cbn [h_multi_priority h_set_multi_priority].
      assert (Eo : h_operation h1' = h_operation g)
        by (unfold h_key in E1; congruence).
      pose proof (Hfresh HK h1' k Hk Hl' Eo Hn2) as Hf.
      split; [intros E'; exfalso; now apply Hf|].
      intros E'. exfalso. apply E2. unfold h_key in *. congruence.
    + rewrite (Htake h1' k Hk Hl' Hm' E2).
      destruct (Hkeep h1 h Hh Hl Hm Hn E1) as [E Hn2]. rewrite E.
      cbn [h_multi_priority h_set_multi_priority].
      assert (Eo : h_operation h1 = h_operation g)
        by (unfold h_key in E2; congruence).
      pose proof (Hfresh HK h1 h Hh Hl Eo Hn2) as Hf.
      split; [intros E'; exfalso; now apply Hf|].
      intros E'. exfalso. apply E1. unfold h_key in *. congruence.
    + destruct (Hkeep h1 h Hh Hl Hm Hn E1) as [Ea Hna]. rewrite Ea.
      destruct (Hkeep h1' k Hk Hl' Hm' Hn' E2) as [Eb Hnb]. rewrite Eb.
      now apply (I4 HK h1 h h1' k).
  - (* inv_below *)
    intros g' Hg' E. pose proof (K2 g' Hg' E). lia.
  - (* inv_seed *)
    exact Hseed.
  - (* inv_prev *)
    split.
    + intros gp Hgp Hmp. apply in_app_or in Hgp. destruct Hgp as [Hgp|[<-|[]]].
      * apply (merge_groups_ops history items dest pre (g :: post)); [assumption|assumption|].
        now left.
      * apply op_le_refl.
    + right. exists g. split; [apply in_or_app; right; now left|reflexivity].
  - exact Hmax.
  - exact Hitems.
  - exact Hnd.
Qed.

Lemma prev_after : forall st g,
  live_row items dest g = true ->
  (if String.eqb (h_operation g) (operation_prev st)
   then operation_prev st else snprintf_s 257 (h_operation g)) = h_operation g.
Proof.
  intros st g Hl.
  destruct (String.eqb_spec (h_operation g) (operation_prev st)) as [E|E];
    [now symmetry|].
  destruct (live_row_staged g Hl) as (_ & s & Hs & Eo).
  unfold snprintf_s. apply substring_short. rewrite <- Eo.
  destruct (Hok s Hs) as (_ & L & _). simpl. lia.
Qed.

Lemma seeded_bounds : forall pre g post st,
  merge_groups history items dest = pre ++ g :: post ->
  one_instance flag iop (h_operation g) = false ->
  merge_inv flag iop dest items history pre (g :: post) st ->
  exists m, staging_max_instance items (h_operation g) m
            /\ m <= seeded_next st g < h_multi_priority g
            /\ (operation_prev st = h_operation g ->
                seeded_next st g = multi_priority_next st).
Proof.
  intros pre g post st Hgs Hg [I1 I2 I3 I4 I5 I6 I7 I8 I9 I10].
  assert (Hgin : In g (merge_groups history items dest))
    by (rewrite Hgs; apply in_or_app; right; now left).
  destruct (merge_groups_live history items dest g Hgin) as [Hgh Hgl].
  destruct (live_row_staged g Hgl) as (_ & s & Hs & Eo).
  destruct (style_max_multi_priority_some items (h_operation g)) as [m Hm].
  { rewrite <- Eo. now apply in_map. }
  exists m. pose proof (proj1 (style_max_multi_priority_spec _ _ _) Hm) as Hspec.
  split; [exact Hspec|].
  destruct Hspec as [(sm & Hsm & Eom & Emm) Hub].
  unfold seeded_next.
  destruct (String.eqb_spec (h_operation g) (operation_prev st)) as [E|E].
  - split; [|reflexivity]. split.
    + rewrite <- Emm. apply I6; [assumption|congruence].
    + apply I5; [now left|assumption].
  - split; [|intros E'; congruence].
    rewrite I8, Hm. cbn [IFNULL].
    rewrite sqlite3_column_int_small
      by (rewrite <- Emm; now destruct (Hok sm Hsm) as (_ & _ & _ & R)).
    split; [lia|]. rewrite <- Emm. now apply (Habove g Hgh Hgl Hg sm).
Qed.

Lemma inv_merge_row : forall pre g post st,
  merge_groups history items dest = pre ++ g :: post ->
  merge_inv flag iop dest items history pre (g :: post) st ->
  merge_inv flag iop dest items history (pre ++ [g]) post
            (merge_row flag iop dest st g).
Proof.
  intros pre g post st Hgs Hinv.
  destruct (one_instance flag iop (h_operation g)) eqn:Hg.
  { rewrite merge_row_one_instance by assumption. now apply inv_single. }
  assert (Hgin : In g (merge_groups history items dest))
    by (rewrite Hgs; apply in_or_app; right; now left).
  destruct (merge_groups_live history items dest g Hgin) as [Hgh Hgl].
  destruct (seeded_bounds pre g post st Hgs Hg Hinv)
    as (m & [_ Hub] & Hb & Hsame).
  pose proof Hinv as [I1 I2 I3 I4 I5 I6 I7 I8 I9 I10].
  assert (Hdone : forall h1 h,
             In (h1, h) (combine history (ms_history st)) ->
             live_row items dest h1 = true ->
             h_operation h1 = h_operation g ->
             ~ In (h_key h1) (map h_key (g :: post)) ->
             (above_staged items (h_operation g) (h_multi_priority h)
              /\ h_multi_priority h <= multi_priority_next st
              /\ operation_prev st = h_operation g)
             \/ used_instance (ms_style_items st) (h_operation g)
                              (h_multi_priority h)).
  { intros h1 h H Hl Eo Hn.
    assert (Hm1 : one_instance flag iop (h_operation h1) = false) by now rewrite Eo.
    pose proof (processed_prev pre g post st h1 h Hgs Hinv H Hl Hm1 Eo Hn) as Hp.
    destruct (I3 h1 h H Hl Hm1 Hn) as (_ & _ & [[A B]|A]); rewrite Eo in A;
      [left|now right].
    split; [assumption|]. split; [|assumption]. apply B. congruence. }
  destruct (label_match (ms_style_items st) g) eqn:Hlm.
  - (* a staged instance takes the group *)
    destruct (merge_row_matched flag iop dest st g Hg Hlm) as (s & Hlook & ->).
    rewrite (prev_after st g Hgl).
    apply style_lookup_first in Hlook.
    destruct Hlook as (before & after & Eitems & (Hso & _ & Hsnum) & _).
    assert (Hsin : In s (ms_style_items st))
      by (rewrite Eitems; apply in_or_app; right; now left).
    destruct (I9 s Hsin) as (s0 & Hs0 & Hk & Hnum).
    unfold s_key in Hk. injection Hk as Hko Hkp.
    destruct (Hok s0 Hs0) as (_ & _ & Rn & Rp).
    rewrite (sqlite3_column_int_small (s_multi_priority s)) by lia.
    rewrite (sqlite3_column_int_small (s_num s)) by lia.
    assert (Hle : s_multi_priority s <= m).
    { rewrite Hkp. apply Hub; [assumption|congruence]. }
    apply (inv_step pre g post st (s_multi_priority s)
                    (flag_used (ms_style_items st) (s_num s)) (seeded_next st g));
      try assumption.
    + lia.
    + right. exists (s_set_num s (-1)). split.
      * unfold flag_used. apply in_map_iff. exists s. split; [|assumption].
        now rewrite Z.eqb_refl.
      * destruct s; simpl in *. auto.
    + intros HK h1 h H Hl Eo Hn E.
      destruct (Hdone h1 h H Hl Eo Hn) as [(A & _ & _)|(s' & Hs' & Eo' & Ep' & En')].
      * assert (Hlt : s_multi_priority s0 < h_multi_priority h)
          by (apply A; [assumption|congruence]).
        lia.
      * assert (Es : s' = s).
        { apply (NoDup_map_eq s_key _ s' s (I10 HK)).
          - apply filter_In. split; [assumption|]. now rewrite Eo', Hg.
          - apply filter_In. split; [assumption|]. now rewrite Hso, Hg.
          - unfold s_key. congruence. }
        subst s'. lia.
    + lia.
    + intros E. rewrite (Hsame E). lia.
    + intros s1 Hs1 Eo1. specialize (Hub s1 Hs1 Eo1). lia.
    + intros op mp. apply used_instance_flag.
    + intros op. rewrite flag_used_max. apply I8.
    + intros s1 Hs1. destruct (flag_used_items _ _ _ Hs1) as (s2 & Hs2 & Hk2 & Hn2).
      destruct (I9 s2 Hs2) as (s3 & Hs3 & Hk3 & Hn3).
      exists s3. split; [assumption|]. split; [congruence|].
      destruct Hn2 as [Hn2|Hn2]; [|now right].
      destruct Hn3 as [Hn3|Hn3]; [left|right]; congruence.
    + intros HK.
      rewrite (flag_used_keys (fun op => negb (one_instance flag iop op))).
      exact (I10 HK).
  - (* no staged instance: the counter gives the next number *)
    rewrite (merge_row_unmatched flag iop dest st g Hg Hlm).
    rewrite (prev_after st g Hgl).
    assert (Hfit : h_multi_priority g <= 2147483647) by now apply Hint.
    replace (int_succ (seeded_next st g)) with (seeded_next st g + 1)
      by (unfold int_succ;
          destruct (Z.eqb_spec (seeded_next st g) 2147483647); lia).
    apply (inv_step pre g post st (seeded_next st g + 1)
                    (ms_style_items st) (seeded_next st g + 1));
      try assumption.
    + lia.
    + left. split; [|lia].
      intros s1 Hs1 Eo1. specialize (Hub s1 Hs1 Eo1). lia.
    + intros _ h1 h H Hl Eo Hn E.
      destruct (Hdone h1 h H Hl Eo Hn) as [(_ & B & Ep)|(s' & Hs' & Eo' & Ep' & _)].
      * rewrite (Hsame Ep) in E. lia.
      * destruct (I9 s' Hs') as (s0 & Hs0 & Hk & _).
        unfold s_key in Hk. injection Hk as Hko Hkp.
        assert (Hle : s_multi_priority s0 <= m)
          by (apply Hub; [assumption|congruence]).
        lia.
    + lia.
    + intros E. rewrite (Hsame E). lia.
    + intros s1 Hs1 Eo1. specialize (Hub s1 Hs1 Eo1). lia.
    + auto.
Qed.

Lemma inv_loop : forall pre post,
  merge_groups history items dest = pre ++ post ->
  merge_inv flag iop dest items history pre post
            (fold_left (merge_row flag iop dest) pre
                       (mk_merge_state history items "" (-1))).
Proof.
  induction pre as [|g pre IH] using rev_ind; intros post E.
  - simpl in *. rewrite <- E. apply inv_init.
  - rewrite fold_left_app. cbn [fold_left].
    rewrite <- app_assoc in E. cbn [app] in E.
    apply inv_merge_row; [assumption|]. now apply IH.
Qed.

Lemma loop_keeps_instances : forall h1 h h1' h',
  NoDup (map s_key (filter (fun s => negb (one_instance flag iop (s_operation s)))
                           items)) ->
  let st := fold_left (merge_row flag iop dest) (merge_groups history items dest)
                      (mk_merge_state history items "" (-1)) in
  In (h1, h) (combine history (ms_history st)) ->
  In (h1', h') (combine history (ms_history st)) ->
  h_imgid h1 = h_imgid h1' ->
  one_instance flag iop (h_operation h1) = false ->
  h_operation h1 = h_operation h1' ->
  (h_multi_priority h = h_multi_priority h'
   <-> h_multi_priority h1 = h_multi_priority h1').
Proof.
  intros h1 h h1' h' HK st H H' Ei Hm Eo.
  pose proof (inv_loop (merge_groups history items dest) []) as Hinv.
  rewrite app_nil_r in Hinv. specialize (Hinv eq_refl). fold st in Hinv.
  destruct (live_row items dest h1) eqn:Hl.
  - assert (Hl' : live_row items dest h1' = true)
      by (rewrite <- Hl; symmetry; now apply live_row_same).
    apply (inv_pairs _ _ _ _ _ _ _ _ Hinv HK h1 h h1' h'); auto.
  - assert (Hl' : live_row items dest h1' = false)
      by (rewrite <- Hl; symmetry; now apply live_row_same).
    rewrite (inv_other _ _ _ _ _ _ _ _ Hinv h1 h H) by now rewrite Hl.
    rewrite (inv_other _ _ _ _ _ _ _ _ Hinv h1' h' H') by now rewrite Hl'.
    reflexivity.
Qed.

Lemma in_combine_r_exists : forall {A B : Type} (l : list A) (l2 : list B) b,
  List.length l = List.length l2 -> In b l2 -> exists a, In (a, b) (combine l l2).
Proof.
  intros A B l. induction l as [|x l IH]; intros [|y l2] b E H; simpl in *;
    try discriminate; try contradiction.
  destruct H as [->|H].
  - exists x. now left.
  - destruct (IH l2 b) as [a Ha]; [congruence|assumption|]. exists a. now right.
Qed.

Lemma loop_keeps_apart : forall h,
  let st := fold_left (merge_row flag iop dest) (merge_groups history items dest)
                      (mk_merge_state history items "" (-1)) in
  In h (ms_history st) ->
  h_imgid h = dest ->
  one_instance flag iop (h_operation h) = false ->
  above_staged items (h_operation h) (h_multi_priority h)
  \/ used_instance (ms_style_items st) (h_operation h) (h_multi_priority h).
Proof.
  intros h st Hh Hd Hm.
  pose proof (inv_loop (merge_groups history items dest) []) as Hinv.
  rewrite app_nil_r in Hinv. specialize (Hinv eq_refl). fold st in Hinv.
  destruct (in_combine_r_exists history (ms_history st) h) as [h1 Hp];
    [|assumption|].
  { destruct (merge_loop_frame flag iop dest (merge_groups history items dest)
                (mk_merge_state history items "" (-1))) as (A & _).
    fold st in A. cbn [ms_history] in A.
    rewrite <- (length_map h_entry history), <- A. apply length_map. }
  destruct (live_row items dest h1 && negb (one_instance flag iop (h_operation h1)))
    eqn:E.
  - apply andb_prop in E. destruct E as [Hl Hm1].
    apply negb_true_iff in Hm1.
    destruct (inv_done _ _ _ _ _ _ _ _ Hinv h1 h Hp Hl Hm1) as (A & _ & C);
      [intros []|].
    assert (Eo : h_operation h = h_operation h1) by (rewrite A; reflexivity).
    rewrite Eo. destruct C as [[C _]|C]; [now left|now right].
  - pose proof (inv_other _ _ _ _ _ _ _ _ Hinv h1 h Hp E) as ->.
    rewrite Hm in E. cbn [negb] in E. rewrite andb_true_r in E.
    left. intros s Hs Es. exfalso.
    unfold live_row in E. rewrite Hd, Z.eqb_refl in E. cbn [andb] in E.
    assert (T : existsb (fun s0 => String.eqb (h_operation h1) (s_operation s0)) items
                = true).
    { apply existsb_exists. exists s. split; [assumption|].
      rewrite Es. apply String.eqb_refl. }
    congruence.
Qed.

End Loop.

Lemma shift_row_frame : forall iop items dest ops h,
  let h' := if (h_imgid h =? dest) && existsb (String.eqb (h_operation h)) ops
               && negb (one_instance flag iop (h_operation h))
            then shifted items h else h in
  h_imgid h' = h_imgid h /\ h_operation h' = h_operation h.
Proof. intros iop items dest ops h. cbv zeta. now destruct (_ && _ && _). Qed.

Lemma append_fits_int : forall iop db dest,
  mergeable (memory_style_items db) ->
  (forall r, In r (main_history db) -> h_imgid r = dest ->
             0 <= h_multi_priority r) ->
  (forall r s, In r (main_history db) -> h_imgid r = dest ->
               In s (memory_style_items db) -> s_operation s = h_operation r ->
               h_multi_priority r + s_multi_priority s < 2147483647) ->
  forall r,
    In r (main_history (_history_rebuild_multi_priority_append flag iop db dest)) ->
    live_row (memory_style_items db) dest r = true ->
    one_instance flag iop (h_operation r) = false ->
    -2147483648 <= h_multi_priority r <= 2147483647.
Proof.
  intros iop db dest Hok Hpos Hsum r Hr Hl Hone.
  unfold _history_rebuild_multi_priority_append in Hr.
  cbn [main_history set_history] in Hr.
  rewrite append_loop_map in Hr by apply distinct_operations_NoDup.
  set (items := memory_style_items db) in *.
  set (ops := distinct_operations (map s_operation items)) in *.
  apply in_map_iff in Hr. destruct Hr as (r0 & <- & Hr0).
  destruct (shift_row_frame iop items dest ops r0) as [Gi Go].
  cbv zeta in Gi, Go. rewrite Go in Hone.
  rewrite (live_row_same dest items _ r0 Gi Go) in Hl.
  destruct (live_row_staged dest items r0 Hl) as (Hd & s & Hs & Es).
  assert (Hin : existsb (String.eqb (h_operation r0)) ops = true).
  { apply existsb_exists. exists (h_operation r0). split; [|apply String.eqb_refl].
    apply distinct_operations_In. rewrite <- Es. now apply in_map. }
  rewrite Hd, Z.eqb_refl, Hin, Hone. cbn [andb negb].
  unfold shifted. cbn [h_multi_priority h_set_multi_priority].
  destruct (style_max_multi_priority_some items (h_operation r0)) as [m Em].
  { rewrite <- Es. now apply in_map. }
  rewrite Em. cbn [IFNULL].
  apply style_max_multi_priority_spec in Em.
  destruct Em as [(sm & Hsm & Eom & Emm) _].
  pose proof (Hsum r0 sm Hr0 Hd Hsm Eom) as Hlt.
  pose proof (Hpos r0 Hr0 Hd) as Hge.
  destruct (Hok sm Hsm) as (_ & _ & _ & R). lia.
Qed.

(** C5: in the loop of Phase B over the groups of the destination, a group
    of a multi-instance module that finds no match gets the value m + k,
    where m is the largest staged multi_priority of its operation and k
    counts the unmatched groups of that operation up to and including this
    one: the counter is seeded from m when the operation is first met and
    raised by one before each such assignment.  Every history row of the
    group (the rows of the destination with the operation and the old
    multi_priority) is rewritten to that value and keeps its other columns,
    no other row changes and the staged rows stay as they are; the value
    lies above every staged multi_priority of the operation, and the
    function goes on from there with the groups that follow.  No instance
    number of the destination was negative, and the sum of one with a
    staged number of its module stays below INT_MAX, which keeps the shift
    of Phase A and the [int] counter in range; the staged module names are
    not empty and fit [operation_prev[257]], the staged numbers fit an
    [int]. *)
Theorem unmatched_group_gets_next_free :
  forall iop db dest_imgid pre g post,
    let db1 := _history_rebuild_multi_priority_append flag iop db dest_imgid in
    let items := memory_style_items db in
    mergeable items ->
    (forall r, In r (main_history db) -> h_imgid r = dest_imgid ->
               0 <= h_multi_priority r) ->
    (forall r s, In r (main_history db) -> h_imgid r = dest_imgid ->
                 In s items -> s_operation s = h_operation r ->
                 h_multi_priority r + s_multi_priority s < 2147483647) ->
    merge_groups (main_history db1) items dest_imgid = pre ++ g :: post ->
    one_instance flag iop (h_operation g) = false ->
    let st := fold_left (merge_row flag iop dest_imgid) pre (merge_init db1) in
    label_match (ms_style_items st) g = false ->
    exists m,
      staging_max_instance items (h_operation g) m
      /\ let fresh :=
           m + unmatched_before flag iop dest_imgid (h_operation g)
                                (merge_init db1) pre + 1 in
         multi_priority_next (merge_row flag iop dest_imgid st g) = fresh
         /\ relabelled dest_imgid (h_operation g) (h_multi_priority g) fresh
                       (ms_history st)
                       (ms_history (merge_row flag iop dest_imgid st g))
         /\ ms_style_items (merge_row flag iop dest_imgid st g) = ms_style_items st
         /\ (forall s, In s items -> s_operation s = h_operation g ->
                       s_multi_priority s < fresh)
         /\ dt_history_rebuild_multi_priority_merge flag iop db dest_imgid
            = let st_end :=
                fold_left (merge_row flag iop dest_imgid) post
                          (merge_row flag iop dest_imgid st g) in
              set_style_items (set_history db1 (ms_history st_end))
                              (ms_style_items st_end).
Proof.
  intros iop db dest pre g post db1 items Hok Hpos Hsum Hgs Hone st Hlm.
  assert (Hint : forall r, In r (main_history db1) ->
                           live_row items dest r = true ->
                           one_instance flag iop (h_operation r) = false ->
                           -2147483648 <= h_multi_priority r <= 2147483647).
  { intros r. now apply append_fits_int. }
  assert (Habove : forall r, In r (main_history db1) ->
                             live_row items dest r = true ->
                             one_instance flag iop (h_operation r) = false ->
                             above_staged items (h_operation r) (h_multi_priority r)).
  { intros r Hr Hl Hm s Hs Es.
    destruct (live_row_staged dest items r Hl) as (Hd & _).
    now apply (append_above flag iop db dest r s). }
  pose proof (merge_groups_sorted (main_history db1) items dest) as Hs.
  rewrite Hgs in Hs. apply StronglySorted_app_inv in Hs.
  destruct Hs as (Hs & _ & Hle).
  assert (Hgin : In g (merge_groups (main_history db1) items dest))
    by (rewrite Hgs; apply in_or_app; right; now left).
  destruct (merge_groups_live (main_history db1) items dest g Hgin) as [Hgh Hgl].
  destruct (live_row_staged dest items g Hgl) as (Hgd & sg & Hsg & Esg).
  destruct (Hok sg Hsg) as (Hne & Hlen & _). rewrite Esg in Hne, Hlen.
  assert (Hg : In (h_operation g) (map s_operation items))
    by (rewrite <- Esg; now apply in_map).
  destruct (style_max_multi_priority_some items _ Hg) as [m Hmax].
  pose proof (proj1 (style_max_multi_priority_spec items _ m) Hmax) as Hspec.
  assert (Hm : -2147483648 <= m <= 2147483647).
  { destruct Hspec as [(s & Hin & Hop & <-) _]. now destruct (Hok s Hin) as (_ & _ & _ & R). }
  (* the counter is below INT_MAX at every group of the operation *)
  assert (Hroom : forall pre1 g1 post1,
             merge_groups (main_history db1) items dest = pre1 ++ g1 :: post1 ->
             h_operation g1 = h_operation g ->
             seeded_next (fold_left (merge_row flag iop dest) pre1 (merge_init db1)) g1
             < h_multi_priority g1 <= 2147483647).
  { intros pre1 g1 post1 E Eo.
    assert (Hone1 : one_instance flag iop (h_operation g1) = false) by now rewrite Eo.
    pose proof (inv_loop iop dest items (main_history db1) Hok Hint Habove
                         pre1 (g1 :: post1) E) as Hinv.
    destruct (seeded_bounds iop dest items (main_history db1) Hok Habove
                pre1 g1 post1 _ E Hone1 Hinv) as (m1 & _ & Hb & _).
    assert (Hg1 : In g1 (merge_groups (main_history db1) items dest))
      by (rewrite E; apply in_or_app; right; now left).
    destruct (merge_groups_live (main_history db1) items dest g1 Hg1) as [Hh1 Hl1].
    pose proof (Hint g1 Hh1 Hl1 Hone1). unfold merge_init. split; [apply Hb|lia]. }
  destruct (merge_loop_counter flag iop dest (h_operation g) m Hone Hne Hlen Hm
              pre (merge_init db1) false 0 Hmax Hs) as (A & B & C).
  { intros g' Hin. apply Hle; [assumption|now left]. }
  { discriminate. }
  { discriminate. }
  { intros _. split; [|reflexivity]. simpl. congruence. }
  { intros pre1 g1 post1 E Eo.
    assert (Hr : seeded_next (fold_left (merge_row flag iop dest) pre1 (merge_init db1))
                             g1 < h_multi_priority g1 <= 2147483647).
    { apply (Hroom pre1 g1 (post1 ++ g :: post)); [|assumption].
      rewrite Hgs, E, <- app_assoc. reflexivity. }
    lia. }
  cbv zeta in A, B, C. simpl orb in B, C. fold st in A, B, C.
  assert (Hseed : seeded_next st g
                  = m + unmatched_before flag iop dest (h_operation g)
                                         (merge_init db1) pre).
  { unfold seeded_next.
    destruct (existsb (fun g0 => String.eqb (h_operation g0) (h_operation g)) pre)
      eqn:Eseen.
    - destruct (B eq_refl) as [B1 B2]. rewrite B1, String.eqb_refl, B2. lia.
    - pose proof (C eq_refl) as C1.
      assert (E : String.eqb (h_operation g) (operation_prev st) = false)
        by (apply String.eqb_neq; congruence).
      rewrite E, A. simpl IFNULL.
      rewrite (unmatched_before_unseen flag _ _ _ _ _ Eseen).
      rewrite sqlite3_column_int_small by lia. lia. }
  pose proof (Hroom pre g post Hgs eq_refl) as Hfit. fold st in Hfit.
  assert (Hsucc : int_succ (seeded_next st g)
                  = m + unmatched_before flag iop dest (h_operation g)
                                         (merge_init db1) pre + 1).
  { rewrite <- Hseed. unfold int_succ.
    destruct (Z.eqb_spec (seeded_next st g) 2147483647); lia. }
  assert (Hold : sqlite3_column_int (h_multi_priority g) = h_multi_priority g).
  { apply sqlite3_column_int_small. now apply Hint. }
  assert (Hend : dt_history_rebuild_multi_priority_merge flag iop db dest
                 = let st_end :=
                     fold_left (merge_row flag iop dest) post
                               (merge_row flag iop dest st g) in
                   set_style_items (set_history db1 (ms_history st_end))
                                   (ms_style_items st_end)).
  { unfold dt_history_rebuild_multi_priority_merge. cbv zeta.
    fold db1. change (memory_style_items db1) with items.
    rewrite Hgs, fold_left_app. reflexivity. }
  exists m. split; [exact Hspec|]. cbv zeta.
  split; [|split; [|split; [|split; [|exact Hend]]]].
  - rewrite (merge_row_unmatched flag iop dest st g Hone Hlm). simpl.
    exact Hsucc.
  - rewrite (merge_row_unmatched flag iop dest st g Hone Hlm). simpl.
    rewrite Hsucc, Hold. apply update_relabelled.
  - now rewrite (merge_row_unmatched flag iop dest st g Hone Hlm).
  - intros s Hin Hop. destruct Hspec as [_ Hub].
    specialize (Hub s Hin Hop).
    pose proof (unmatched_before_nonneg flag iop dest (h_operation g) pre
                                        (merge_init db1)).
    lia.
Qed.

(** X17: after [dt_history_rebuild_multi_priority_merge] the instances of
    the destination and the staged instances are kept apart: a row of the
    destination whose module is not single-instance carries either an
    instance number above every staged instance number of its module, or
    the instance number of a staged row of that module which the merge has
    matched and flagged as used ([num] = -1).  No instance number of the
    destination was negative, and the sum of one with a staged number of
    its module stays below INT_MAX, so that neither the shift of Phase A
    nor the counter of Phase B leaves the [int] range; the staged module
    names are not empty and fit [operation_prev[257]], the staged numbers
    fit an [int]. *)
Theorem merge_keeps_instances_apart :
  forall iop db dest_imgid,
    mergeable (memory_style_items db) ->
    (forall h, In h (main_history db) -> h_imgid h = dest_imgid ->
               0 <= h_multi_priority h) ->
    (forall h s, In h (main_history db) -> h_imgid h = dest_imgid ->
                 In s (memory_style_items db) -> s_operation s = h_operation h ->
                 h_multi_priority h + s_multi_priority s < 2147483647) ->
    let db' := dt_history_rebuild_multi_priority_merge flag iop db dest_imgid in
    forall h, In h (main_history db') ->
              h_imgid h = dest_imgid ->
              one_instance flag iop (h_operation h) = false ->
              above_staged (memory_style_items db) (h_operation h)
                           (h_multi_priority h)
              \/ used_instance (memory_style_items db') (h_operation h)
                               (h_multi_priority h).
Proof.
  intros iop db dest Hok Hpos Hsum db'. subst db'.
  unfold dt_history_rebuild_multi_priority_merge, merge_init. cbv zeta.
  cbn [main_history memory_style_items set_style_items set_history].
  set (db1 := _history_rebuild_multi_priority_append flag iop db dest).
  change (memory_style_items db1) with (memory_style_items db).
  apply (loop_keeps_apart iop dest (memory_style_items db) (main_history db1) Hok).
  - now apply append_fits_int.
  - intros r Hr Hl Hone s Hs Es.
    destruct (live_row_staged dest (memory_style_items db) r Hl) as (Hd & _).
    now apply (append_above flag iop db dest r s).
Qed.

(** X23: [dt_history_rebuild_multi_priority_merge] neither joins nor
    splits the instances of an image: two history rows of one image and of
    one module that is not single-instance carry the same instance number
    after the merge if and only if they carried the same number before it
    (a row is paired with what the merge has made of it, by its place in
    main.history).  The staged rows of a module that is not single-instance
    carry distinct instance numbers, as [_dt_history_cleanup_multi_instance]
    leaves them; no instance number of the destination was negative, and
    the sum of one with a staged number of its module stays below INT_MAX;
    the staged module names are not empty and fit [operation_prev[257]],
    the staged numbers fit an [int]. *)
Theorem merge_keeps_destination_instances :
  forall iop db dest_imgid h1 h h1' h',
    mergeable (memory_style_items db) ->
    NoDup (map s_key
               (filter (fun s => negb (one_instance flag iop (s_operation s)))
                       (memory_style_items db))) ->
    (forall r, In r (main_history db) -> h_imgid r = dest_imgid ->
               0 <= h_multi_priority r) ->
    (forall r s, In r (main_history db) -> h_imgid r = dest_imgid ->
                 In s (memory_style_items db) -> s_operation s = h_operation r ->
                 h_multi_priority r + s_multi_priority s < 2147483647) ->
    let db' := dt_history_rebuild_multi_priority_merge flag iop db dest_imgid in
    In (h1, h) (combine (main_history db) (main_history db')) ->
    In (h1', h') (combine (main_history db) (main_history db')) ->
    h_imgid h1 = h_imgid h1' ->
    h_operation h1 = h_operation h1' ->
    one_instance flag iop (h_operation h1) = false ->
    (h_multi_priority h = h_multi_priority h'
     <-> h_multi_priority h1 = h_multi_priority h1').
Proof.
  intros iop db dest h1 h h1' h' Hok Hkeys Hpos Hsum db' H H' Ei Eo Hm. subst db'.
  unfold dt_history_rebuild_multi_priority_merge, merge_init in H, H'.
  cbv zeta in H, H'.
  cbn [main_history memory_style_items set_style_items set_history] in H, H'.
  set (db1 := _history_rebuild_multi_priority_append flag iop db dest) in *.
  change (memory_style_items db1) with (memory_style_items db) in *.
  set (items := memory_style_items db) in *.
  set (ops := distinct_operations (map s_operation items)).
  set (fA := fun r : history_row =>
               if (h_imgid r =? dest) && existsb (String.eqb (h_operation r)) ops
                  && negb (one_instance flag iop (h_operation r))
               then shifted items r else r).
  assert (EA : main_history db1 = map fA (main_history db)).
  { unfold db1, _history_rebuild_multi_priority_append.
    cbn [main_history set_history]. fold items. fold ops.
    apply append_loop_map. apply distinct_operations_NoDup. }
  assert (Hfr : forall r, h_imgid (fA r) = h_imgid r
                          /\ h_operation (fA r) = h_operation r).
  { intros r. apply (shift_row_frame iop items dest ops r). }
  destruct (Hfr h1) as [Fi Fo]. destruct (Hfr h1') as [Fi' Fo'].
  assert (Hloop : h_multi_priority h = h_multi_priority h'
                  <-> h_multi_priority (fA h1) = h_multi_priority (fA h1')).
  { apply (loop_keeps_instances iop dest items (main_history db1)).
    - exact Hok.
    - now apply append_fits_int.
    - intros r Hr Hl Hone s Hs Es.
      destruct (live_row_staged dest items r Hl) as (Hd & _).
      now apply (append_above flag iop db dest r s).
    - exact Hkeys.
    - pose proof (in_combine_map_l fA _ _ _ _ H) as P. now rewrite <- EA in P.
    - pose proof (in_combine_map_l fA _ _ _ _ H') as P. now rewrite <- EA in P.
    - congruence.
    - now rewrite Fo.
    - congruence. }
  rewrite Hloop. unfold fA. rewrite <- Ei, <- Eo.
  destruct (_ && _ && _); [|reflexivity].
  unfold shifted. cbn [h_multi_priority h_set_multi_priority].
  rewrite <- Eo. split; intros E; lia.
Qed.

End DestinationInstances.

(** * Instances *)

Lemma copy_and_paste_on_image_returns_0_witness :
  1 <> 2 /\ 1 <> -1 /\
  fst (dt_history_copy_and_paste_on_image example_flag example_iop example_db
                                          1 2 true []) = 0.
Proof.
  split; [lia|]. split; [lia|].
  apply (copy_and_paste_on_image_returns_0 example_flag example_iop example_db
                                           1 2 true []); lia.
Defined.


Lemma history_seq_contiguous_witness :
  contiguous_from_0 (history_nums example_db 2)
  /\ Z.of_nat (List.length (history_nums example_db 2)) <= 2147483647
  /\ contiguous_from_0
       (history_nums
          (snd (dt_history_copy_and_paste_on_image example_flag example_iop
                                                   example_db 1 2 true [])) 2).
Proof.
  assert (H1 : contiguous_from_0 (history_nums example_db 2)).
  { vm_compute. apply Permutation_refl. }
  assert (H2 : Z.of_nat (List.length (history_nums example_db 2)) <= 2147483647).
  { vm_compute. discriminate. }
  split; [exact H1|]. split; [exact H2|].
  exact (proj1 (history_seq_contiguous example_flag example_iop example_db 2 H1 H2)
               1 2 true []).
Defined.


Lemma merge_row_match_witness :
  one_instance example_flag example_iop (h_operation two_unnamed_group) = false
  /\ ms_history (merge_row example_flag example_iop 2 two_unnamed_state
                           two_unnamed_group)
     = [example_row 2 0 "blur" 0 "0"].
Proof.
  assert (H : one_instance example_flag example_iop
                           (h_operation two_unnamed_group) = false)
    by (vm_compute; reflexivity).
  split; [exact H|].
  refine (proj1 (proj1 (merge_row_match example_flag example_iop 2
                          two_unnamed_state two_unnamed_group H)
                       (mk_style 1 0 1 "blur" [] 1 [] 7 "0" 0) _ _)).
  - exists [], [mk_style 2 1 1 "blur" [] 1 [] 7 "0" 1].
    split; [reflexivity|]. split.
    + unfold candidate. simpl. repeat split. lia.
    + intros s' [].
  - vm_compute. discriminate.
Defined.

(** C4 (as stated): two unnamed candidates are staged for blur, so the
    single-candidate condition does not hold, and still the destination's
    unnamed blur takes the first of them, which is flagged as used. *)
Lemma unnamed_label_matches_counterexample :
  ~ unnamed_matches_only_single_candidate example_flag.
Proof.
  intros H.
  specialize (H example_iop 2 two_unnamed_state two_unnamed_group).
  assert (H' : ms_style_items (merge_row example_flag example_iop 2
                                         two_unnamed_state two_unnamed_group)
               = ms_style_items two_unnamed_state).
  { apply H; vm_compute; [reflexivity|reflexivity|discriminate]. }
  vm_compute in H'. discriminate H'.
Qed.

Lemma cleanup_idempotent_on_normalized_witness :
  normalized example_flag example_iop (memory_style_items normalized_db)
  /\ (forall s, In s (memory_style_items normalized_db) ->
                (String.length (s_operation s) <= 1023)%nat)
  /\ Z.of_nat (List.length (memory_style_items normalized_db)) <= 2147483647
  /\ _dt_history_cleanup_multi_instance example_flag example_iop normalized_db
     = normalized_db.
Proof.
  assert (H1 : normalized example_flag example_iop (memory_style_items normalized_db)).
  { intros op Hop. unfold ordered_instances.
    replace (style_items_ordered (memory_style_items normalized_db))
      with [mk_style 3 7 1 "blur" [] 1 [] 7 "0" 0;
            mk_style 1 4 1 "blur" [] 1 [] 7 "soft" 1;
            mk_style 2 2 1 "exposure" [] 1 [] 7 "0" 5]
      by (vm_compute; reflexivity).
    cbn [filter s_operation].
    destruct (String.eqb_spec "blur" op) as [E|E].
    - subst op. reflexivity.
    - destruct (String.eqb_spec "exposure" op) as [E'|E'].
      + subst op. vm_compute in Hop. discriminate Hop.
      + reflexivity. }
  assert (H2 : forall s, In s (memory_style_items normalized_db) ->
                         (String.length (s_operation s) <= 1023)%nat).
  { intros s [<-|[<-|[<-|[]]]]; simpl; lia. }
  assert (H3 : Z.of_nat (List.length (memory_style_items normalized_db)) <= 2147483647).
  { vm_compute. discriminate. }
  split; [exact H1|]. split; [exact H2|]. split; [exact H3|].
  exact (proj1 (proj2 (cleanup_idempotent_on_normalized example_flag example_iop
                         normalized_db H1 H2 H3))).
Defined.

Lemma unmatched_group_gets_next_free_witness :
  mergeable (memory_style_items survivors_db)
  /\ merge_groups (main_history survivors_shifted) (memory_style_items survivors_db) 2
     = survivors_pre ++ survivors_group :: []
  /\ one_instance example_flag example_iop (h_operation survivors_group) = false
  /\ label_match (ms_style_items survivors_state) survivors_group = false
  /\ multi_priority_next
       (merge_row example_flag example_iop 2 survivors_state survivors_group) = 2
  /\ relabelled 2 "blur" 3 2
       [example_row 2 0 "blur" 0 "soft"; example_row 2 1 "blur" 1 "strong";
        example_row 2 2 "blur" 3 "extra"]
       [example_row 2 0 "blur" 0 "soft"; example_row 2 1 "blur" 1 "strong";
        example_row 2 2 "blur" 2 "extra"].
Proof.
  assert (H0 : mergeable (memory_style_items survivors_db)).
  { intros s [<-|[]]. simpl. repeat split; try lia. discriminate. }
  assert (H1 : merge_groups (main_history survivors_shifted)
                            (memory_style_items survivors_db) 2
               = survivors_pre ++ survivors_group :: [])
    by (vm_compute; reflexivity).
  assert (H2 : one_instance example_flag example_iop (h_operation survivors_group)
               = false) by (vm_compute; reflexivity).
  assert (H3 : forall r, In r (main_history survivors_db) -> h_imgid r = 2 ->
                         0 <= h_multi_priority r).
  { intros r [<-|[<-|[<-|[]]]] _; simpl; lia. }
  assert (H4 : forall r s, In r (main_history survivors_db) -> h_imgid r = 2 ->
                           In s (memory_style_items survivors_db) ->
                           s_operation s = h_operation r ->
                           h_multi_priority r + s_multi_priority s < 2147483647).
  { intros r s [<-|[<-|[<-|[]]]] _ [<-|[]] _; simpl; lia. }
  assert (H6 : label_match (ms_style_items survivors_state) survivors_group = false)
    by (vm_compute; reflexivity).
  split; [exact H0|]. split; [exact H1|]. split; [exact H2|]. split; [exact H6|].
  destruct (unmatched_group_gets_next_free example_flag example_iop survivors_db 2
              survivors_pre survivors_group [] H0 H3 H4 H1 H2 H6)
    as (m & Hmax & Hnext & Hrel & _).
  assert (Em : m = 0).
  { destruct Hmax as [(s & [<-|[]] & _ & Hm) _]. now rewrite <- Hm. }
  subst m. split; [exact Hnext|exact Hrel].
Defined.

Lemma single_instance_never_duplicates_witness :
  1 <> 2 /\ 1 <> -1
  /\ one_instance example_flag example_iop "exposure" = true
  /\ NoDup (history_nums example_db 1)
  /\ live_instances (main_history example_db) 2 "exposure" = [0]
  /\ (exists h, In h (staged_rows (main_history example_db) 1 true [])
                /\ h_operation h = "exposure"%string)
  /\ live_instances
       (main_history
          (snd (dt_history_copy_and_paste_on_image example_flag example_iop
                                                   example_db 1 2 true [])))
       2 "exposure" = [0].
Proof.
  assert (H1 : 1 <> 2) by lia.
  assert (H2 : 1 <> -1) by lia.
  assert (H3 : one_instance example_flag example_iop "exposure" = true)
    by (vm_compute; reflexivity).
  assert (H4 : forall h, In h (main_history example_db) -> 0 <= h_num h < 2147483647).
  { intros h [<-|[<-|[<-|[<-|[<-|[]]]]]]; simpl; lia. }
  assert (H5 : NoDup (history_nums example_db 1)).
  { change (NoDup [0; 1]). constructor.
    - intros [H|[]]. discriminate H.
    - constructor; [intros []|constructor]. }
  assert (H6 : live_instances (main_history example_db) 2 "exposure" = [0])
    by (vm_compute; reflexivity).
  assert (H7 : forall h, In h (history_of (main_history example_db) 1) ->
                         h_operation h = "exposure"%string ->
                         h_multi_priority h = 0).
  { intros h [<-|[<-|[]]] _; reflexivity. }
  assert (H8 : exists h, In h (staged_rows (main_history example_db) 1 true [])
                         /\ h_operation h = "exposure"%string).
  { exists (example_row 1 1 "exposure" 0 "0"). split; [|reflexivity].
    change (In (example_row 1 1 "exposure" 0 "0")
               [example_row 1 0 "blur" 0 "soft"; example_row 1 1 "exposure" 0 "0"]).
    right. left. reflexivity. }
  split; [exact H1|]. split; [exact H2|]. split; [exact H3|].
  split; [exact H5|]. split; [exact H6|]. split; [exact H8|].
  exact (proj1 (single_instance_never_duplicates example_flag example_iop example_db
                  1 2 [] "exposure" H1 H2 H3 H4 H5 H6 H7 H8)).
Defined.


(** At the largest 64-bit seq the sum MAX(num) + 1 is the REAL 2^63, and
    the [int] read from it is -1: the pasted entries are numbered from
    there. *)
Example next_num_at_largest_seq :
  sqlite3_column_int
    (next_num [example_row 2 9223372036854775807 "blur" 0 "soft"] 2) = -1
  /\ sqlite3_column_int (next_num [example_row 2 6 "blur" 0 "soft"] 2) = 7.
Proof. split; reflexivity. Qed.

(** A merge with a survivor: image 2 carries the blurs "soft"
    (instance 0) and "strong" (instance 1), image 1 the blur "soft".  After
    the paste in merge mode image 2 has the two instances 0 and 1: the
    pasted row sits in the slot of "soft", and "strong" keeps a number of
    its own. *)
Example merge_preserves_survivors :
  map (fun h => (h_num h, h_multi_priority h, h_multi_name h))
      (filter (fun h => String.eqb (h_operation h) "blur")
              (history_of
                 (main_history
                    (snd (dt_history_copy_and_paste_on_image
                            example_flag example_iop example_db 1 2 true [])))
                 2))
  = [(0, 0, "soft"%string); (1, 1, "strong"%string); (3, 0, "soft"%string)]
  /\ live_instances
       (main_history
          (snd (dt_history_copy_and_paste_on_image
                  example_flag example_iop example_db 1 2 true [])))
       2 "blur"
     = [1; 0].
Proof.
  split; vm_compute; reflexivity.
Qed.

Example cleanup_idempotent_on_gapped :
  memory_style_items
    (_dt_history_cleanup_multi_instance example_flag example_iop gapped_db)
  = [mk_style 1 4 1 "blur" [] 1 [] 7 "soft" 1;
     mk_style 2 2 1 "exposure" [] 1 [] 7 "0" 5;
     mk_style 3 7 1 "blur" [] 1 [] 7 "0" 0]
  /\ _dt_history_cleanup_multi_instance example_flag example_iop
       (_dt_history_cleanup_multi_instance example_flag example_iop gapped_db)
     = _dt_history_cleanup_multi_instance example_flag example_iop gapped_db.
Proof.
  split; [vm_compute; reflexivity|].
  apply cleanup_idempotent.
  - split.
    + vm_compute. repeat constructor; simpl; intuition discriminate.
    + intros s [<-|[<-|[<-|[]]]]; simpl; lia.
  - intros s [<-|[<-|[<-|[]]]]; simpl; lia.
  - vm_compute. discriminate.
Qed.

Lemma paste_touches_only_destination_witness :
  1 <> 2
  /\ history_of
       (main_history
          (snd (dt_history_copy_and_paste_on_image example_flag example_iop
                                                   example_db 1 2 true []))) 1
     = history_of (main_history example_db) 1.
Proof.
  assert (H : 1 <> 2) by lia.
  split; [exact H|].
  exact (proj1 (paste_touches_only_destination example_flag example_iop example_db
                                               1 2 true [] 1 H)).
Defined.

Lemma paste_makes_whole_stack_active_witness :
  3 <> 2 /\ 3 <> -1
  /\ In 2 (map i_id (main_images empty_source_db))
  /\ contiguous_from_0 (history_nums empty_source_db 2)
  /\ history_nums
       (snd (dt_history_copy_and_paste_on_image example_flag example_iop
                                                empty_source_db 3 2 false [])) 2 = []
  /\ history_end_of
       (main_images
          (snd (dt_history_copy_and_paste_on_image example_flag example_iop
                                                   empty_source_db 3 2 false []))) 2
     = None.
Proof.
  assert (H1 : 3 <> 2) by lia.
  assert (H2 : 3 <> -1) by lia.
  assert (H3 : In 2 (map i_id (main_images empty_source_db)))
    by (right; left; reflexivity).
  assert (H4 : contiguous_from_0 (history_nums empty_source_db 2)).
  { vm_compute. apply Permutation_refl. }
  assert (H5 : Z.of_nat (List.length (history_nums empty_source_db 2)) <= 2147483647).
  { vm_compute. discriminate. }
  assert (H6 : history_nums
                 (snd (dt_history_copy_and_paste_on_image example_flag example_iop
                                                          empty_source_db 3 2 false []))
                 2 = []).
  { vm_compute. reflexivity. }
  split; [exact H1|]. split; [exact H2|]. split; [exact H3|]. split; [exact H4|].
  split; [exact H6|].
  pose proof (paste_makes_whole_stack_active example_flag example_iop empty_source_db
                3 2 false [] H1 H2 H3 H4 H5) as T.
  cbv zeta in T. rewrite H6 in T. exact T.
Defined.

Lemma paste_ignores_previous_staging_witness :
  1 <> 2 /\ 1 <> -1
  /\ dt_history_copy_and_paste_on_image example_flag example_iop
       (set_style_items example_db (memory_style_items gapped_db)) 1 2 true []
     = dt_history_copy_and_paste_on_image example_flag example_iop example_db
                                          1 2 true [].
Proof.
  assert (H1 : 1 <> 2) by lia.
  assert (H2 : 1 <> -1) by lia.
  split; [exact H1|]. split; [exact H2|].
  exact (paste_ignores_previous_staging example_flag example_iop example_db 1 2 true []
                                        (memory_style_items gapped_db) H1 H2).
Defined.

Lemma paste_merge_keeps_entries_witness :
  1 <> 2 /\ 1 <> -1
  /\ exists kept pasted,
       main_history
         (snd (dt_history_copy_and_paste_on_image example_flag example_iop example_db
                                                  1 2 true []))
       = kept ++ pasted
       /\ map h_entry kept
          = map h_entry (trim_history (main_history example_db)
                                      (main_images example_db) 2)
       /\ map h_entry pasted
          = map h_entry
              (renumbered 2
                 (sqlite3_column_int
                    (next_num (trim_history (main_history example_db)
                                            (main_images example_db) 2) 2))
                 (staged_rows (trim_history (main_history example_db)
                                            (main_images example_db) 2) 1 true [])).
Proof.
  assert (H1 : 1 <> 2) by lia.
  assert (H2 : 1 <> -1) by lia.
  split; [exact H1|]. split; [exact H2|].
  exact (paste_merge_keeps_entries example_flag example_iop example_db 1 2 [] H1 H2).
Defined.

Lemma paste_merge_accumulates_masks_witness :
  1 <> 2 /\ 1 <> -1
  /\ mask_of
       (main_mask
          (snd (dt_history_copy_and_paste_on_image example_flag example_iop
                  (snd (dt_history_copy_and_paste_on_image example_flag example_iop
                                                           example_db 1 2 true []))
                  1 2 true []))) 2
     = [mk_mask 2 12 1 "circle" 1 [] 1 [];
        mk_mask 2 11 1 "path" 1 [] 4 [];
        mk_mask 2 11 1 "path" 1 [] 4 []].
Proof.
  assert (H1 : 1 <> 2) by lia.
  assert (H2 : 1 <> -1) by lia.
  split; [exact H1|]. split; [exact H2|].
  exact (proj2 (proj2 (paste_merge_accumulates_masks example_flag example_iop example_db
                                                     1 2 [] [] H1 H2))).
Defined.

Lemma gapped_well_staged :
  well_staged (memory_style_items gapped_db)
  /\ (forall s, In s (memory_style_items gapped_db) ->
                (String.length (s_operation s) <= 1023)%nat)
  /\ Z.of_nat (List.length (memory_style_items gapped_db)) <= 2147483647.
Proof.
  split; [split|split].
  - vm_compute. repeat constructor; simpl; intuition discriminate.
  - intros s [<-|[<-|[<-|[]]]]; simpl; lia.
  - intros s [<-|[<-|[<-|[]]]]; simpl; lia.
  - vm_compute. discriminate.
Defined.

Lemma cleanup_renumbers_only_multi_instance_witness :
  well_staged (memory_style_items gapped_db)
  /\ normalized example_flag example_iop
       (memory_style_items
          (_dt_history_cleanup_multi_instance example_flag example_iop gapped_db)).
Proof.
  split; [exact (proj1 gapped_well_staged)|].
  exact (proj1 (cleanup_renumbers_only_multi_instance
                  example_flag example_iop gapped_db
                  (proj1 gapped_well_staged) (proj1 (proj2 gapped_well_staged)))).
Defined.

Lemma cleanup_twice_is_once_witness :
  well_staged (memory_style_items gapped_db)
  /\ _dt_history_cleanup_multi_instance example_flag example_iop
       (_dt_history_cleanup_multi_instance example_flag example_iop gapped_db)
     = _dt_history_cleanup_multi_instance example_flag example_iop gapped_db.
Proof.
  split; [exact (proj1 gapped_well_staged)|].
  exact (proj2 (cleanup_twice_is_once
                  example_flag example_iop gapped_db
                  (proj1 gapped_well_staged) (proj1 (proj2 gapped_well_staged))
                  (proj2 (proj2 gapped_well_staged)))).
Defined.

Lemma append_makes_room_witness :
  In (example_row 2 0 "blur" 1 "soft")
     (main_history (_history_rebuild_multi_priority_append example_flag example_iop
                                                           survivors_db 2))
  /\ one_instance example_flag example_iop "blur" = false
  /\ In (mk_style 1 0 1 "blur" [] 1 [] 7 "soft" 0) (memory_style_items survivors_db)
  /\ s_multi_priority (mk_style 1 0 1 "blur" [] 1 [] 7 "soft" 0)
     < h_multi_priority (example_row 2 0 "blur" 1 "soft").
Proof.
  assert (H0 : forall h, In h (main_history survivors_db) -> h_imgid h = 2 ->
                         0 <= h_multi_priority h).
  { intros h [<-|[<-|[<-|[]]]] _; simpl; lia. }
  assert (H1 : In (example_row 2 0 "blur" 1 "soft")
                  (main_history (_history_rebuild_multi_priority_append
                                   example_flag example_iop survivors_db 2))).
  { vm_compute. left. reflexivity. }
  assert (H2 : one_instance example_flag example_iop "blur" = false)
    by (vm_compute; reflexivity).
  assert (H3 : In (mk_style 1 0 1 "blur" [] 1 [] 7 "soft" 0)
                  (memory_style_items survivors_db)) by (left; reflexivity).
  split; [exact H1|]. split; [exact H2|]. split; [exact H3|].
  exact (append_makes_room example_flag example_iop survivors_db 2
           (example_row 2 0 "blur" 1 "soft") (mk_style 1 0 1 "blur" [] 1 [] 7 "soft" 0)
           H0 H1 eq_refl H2 H3 eq_refl).
Defined.

Lemma get_items_lists_last_entries_witness :
  NoDup (history_nums edited_db 3)
  /\ map (fun it => (item_num it, item_op it))
         (dt_history_get_items (fun op => op) "on" "off" edited_db 3 false)
     = [(4294967295, "blur"%string); (2, "blur"%string); (1, "exposure"%string)].
Proof.
  assert (H : NoDup (history_nums edited_db 3)).
  { vm_compute. repeat constructor; simpl; intuition discriminate. }
  split; [exact H|].
  exact (proj1 (proj2 (get_items_lists_last_entries (fun op => op) "on" "off"
                                                    edited_db 3 H))).
Defined.

Lemma merge_keeps_instances_apart_witness :
  mergeable (memory_style_items survivors_db)
  /\ In (example_row 2 2 "blur" 2 "extra")
        (main_history (dt_history_rebuild_multi_priority_merge
                         example_flag example_iop survivors_db 2))
  /\ (above_staged (memory_style_items survivors_db) "blur" 2
      \/ used_instance
           (memory_style_items (dt_history_rebuild_multi_priority_merge
                                  example_flag example_iop survivors_db 2))
           "blur" 2).
Proof.
  assert (H1 : mergeable (memory_style_items survivors_db)).
  { intros s [<-|[]]. simpl. repeat split; try lia. discriminate. }
  assert (H2 : forall h, In h (main_history survivors_db) -> h_imgid h = 2 ->
                         0 <= h_multi_priority h).
  { intros h [<-|[<-|[<-|[]]]] _; simpl; lia. }
  assert (H3 : In (example_row 2 2 "blur" 2 "extra")
                  (main_history (dt_history_rebuild_multi_priority_merge
                                   example_flag example_iop survivors_db 2))).
  { vm_compute. right. right. left. reflexivity. }
  assert (H4 : one_instance example_flag example_iop "blur" = false)
    by (vm_compute; reflexivity).
  assert (H5 : forall h s, In h (main_history survivors_db) -> h_imgid h = 2 ->
                           In s (memory_style_items survivors_db) ->
                           s_operation s = h_operation h ->
                           h_multi_priority h + s_multi_priority s < 2147483647).
  { intros h s [<-|[<-|[<-|[]]]] _ [<-|[]] _; simpl; lia. }
  split; [exact H1|]. split; [exact H3|].
  exact (merge_keeps_instances_apart example_flag example_iop survivors_db 2 H1 H2 H5
           (example_row 2 2 "blur" 2 "extra") H3 eq_refl H4).
Defined.

Lemma replace_forgets_earlier_paste_witness :
  1 <> 2 /\ 1 <> -1
  /\ dt_history_copy_and_paste_on_image example_flag example_iop
       (snd (dt_history_copy_and_paste_on_image example_flag example_iop example_db
                                                1 2 true []))
       1 2 false [1]
     = dt_history_copy_and_paste_on_image example_flag example_iop example_db
                                          1 2 false [1].
Proof.
  assert (H1 : 1 <> 2) by lia.
  assert (H2 : 1 <> -1) by lia.
  split; [exact H1|]. split; [exact H2|].
  exact (replace_forgets_earlier_paste example_flag example_iop example_db 1 true []
                                       1 2 [1] H1 H2).
Defined.

Lemma batch_gives_each_image_its_own_paste_witness :
  0 <= 1
  /\ NoDup (main_selected_images example_db)
  /\ history_of
       (main_history
          (snd (dt_history_copy_and_paste_on_selection example_flag example_iop
                                                       example_db 1 true []))) 2
     = history_of
         (main_history
            (snd (dt_history_copy_and_paste_on_image example_flag example_iop
                                                     example_db 1 2 true []))) 2.
Proof.
  assert (H1 : 0 <= 1) by lia.
  assert (H2 : NoDup (main_selected_images example_db)).
  { repeat constructor; simpl; intuition discriminate. }
  assert (H3 : forall row, In row (main_selected_images example_db) ->
                           -2147483648 <= row <= 2147483647).
  { intros row [<-|[<-|[]]]; lia. }
  assert (H4 : In 2 (other_selected (main_selected_images example_db) 1)).
  { vm_compute. left. reflexivity. }
  split; [exact H1|]. split; [exact H2|].
  exact (proj1 (proj1 (batch_gives_each_image_its_own_paste
                         example_flag example_iop example_db 1 true [] H1 H2 H3)
                      2 H4)).
Defined.

Lemma request_fits_159_entries_witness :
  (List.length three_entries <= 159)%nat
  /\ req_complete three_entries = true.
Proof.
  assert (H : (List.length three_entries <= 159)%nat) by (simpl; lia).
  split; [exact H|].
  exact (proj1 (request_fits_159_entries three_entries H)).
Defined.

(** With 160 entries of ten digits each the request is cut. *)
Example request_cut_at_160_entries :
  req_complete (repeat 4294967295 160) = false.
Proof. vm_compute. reflexivity. Qed.

Lemma example_source_rows :
  NoDup (history_nums example_db 1)
  /\ (forall h, In h (history_of (main_history example_db) 1) ->
                -2147483648 <= h_num h <= 2147483647
                /\ -2147483648 <= h_multi_priority h <= 2147483647
                /\ (String.length (h_operation h) <= 1023)%nat).
Proof.
  split.
  - vm_compute. repeat constructor; simpl; intuition discriminate.
  - intros h [<-|[<-|[]]]; simpl; repeat split; lia.
Defined.

Lemma paste_merge_numbers_pasted_instances_witness :
  1 <> 2 /\ 1 <> -1
  /\ NoDup (history_nums example_db 1)
  /\ normalized example_flag example_iop
       (memory_style_items
          (snd (dt_history_copy_and_paste_on_image example_flag example_iop
                                                   example_db 1 2 true []))).
Proof.
  assert (H1 : 1 <> 2) by lia.
  assert (H2 : 1 <> -1) by lia.
  split; [exact H1|]. split; [exact H2|]. split; [exact (proj1 example_source_rows)|].
  exact (proj1 (paste_merge_numbers_pasted_instances
                  example_flag example_iop example_db 1 2 [] H1 H2
                  (proj1 example_source_rows) (proj2 example_source_rows))).
Defined.

Lemma merge_keeps_destination_instances_witness :
  mergeable (memory_style_items survivors_db)
  /\ (h_multi_priority (example_row 2 0 "blur" 0 "soft")
      = h_multi_priority (example_row 2 2 "blur" 2 "extra")
      <-> h_multi_priority (example_row 2 0 "blur" 0 "soft")
          = h_multi_priority (example_row 2 2 "blur" 2 "extra")).
Proof.
  assert (H1 : mergeable (memory_style_items survivors_db)).
  { intros s [<-|[]]. simpl. repeat split; try lia. discriminate. }
  assert (H2 : NoDup (map s_key
                          (filter (fun s => negb (one_instance example_flag example_iop
                                                               (s_operation s)))
                                  (memory_style_items survivors_db)))).
  { vm_compute. constructor; [intros []|constructor]. }
  assert (H3 : forall r, In r (main_history survivors_db) -> h_imgid r = 2 ->
                         0 <= h_multi_priority r).
  { intros r [<-|[<-|[<-|[]]]] _; simpl; lia. }
  assert (H4 : forall r s, In r (main_history survivors_db) -> h_imgid r = 2 ->
                           In s (memory_style_items survivors_db) ->
                           s_operation s = h_operation r ->
                           h_multi_priority r + s_multi_priority s < 2147483647).
  { intros r s [<-|[<-|[<-|[]]]] _ [<-|[]] _; simpl; lia. }
  assert (H5 : In (example_row 2 0 "blur" 0 "soft", example_row 2 0 "blur" 0 "soft")
                  (combine (main_history survivors_db)
                           (main_history (dt_history_rebuild_multi_priority_merge
                                            example_flag example_iop survivors_db 2)))).
  { vm_compute. left. reflexivity. }
  assert (H6 : In (example_row 2 2 "blur" 2 "extra", example_row 2 2 "blur" 2 "extra")
                  (combine (main_history survivors_db)
                           (main_history (dt_history_rebuild_multi_priority_merge
                                            example_flag example_iop survivors_db 2)))).
  { vm_compute. right. right. left. reflexivity. }
  assert (H7 : one_instance example_flag example_iop "blur" = false)
    by (vm_compute; reflexivity).
  split; [exact H1|].
  exact (merge_keeps_destination_instances example_flag example_iop survivors_db 2
           (example_row 2 0 "blur" 0 "soft") (example_row 2 0 "blur" 0 "soft")
           (example_row 2 2 "blur" 2 "extra") (example_row 2 2 "blur" 2 "extra")
           H1 H2 H3 H4 H5 H6 eq_refl eq_refl H7).
Defined.
